(** * Dataset cleaner: the tabular cleaning and feature engine

    A shallow embedding of the core of the dataset cleaner application
    ([data_layer/DatasetManager.py], [data_layer/DataValidator.py],
    [business_layer/DataCleaningController.py] and
    [business_layer/FeatureEngineeringController.py]) together with the part
    of pandas, numpy and scikit-learn these files call.

    Layout: the data model and the operations come first, module per Python
    class; the lemmas and the theorems about them follow. *)

From Stdlib Require Import List String Ascii ZArith QArith Bool Arith Lia.
From Stdlib Require Import Qabs DecimalString DecimalZ DecimalFacts DecimalPos.
From Stdlib Require Import Permutation Sorted.
Import ListNotations.

Local Open Scope list_scope.
Local Open Scope string_scope.
Local Close Scope Q_scope.
Local Open Scope nat_scope.

Local Abbreviation length := List.length.

(** ** Python values shared by every layer *)

(** [str(n)] for a Python integer. *)
Definition string_of_Z (z : Z) : string := NilZero.string_of_int (Z.to_int z).

Definition string_of_nat (n : nat) : string := string_of_Z (Z.of_nat n).

(** [c in s] for a one-character string [c]: the test behind
    [dtype.kind in "biufc"]. *)
Fixpoint char_in (c : ascii) (s : string) : bool :=
  match s with
  | EmptyString => false
  | String a s' => Ascii.eqb c a || char_in c s'
  end.

(** [x in xs] for a list of strings. *)
Definition str_in (x : string) (xs : list string) : bool :=
  existsb (String.eqb x) xs.

(** [', '.join(xs)]. *)
Fixpoint join (sep : string) (xs : list string) : string :=
  match xs with
  | [] => ""
  | [x] => x
  | x :: rest => x ++ sep ++ join sep rest
  end.

(** A Python list used as a stack: [append] adds at the end, [pop()] removes
    and returns the last element. *)
Definition py_append {A : Type} (l : list A) (x : A) : list A := (l ++ [x])%list.

Fixpoint py_pop {A : Type} (l : list A) : option (A * list A) :=
  match l with
  | [] => None
  | [x] => Some (x, [])
  | x :: rest =>
      match py_pop rest with
      | Some (y, rest') => Some (y, x :: rest')
      | None => None
      end
  end.

(** [d[k] = v] for a Python dictionary, which keeps its keys in the order
    they were first set: the value of a key it holds is replaced where it
    stands, a new key goes last. *)
Fixpoint dict_set {V : Type} (d : list (string * V)) (k : string) (v : V)
  : list (string * V) :=
  match d with
  | [] => [(k, v)]
  | (k', v') :: rest =>
      if String.eqb k' k then (k, v) :: rest else (k', v') :: dict_set rest k v
  end.

(** [d.get(k)] *)
Fixpoint dict_get {V : Type} (d : list (string * V)) (k : string) : option V :=
  match d with
  | [] => None
  | (k', v) :: rest => if String.eqb k' k then Some v else dict_get rest k
  end.

(** [s.endswith(suffix)]: some tail of [s] is [suffix]. *)
Fixpoint endswith (s suffix : string) : bool :=
  String.eqb s suffix
  || match s with
     | EmptyString => false
     | String _ s' => endswith s' suffix
     end.

(** [l[:n]]: the first [n] entries, and all but the last [-n] for a
    negative [n]. *)
Definition py_slice_to {A : Type} (n : Z) (l : list A) : list A :=
  if (0 <=? n)%Z then firstn (Z.to_nat n) l
  else firstn (length l - Z.to_nat (- n)) l.

(** The truth value of an optional integer: [None] and [0] are false. *)
Definition truthy (id : option Z) : bool :=
  match id with
  | Some z => negb (z =? 0)%Z
  | None => false
  end.

(** [a == b] for two optional integers. *)
Definition id_eqb (a b : option Z) : bool :=
  match a, b with
  | Some x, Some y => (x =? y)%Z
  | None, None => true
  | _, _ => false
  end.

(** [s.split(c)[-1]]: what follows the last [c] of [s], all of [s] when it
    holds none. *)
Fixpoint after_last (c : ascii) (s : string) : string :=
  match s with
  | EmptyString => EmptyString
  | String a rest =>
      if char_in c rest then after_last c rest
      else if Ascii.eqb a c then rest else s
  end.

(** [f"{n:,}"]: the digits of [n] in groups of three. *)
Fixpoint group3 (digits : list ascii) : list ascii :=
  match digits with
  | a :: b :: c :: ((_ :: _) as rest) => a :: b :: c :: ","%char :: group3 rest
  | _ => digits
  end.

Definition comma_str (n : nat) : string :=
  string_of_list_ascii
    (rev (group3 (rev (list_ascii_of_string (string_of_nat n))))).

(** The line feed. *)
Definition nl : string := String (ascii_of_nat 10) EmptyString.

(** ** pandas: the data frame model

    A frame is column-major, as pandas stores it: an index of row labels and
    an ordered list of columns, every column a label, a dtype and one cell
    per row.  A cell is a value or the missing marker; [NaN], [None] and
    [NaT] are all [NA].  A finite float is idealised as an exact rational (no
    rounding, no overflow); the two infinities are kept because the
    arithmetic treats them apart: their sum is [NaN]. *)
Module pd.

Inductive dtype : Type :=
| bool_
| int64
| float64
| object_
| datetime64.

(** [dtype.kind]. *)
Definition kind (d : dtype) : ascii :=
  match d with
  | bool_ => "b"
  | int64 => "i"
  | float64 => "f"
  | object_ => "O"
  | datetime64 => "M"
  end%char.

(** Membership in numpy's [np.number]: integers and floats, not booleans. *)
Definition is_np_number (d : dtype) : bool :=
  match d with
  | int64 | float64 => true
  | _ => false
  end.

Inductive Flt : Type :=
| Fin (q : Q)
| PInf
| NInf.

Inductive Cell : Type :=
| NA
| VBool (b : bool)
| VInt (z : Z)
| VFloat (x : Flt)
| VStr (s : string)
| VTime (t : Z).

Definition flt_eqb (x y : Flt) : bool :=
  match x, y with
  | Fin a, Fin b => Qeq_bool a b
  | PInf, PInf => true
  | NInf, NInf => true
  | _, _ => false
  end.

(** Equality of two cells of one column as [duplicated] sees it: by value,
    and two missing cells are equal. *)
Definition cell_eqb (a b : Cell) : bool :=
  match a, b with
  | NA, NA => true
  | VBool x, VBool y => Bool.eqb x y
  | VInt x, VInt y => Z.eqb x y
  | VFloat x, VFloat y => flt_eqb x y
  | VStr x, VStr y => String.eqb x y
  | VTime x, VTime y => Z.eqb x y
  | _, _ => false
  end.

Definition flt_leb (x y : Flt) : bool :=
  match x, y with
  | NInf, _ => true
  | _, PInf => true
  | Fin a, Fin b => Qle_bool a b
  | _, _ => false
  end.

(** The order [sort_values] uses inside one column; cells of different
    types never share a column of a well-typed frame. *)
Definition cell_leb (a b : Cell) : bool :=
  match a, b with
  | VBool x, VBool y => implb x y
  | VInt x, VInt y => Z.leb x y
  | VFloat x, VFloat y => flt_leb x y
  | VStr x, VStr y => String.leb x y
  | VTime x, VTime y => Z.leb x y
  | _, _ => true
  end.

(** [isna] of one cell. *)
Definition isna (c : Cell) : bool :=
  match c with
  | NA => true
  | _ => false
  end.

Definition notna (c : Cell) : bool := negb (isna c).

Record Series : Type := mkSeries {
  name : string;
  dt : dtype;
  values : list Cell
}.

Record DataFrame : Type := mkFrame {
  index : list Z;
  cols : list Series
}.

(** [pd.DataFrame()]. *)
Definition DataFrame_new : DataFrame := {| index := []; cols := [] |}.

(** [len(df)]. *)
Definition len (df : DataFrame) : nat := length (index df).

(** [df.columns]. *)
Definition columns (df : DataFrame) : list string := map name (cols df).

(** [df.shape]. *)
Definition shape (df : DataFrame) : nat * nat := (len df, length (cols df)).

(** [df.empty]: true when either axis has length zero. *)
Definition empty (df : DataFrame) : bool :=
  (len df =? 0) || (length (cols df) =? 0).

(** [df[c]] for a label of the frame, which one column has; of several
    columns with the label this is the first. *)
Definition getitem (df : DataFrame) (c : string) : option Series :=
  find (fun s => String.eqb (name s) c) (cols df).

(** [df[c] = values]: the column of that label is overwritten where it
    stands; a new label is appended as the last column. *)
Definition setitem (df : DataFrame) (c : string) (d : dtype)
  (vs : list Cell) : DataFrame :=
  if str_in c (columns df)
  then {| index := index df;
          cols := map (fun s => if String.eqb (name s) c
                                then {| name := c; dt := d; values := vs |}
                                else s) (cols df) |}
  else {| index := index df;
          cols := (cols df ++ [{| name := c; dt := d; values := vs |}])%list |}.

(** [df.drop(columns=[c])]. *)
Definition drop_column (df : DataFrame) (c : string) : DataFrame :=
  {| index := index df;
     cols := filter (fun s => negb (String.eqb (name s) c)) (cols df) |}.

(** [pd.concat([df, extra], axis=1)] for columns over the same index. *)
Definition concat_columns (df : DataFrame) (extra : list Series) : DataFrame :=
  {| index := index df; cols := (cols df ++ extra)%list |}.

(** [s.count()]: the cells that are not missing. *)
Definition count (s : Series) : nat := length (filter notna (values s)).

(** [s.isnull().sum()]. *)
Definition isnull_sum (s : Series) : nat := length (filter isna (values s)).

(** [s.isnull().any()] and [s.isna().all()]. *)
Definition isnull_any (s : Series) : bool := existsb isna (values s).

Definition isna_all (s : Series) : bool := forallb isna (values s).

(** [df.isnull().sum().sum()]. *)
Definition isnull_sum_sum (df : DataFrame) : nat :=
  fold_right (fun s acc => isnull_sum s + acc) 0 (cols df).

(** [df.replace(to_replace, np.nan)] for a list of strings: a cell that is
    one of the strings, exactly, becomes missing.  The dtype of a column is
    left as it was. *)
Definition replace_cell (to_replace : list string) (c : Cell) : Cell :=
  match c with
  | VStr s => if str_in s to_replace then NA else c
  | _ => c
  end.

Definition replace_series (to_replace : list string) (s : Series) : Series :=
  {| name := name s; dt := dt s;
     values := map (replace_cell to_replace) (values s) |}.

Definition replace (to_replace : list string) (df : DataFrame) : DataFrame :=
  {| index := index df; cols := map (replace_series to_replace) (cols df) |}.

(** [df.dropna(axis=1, how="all")]: pandas keeps the columns whose count of
    present cells is positive. *)
Definition dropna_all (df : DataFrame) : DataFrame :=
  {| index := index df; cols := filter (fun s => 0 <? count s) (cols df) |}.

(** [df.dropna(axis=1, thresh=t)]: pandas keeps the columns whose count of
    present cells is at least [t]. *)
Definition dropna_thresh (t : Q) (df : DataFrame) : DataFrame :=
  {| index := index df;
     cols := filter (fun s => Qle_bool t (inject_Z (Z.of_nat (count s))))
               (cols df) |}.

(** [s.fillna(v)]. *)
Definition fillna_values (v : Cell) (vs : list Cell) : list Cell :=
  map (fun c => if isna c then v else c) vs.

(** The dtype a column has once [v] stands in its gaps: a string in a
    column of timestamps turns it into an object column. *)
Definition fillna_dtype (d : dtype) (v : Cell) : dtype :=
  match d, v with
  | datetime64, VStr _ => object_
  | _, _ => d
  end.

(** The fill value as the column stores it: an integer put into a column
    of floats is stored as a float. *)
Definition fill_value (d : dtype) (v : Cell) : Cell :=
  match d, v with
  | float64, VInt z => VFloat (Fin (inject_Z z))
  | _, _ => v
  end.

Definition fillna (v : Cell) (s : Series) : Series :=
  {| name := name s; dt := fillna_dtype (dt s) v;
     values := fillna_values (fill_value (dt s) v) (values s) |}.

(** *** Reductions of a column *)

Definition as_float (c : Cell) : option Flt :=
  match c with
  | VFloat x => Some x
  | VInt z => Some (Fin (inject_Z z))
  | VBool b => Some (Fin (if b then 1%Q else 0%Q))
  | _ => None
  end.

(** Addition of floats; [None] is [NaN]. *)
Definition flt_add (a b : option Flt) : option Flt :=
  match a, b with
  | Some (Fin x), Some (Fin y) => Some (Fin (x + y)%Q)
  | Some PInf, Some NInf => None
  | Some NInf, Some PInf => None
  | Some PInf, Some _ => Some PInf
  | Some _, Some PInf => Some PInf
  | Some NInf, Some _ => Some NInf
  | Some _, Some NInf => Some NInf
  | _, _ => None
  end.

Definition present_floats (vs : list Cell) : list Flt :=
  fold_right (fun c acc => match as_float c with
                           | Some x => x :: acc
                           | None => acc
                           end) [] vs.

Definition flt_sum (xs : list Flt) : option Flt :=
  fold_left (fun acc x => flt_add acc (Some x)) xs (Some (Fin 0%Q)).

(** [s.mean()]: the sum of the present values over their number; [NaN] for
    a column with no present value and when the sum is [NaN]. *)
Definition mean_values (vs : list Cell) : Cell :=
  let xs := present_floats vs in
  match xs with
  | [] => NA
  | _ =>
      match flt_sum xs with
      | Some (Fin s) => VFloat (Fin (s / inject_Z (Z.of_nat (length xs)))%Q)
      | Some PInf => VFloat PInf
      | Some NInf => VFloat NInf
      | None => NA
      end
  end.

Definition mean (s : Series) : Cell := mean_values (values s).

(** [s.min()]: the least present value, [NaN] when there is none. *)
Definition min_values (vs : list Cell) : Cell :=
  fold_left (fun acc c =>
               if isna c then acc
               else if isna acc then c
               else if cell_leb acc c then acc else c) vs NA.

Definition min (s : Series) : Cell := min_values (values s).

(** Insertion sort by [cell_leb]. *)
Fixpoint insert_sorted (c : Cell) (l : list Cell) : list Cell :=
  match l with
  | [] => [c]
  | x :: rest => if cell_leb c x then c :: l else x :: insert_sorted c rest
  end.

Definition sort_cells (l : list Cell) : list Cell :=
  fold_right insert_sorted [] l.

Fixpoint distinct (l : list Cell) : list Cell :=
  match l with
  | [] => []
  | x :: rest => x :: filter (fun y => negb (cell_eqb x y)) (distinct rest)
  end.

Definition occurrences (v : Cell) (l : list Cell) : nat :=
  length (filter (cell_eqb v) l).

(** [s.mode()]: the most frequent present values, in ascending order. *)
Definition mode_values (vs : list Cell) : list Cell :=
  let present := filter notna vs in
  let top := fold_right (fun v acc => Nat.max (occurrences v present) acc)
               0 present in
  sort_cells (filter (fun v => occurrences v present =? top)
                (distinct present)).

Definition mode (s : Series) : list Cell := mode_values (values s).

(** *** Rows *)

Definition Row : Type := list Cell.

Fixpoint row_eqb (a b : Row) : bool :=
  match a, b with
  | [], [] => true
  | x :: a', y :: b' => cell_eqb x y && row_eqb a' b'
  | _, _ => false
  end.

(** The rows of [n]-cell columns: the heads of the columns, then the rows
    of their tails. *)
Fixpoint transpose (n : nat) (columns : list (list Cell)) : list Row :=
  match n with
  | 0 => []
  | S k => map (hd NA) columns :: transpose k (map (@tl Cell) columns)
  end.

Definition rows (df : DataFrame) : list Row :=
  transpose (len df) (map values (cols df)).

(** [keep="first"]: a row is a duplicate when an equal row stands above. *)
Fixpoint duplicated_first (seen rest : list Row) : list bool :=
  match rest with
  | [] => []
  | r :: rest' =>
      existsb (row_eqb r) seen :: duplicated_first (r :: seen) rest'
  end.

(** [keep=False]: a row is a duplicate when it stands in the frame at least
    twice. *)
Definition duplicated_all (rs : list Row) : list bool :=
  map (fun r => 2 <=? length (filter (row_eqb r) rs)) rs.

(** [df.duplicated()]: pandas answers with an empty mask for an empty
    frame. *)
Definition duplicated (df : DataFrame) : list bool :=
  if empty df then [] else duplicated_first [] (rows df).

(** [df.duplicated(keep=False)]. *)
Definition duplicated_keep_false (df : DataFrame) : list bool :=
  if empty df then [] else duplicated_all (rows df).

(** [mask.sum()]. *)
Definition mask_sum (m : list bool) : nat := length (filter (fun b => b) m).

(** The entries of [l] whose position is set in [m]. *)
Fixpoint select {A : Type} (m : list bool) (l : list A) : list A :=
  match m, l with
  | b :: m', x :: l' => if b then x :: select m' l' else select m' l'
  | _, _ => []
  end.

(** [df[mask]]: the rows whose position is set, labels kept. *)
Definition select_rows (m : list bool) (df : DataFrame) : DataFrame :=
  {| index := select m (index df);
     cols := map (fun s => {| name := name s; dt := dt s;
                              values := select m (values s) |}) (cols df) |}.

(** [df.drop_duplicates()]: an empty frame is returned as it is. *)
Definition drop_duplicates (df : DataFrame) : DataFrame :=
  if empty df then df
  else select_rows (map negb (duplicated_first [] (rows df))) df.

(** [df.select_dtypes(include=[np.number])]. *)
Definition select_number (df : DataFrame) : list Series :=
  filter (fun s => is_np_number (dt s)) (cols df).

(** [str(dtype)] *)
Definition dtype_str (d : pd.dtype) : string :=
  match d with
  | pd.bool_ => "bool"
  | pd.int64 => "int64"
  | pd.float64 => "float64"
  | pd.object_ => "object"
  | pd.datetime64 => "datetime64[ns]"
  end.

(** [pd.api.types.is_numeric_dtype]: numbers and booleans. *)
Definition is_numeric_dtype (d : pd.dtype) : bool :=
  match d with
  | pd.bool_ | pd.int64 | pd.float64 => true
  | _ => false
  end.

(** [pd.api.types.is_categorical_dtype]: none of the dtypes of the model is
    categorical. *)
Definition is_categorical_dtype (d : pd.dtype) : bool := false.

(** [pd.api.types.is_datetime64_any_dtype] *)
Definition is_datetime64_any_dtype (d : pd.dtype) : bool :=
  match d with
  | pd.datetime64 => true
  | _ => false
  end.

(** [df.head(n)], which is [df.iloc[:n]]. *)
Definition head (df : pd.DataFrame) (n : Z) : pd.DataFrame :=
  {| pd.index := py_slice_to n (pd.index df);
     pd.cols := map (fun s => {| pd.name := pd.name s; pd.dt := pd.dt s;
                                 pd.values := py_slice_to n (pd.values s) |})
                  (pd.cols df) |}.

End pd.

(** ** Python: exceptions, return values and the library kernels *)
Module py.

(** An exception, by the text [str(e)] gives. *)
Definition PyError : Type := string.

(** What a call does: it returns a value or it raises. *)
Inductive Outcome (A : Type) : Type :=
| Returned (a : A)
| Raised (e : PyError).

Arguments Returned {A} a.
Arguments Raised {A} e.

(** A value stored under a key of a result dictionary. *)
Inductive PyVal : Type :=
| PNat (n : nat)
| PInt (z : Z)
| PShape (s : nat * nat)
| PCell (c : pd.Cell)
| PStr (s : string).

(** The dictionary every controller operation returns:
    [{"success": ..., "message": ..., <further keys>}]. *)
Record Response : Type := mkResponse {
  success : bool;
  message : string;
  extra : list (string * PyVal)
}.

Definition Success (msg : string) (kv : list (string * PyVal)) : Response :=
  {| success := true; message := msg; extra := kv |}.

Definition Failure (msg : string) : Response :=
  {| success := false; message := msg; extra := [] |}.

(** The calls into Python builtins, numpy, pandas and scikit-learn whose
    result is a matter of floating point, of string formatting or of the
    interpreter.  They are parameters of the model: every theorem below holds
    for whatever these calls compute. *)
Record Lib : Type := mkLib {
  (** [df.memory_usage(deep=True).sum()] *)
  memory_usage_deep : pd.DataFrame -> Q;
  (** [float(value)] and [int(value)] of a text *)
  py_float : string -> Outcome pd.Cell;
  py_int : string -> Outcome Z;
  (** [str(x)] of a float *)
  float_str : pd.Flt -> string;
  (** [f"{x:.1f}"] of a float, [None] standing for [NaN] *)
  float_1f : option pd.Flt -> string;
  (** [StandardScaler().fit_transform(df[[c]])] and its two siblings *)
  StandardScaler_fit_transform : pd.Series -> Outcome (list pd.Cell);
  MinMaxScaler_fit_transform : pd.Series -> Outcome (list pd.Cell);
  RobustScaler_fit_transform : pd.Series -> Outcome (list pd.Cell);
  (** the double nearest to a number, an infinity past the largest double:
      by IEEE 754 the sum and the product of two doubles are the exact
      ones, rounded so *)
  round_double : Q -> pd.Flt;
  (** [np.log] and [np.sqrt] away from the arguments IEEE 754 fixes *)
  log_rounded : Q -> pd.Cell;
  sqrt_rounded : Q -> pd.Cell;
  (** [pd.qcut(s, n, duplicates='drop', labels=False)] *)
  qcut : pd.Series -> Z -> Outcome (pd.dtype * list pd.Cell);
  (** [s ** d] *)
  series_pow : pd.Series -> Z -> Outcome (pd.dtype * list pd.Cell);
  (** [pd.get_dummies(s, prefix=p)] *)
  get_dummies : pd.Series -> string -> Outcome (list pd.Series);
  (** [LabelEncoder().fit_transform(s.astype(str))] *)
  LabelEncoder_fit_transform : pd.Series -> Outcome (list pd.Cell);
  (** the numbers of [PCA(n).fit_transform(X)] on validated input: the
      projected columns and [explained_variance_ratio_] *)
  pca_project : list pd.Series -> nat -> list (list pd.Cell) * list pd.Cell;
  (** the text of the [ValueError] with which [PCA] refuses its input *)
  pca_refusal : list pd.Series -> Z -> string;
  (** [eval(expression, {"__builtins__": {}}, {df, np, pd})] on the frame
      [df] names: what it returns or raises, and the frame as it leaves it,
      for the expression is handed the object itself and may call a method
      that changes it in place; then the conversion of the value to a
      column of the frame on [df[name] = value] *)
  PyObject : Type;
  py_eval : string -> pd.DataFrame -> Outcome PyObject;
  py_eval_frame : string -> pd.DataFrame -> pd.DataFrame;
  as_column : pd.DataFrame -> PyObject -> Outcome (pd.dtype * list pd.Cell)
}.

End py.

(** ** Files

    Reading and writing files is the business of pandas and of the
    operating system; what a call returns or raises is a parameter of the
    model. *)
Module io.

Record Files : Type := mkFiles {
  (** [pd.read_csv(path)] and [pd.read_excel(path)] *)
  read_csv : string -> py.Outcome pd.DataFrame;
  read_excel : string -> py.Outcome pd.DataFrame;
  (** [df.to_csv(path, index=False)] and [df.to_excel(path, index=False)] *)
  to_csv : pd.DataFrame -> string -> py.Outcome unit;
  to_excel : pd.DataFrame -> string -> py.Outcome unit;
  (** [open(path, "rb").read()] *)
  read_bytes : string -> py.Outcome string
}.

End io.

(** ** models.py *)
Module models.

(** [Dataset]: the frame and where it came from; the two time stamps play
    no part in any operation and are left out. *)
Record Dataset : Type := mkDataset {
  data : option pd.DataFrame;
  file_path : option string
}.

(** [Dataset.load]: the reader is chosen by the extension; whatever is
    raised inside, the unsupported extension included, is raised again as
    [ValueError(f"Error loading file: {str(e)}")]. *)
Definition load (F : io.Files) (file_path : string)
  : py.Outcome models.Dataset :=
  let read :=
    if endswith file_path ".csv" then io.read_csv F file_path
    else if endswith file_path ".xlsx" || endswith file_path ".xls"
    then io.read_excel F file_path
    else py.Raised "Unsupported file format. Use .csv, .xlsx, or .xls" in
  match read with
  | py.Returned df =>
      py.Returned {| models.data := Some df;
                     models.file_path := Some file_path |}
  | py.Raised e => py.Raised ("Error loading file: " ++ e)
  end.

(** [Dataset.getPreview]; [None] has no [head]. *)
Definition getPreview (self : models.Dataset) (n_rows : Z)
  : py.Outcome pd.DataFrame :=
  match models.data self with
  | Some df => py.Returned (pd.head df n_rows)
  | None => py.Raised "'NoneType' object has no attribute 'head'"
  end.

End models.

(** ** data_layer/DatasetManager.py *)
Module DatasetManager.

Record t : Type := mkManager {
  current_dataset : option models.Dataset;
  dataset_history : list pd.DataFrame
}.

(** [__init__] *)
Definition init : t := {| current_dataset := None; dataset_history := [] |}.

(** [set_dataset] *)
Definition set_dataset (self : t) (dataset : option models.Dataset) : t :=
  {| current_dataset := dataset; dataset_history := dataset_history self |}.

(** [get_dataframe]: the frame of the current dataset (which may be [None]),
    a fresh empty frame when there is no dataset. *)
Definition get_dataframe (self : t) : option pd.DataFrame :=
  match current_dataset self with
  | Some ds => models.data ds
  | None => Some pd.DataFrame_new
  end.

(** [update_dataframe] *)
Definition update_dataframe (self : t) (dataframe : pd.DataFrame)
  : t * py.Response :=
  match current_dataset self with
  | Some ds =>
      ({| current_dataset :=
            Some {| models.data := Some dataframe;
                    models.file_path := models.file_path ds |};
          dataset_history := dataset_history self |},
       py.Success "" [])
  | None => (self, py.Failure "No dataset loaded")
  end.

(** A statement [df[...] = ...] on the object [get_dataframe] handed out:
    that object is the frame the dataset holds, so the dataset sees the
    assignment at once.  Without a dataset the object was a fresh frame no
    one else refers to. *)
Definition assign_in_place (self : t) (f : pd.DataFrame -> pd.DataFrame) : t :=
  match current_dataset self with
  | Some ds =>
      match models.data ds with
      | Some df =>
          {| current_dataset :=
               Some {| models.data := Some (f df);
                       models.file_path := models.file_path ds |};
             dataset_history := dataset_history self |}
      | None => self
      end
  | None => self
  end.

(** What [load_dataset] returns: [{"success": True, "dataset": ...}] or
    [{"success": False, "message": ...}]. *)
Inductive LoadResult : Type :=
| Loaded (dataset : models.Dataset)
| LoadFailed (message : string).

(** [load_dataset] *)
Definition load_dataset (F : io.Files) (self : DatasetManager.t)
  (file_path : string) : DatasetManager.t * LoadResult :=
  match models.load F file_path with
  | py.Returned ds =>
      ({| DatasetManager.current_dataset := Some ds;
          DatasetManager.dataset_history :=
            DatasetManager.dataset_history self |},
       Loaded ds)
  | py.Raised e => (self, LoadFailed e)
  end.

(** [get_dataset] *)
Definition get_dataset (self : DatasetManager.t) : option models.Dataset :=
  DatasetManager.current_dataset self.

(** [get_preview]: [None] without a dataset. *)
Definition get_preview (self : DatasetManager.t) (n_rows : Z)
  : py.Outcome (option pd.DataFrame) :=
  match DatasetManager.current_dataset self with
  | Some ds =>
      match models.getPreview ds n_rows with
      | py.Returned df => py.Returned (Some df)
      | py.Raised e => py.Raised e
      end
  | None => py.Returned None
  end.

End DatasetManager.

(** [dtype.kind in "biufc"] *)
Definition numeric_kind (d : pd.dtype) : bool := char_in (pd.kind d) "biufc".

(** ** data_layer/DataValidator.py *)
Module DataValidator.

Record Info : Type := mkInfo {
  dtypes : list (pd.dtype * nat);
  shape : nat * nat;
  memory_usage_mb : Q
}.

Record ValidationResults : Type := mkResults {
  is_valid : bool;
  errors : list string;
  warnings : list string;
  info : option Info
}.

Definition dtype_eqb (a b : pd.dtype) : bool :=
  Ascii.eqb (pd.kind a) (pd.kind b).

(** [df.dtypes.value_counts().to_dict()] *)
Definition dtype_counts (df : pd.DataFrame) : list (pd.dtype * nat) :=
  let ds := map pd.dt (pd.cols df) in
  fold_right (fun d acc =>
                if existsb (fun p => dtype_eqb (fst p) d) acc then acc
                else (d, length (filter (dtype_eqb d) ds)) :: acc) [] ds.

(** [validate_dataframe] *)
Definition validate_dataframe (L : py.Lib) (df : pd.DataFrame)
  : ValidationResults :=
  if pd.empty df then
    {| is_valid := false; errors := ["Dataframe is empty"]; warnings := [];
       info := None |}
  else
    let missing_count := pd.isnull_sum_sum df in
    let w1 := if 0 <? missing_count
              then ["Found " ++ string_of_nat missing_count ++ " missing values"]
              else [] in
    let duplicate_count := pd.mask_sum (pd.duplicated df) in
    let w2 := if 0 <? duplicate_count
              then ["Found " ++ string_of_nat duplicate_count ++ " duplicate rows"]
              else [] in
    {| is_valid := true; errors := []; warnings := (w1 ++ w2)%list;
       info := Some {| dtypes := dtype_counts df;
                       shape := pd.shape df;
                       memory_usage_mb :=
                         (py.memory_usage_deep L df / inject_Z (1024 * 1024))%Q |} |}.

Record DuplicateReport : Type := mkReport {
  duplicate_count : nat;
  duplicate_indices : list Z
}.

(** [check_duplicates] *)
Definition check_duplicates (df : pd.DataFrame) : DuplicateReport :=
  let duplicates := pd.select_rows (pd.duplicated_keep_false df) df in
  {| duplicate_count := pd.len duplicates;
     duplicate_indices := pd.index duplicates |}.

(** Whether [col] labels one column of the frame, and [df[col]] is that
    column; with a label on several columns [df[col]] is a frame of these
    columns. *)
Definition labelled_once (df : pd.DataFrame) (col : string) : bool :=
  length (filter (String.eqb col) (pd.columns df)) =? 1.

Record MissingEntry : Type := mkMissing {
  count : nat;
  percentage : Q
}.

(** [check_missing_values]: the columns with a missing cell, each with the
    number of its missing cells and their share of the rows in percent.
    Under a label that is on several columns [missing_count] is a series of
    counts, one per column, and the test [missing_count > 0] raises. *)
Definition check_missing_values (df : pd.DataFrame)
  : py.Outcome (list (string * MissingEntry)) :=
  fold_left
    (fun state col =>
       match state with
       | py.Raised e => py.Raised e
       | py.Returned missing_summary =>
           if negb (labelled_once df col) then
             py.Raised "The truth value of a Series is ambiguous. Use a.empty, a.bool(), a.item(), a.any() or a.all()."
           else
             match pd.getitem df col with
             | Some s =>
                 let missing_count := pd.isnull_sum s in
                 if 0 <? missing_count then
                   py.Returned
                     (dict_set missing_summary col
                        {| count := missing_count;
                           percentage :=
                             (inject_Z (Z.of_nat missing_count)
                              / inject_Z (Z.of_nat (pd.len df)) * 100)%Q |})
                 else py.Returned missing_summary
             | None => py.Returned missing_summary
             end
       end)
    (pd.columns df) (py.Returned []).

Record TypeInfo : Type := mkTypeInfo {
  dtype : string;
  is_numeric : bool;
  is_categorical : bool;
  is_datetime : bool
}.

(** [check_data_types]; a frame, which is what [df[col]] is under a label
    on several columns, has no [dtype]. *)
Definition check_data_types (df : pd.DataFrame)
  : py.Outcome (list (string * TypeInfo)) :=
  fold_left
    (fun state col =>
       match state with
       | py.Raised e => py.Raised e
       | py.Returned type_info =>
           if negb (labelled_once df col) then
             py.Raised "'DataFrame' object has no attribute 'dtype'"
           else
             match pd.getitem df col with
             | Some s =>
                 py.Returned
                   (dict_set type_info col
                      {| dtype := pd.dtype_str (pd.dt s);
                         is_numeric := pd.is_numeric_dtype (pd.dt s);
                         is_categorical := pd.is_categorical_dtype (pd.dt s);
                         is_datetime :=
                           pd.is_datetime64_any_dtype (pd.dt s) |})
             | None => py.Returned type_info
             end
       end)
    (pd.columns df) (py.Returned []).

End DataValidator.

(** ** data_layer/FileHandler.py *)
Module FileHandler.

(** What [load_file] returns. *)
Inductive Loaded : Type :=
| loaded (dataframe : pd.DataFrame) (file_path : string)
| load_failed (message : string).

(** [load_file] *)
Definition load_file (F : io.Files) (file_path : string) : Loaded :=
  let read :=
    if endswith file_path ".csv" then Some (io.read_csv F file_path)
    else if endswith file_path ".xlsx" || endswith file_path ".xls"
    then Some (io.read_excel F file_path)
    else None in
  match read with
  | Some (py.Returned df) => loaded df file_path
  | Some (py.Raised e) => load_failed ("Error loading file: " ++ e)
  | None => load_failed "Unsupported file format"
  end.

(** [save_file] *)
Definition save_file (F : io.Files) (dataframe : pd.DataFrame)
  (file_path : string) : py.Response :=
  let written :=
    if endswith file_path ".csv" then Some (io.to_csv F dataframe file_path)
    else if endswith file_path ".xlsx"
    then Some (io.to_excel F dataframe file_path)
    else None in
  match written with
  | Some (py.Returned _) => py.Success ("File saved to " ++ file_path) []
  | Some (py.Raised e) => py.Failure ("Error saving file: " ++ e)
  | None => py.Failure "Unsupported file format"
  end.

(** [self.supported_formats], flattened *)
Definition supported_extensions : list string := [".csv"; ".xlsx"; ".xls"].

(** [validate_file_path] *)
Definition validate_file_path (file_path : string) : bool :=
  existsb (endswith file_path) supported_extensions.

End FileHandler.

(** ** data_layer/DatabaseManager.py, as the services see it

    A call reaches the MySQL server or the stand-in the user interface
    installs when there is none; what it returns or raises is a parameter
    of the model. *)
Module DatabaseManager.

Record t : Type := mkDatabase {
  (** [insert_log(dataset_id, operation_type, description)] *)
  insert_log : option Z -> string -> string -> py.Outcome unit;
  (** [fetch_logs(dataset_id)]: rows of operation type, description and
      time stamp *)
  fetch_logs : Z -> py.Outcome (list (string * string * Z));
  (** [insert_dataset(filename, filebytes, operation_type)]: the new id, or
      [None] *)
  insert_dataset : string -> string -> string -> py.Outcome (option Z)
}.

End DatabaseManager.

(** ** business_layer/DataCleaningController.py

    The controller holds a [DatasetManager] and nothing else, so an
    operation is a function from the manager's state to its new state and
    to what the call does.  The audit log ([logging_service.log_operation],
    which swallows its own failures) is written to and never read; it is left
    out together with the [dataset_id] that guards it. *)
Module DataCleaningController.

Definition State : Type := DatasetManager.t.

(** [df[c] = values] on the frame [get_dataframe] returned: the local name
    [df] and the dataset refer to one object. *)
Definition setitem_in_place (self : State) (df : pd.DataFrame) (c : string)
  (d : pd.dtype) (vs : list pd.Cell) : State * pd.DataFrame :=
  (DatasetManager.assign_in_place self (fun live => pd.setitem live c d vs),
   pd.setitem df c d vs).

Definition missing_indicators : list string :=
  ["?"; "??"; "???"; "na"; "NaN"; "NULL"; "null"; "--"; ""; " "; "none";
   "None"].

(** Step 4 of [auto_clean] on one column. *)
Definition fill_missing (s : pd.Series) : pd.Series :=
  if pd.isnull_any s then
    if numeric_kind (pd.dt s) then
      if negb (pd.isna_all s) then pd.fillna (pd.mean s) s
      else pd.fillna (pd.VInt 0) s
    else
      match pd.mode s with
      | m :: _ => pd.fillna m s
      | [] => pd.fillna (pd.VStr "Unknown") s
      end
  else s.

(** Steps 1 and 2 of [auto_clean]. *)
Definition step1 (df : pd.DataFrame) : pd.DataFrame :=
  pd.replace missing_indicators df.

Definition step2 (df : pd.DataFrame) : pd.DataFrame := pd.dropna_all df.

(** [threshold = 0.8 * len(df_cleaned)] is a double.  The double nearest to
    0.8 exceeds it by the factor [1 + 2^-54], so the product rounds to the
    exact value wherever that is an integer and stays strictly between the
    same two integers elsewhere (for any length below [2^50]): compared
    with an integer count, the double and the rational [8/10 * len] agree. *)
Definition step3 (df : pd.DataFrame) : pd.DataFrame :=
  let threshold := ((8 # 10) * inject_Z (Z.of_nat (pd.len df)))%Q in
  pd.dropna_thresh threshold df.

(** Step 4: the loop over the columns; labels are unique, so the
    assignment [df_cleaned[col] = ...] rewrites the column the loop is at. *)
Definition step4 (df : pd.DataFrame) : pd.DataFrame :=
  {| pd.index := pd.index df; pd.cols := map fill_missing (pd.cols df) |}.

(** [auto_clean].  None of the pandas calls of its body raises on a frame
    of the model, so the handler of its [try] is never entered. *)
Definition auto_clean (self : State) : State * py.Outcome py.Response :=
  let df := DatasetManager.get_dataframe self in
  match df with
  | None =>
      (self, py.Returned (py.Failure "No dataset loaded or dataset is empty"))
  | Some df =>
      if pd.empty df then
        (self, py.Returned (py.Failure "No dataset loaded or dataset is empty"))
      else
        let original_shape := pd.shape df in
        let df_cleaned := step4 (step3 (step2 (step1 df))) in
        let duplicates_removed := pd.mask_sum (pd.duplicated df_cleaned) in
        let df_cleaned := pd.drop_duplicates df_cleaned in
        let self' := fst (DatasetManager.update_dataframe self df_cleaned) in
        let new_shape := pd.shape df_cleaned in
        (self',
         py.Returned
           (py.Success "Dataset cleaned successfully"
              [("original_shape", py.PShape original_shape);
               ("new_shape", py.PShape new_shape);
               ("duplicates_removed", py.PNat duplicates_removed);
               ("columns_removed",
                py.PInt (Z.of_nat (snd original_shape)
                         - Z.of_nat (snd new_shape)))]))
  end.

(** [f"Column '{column}' not found"] *)
Definition not_found (column : string) : string :=
  "Column '" ++ column ++ "' not found".

(** [fill_missing_with_mean] *)
Definition fill_missing_with_mean (self : State) (column : string)
  : State * py.Outcome py.Response :=
  match DatasetManager.get_dataframe self with
  | None => (self, py.Returned (py.Failure "No dataset loaded"))
  | Some df =>
      if pd.empty df then (self, py.Returned (py.Failure "No dataset loaded"))
      else
        match pd.getitem df column with
        | None => (self, py.Returned (py.Failure (not_found column)))
        | Some s =>
            if negb (numeric_kind (pd.dt s)) then
              (self, py.Returned
                       (py.Failure "Mean can only be applied to numeric columns"))
            else
              let mean_value := pd.mean s in
              let filled := pd.fillna mean_value s in
              let '(self1, df1) :=
                setitem_in_place self df column (pd.dt filled)
                  (pd.values filled) in
              let self2 := fst (DatasetManager.update_dataframe self1 df1) in
              (self2,
               py.Returned
                 (py.Success "Filled missing values with mean"
                    [("mean_value", py.PCell mean_value)]))
        end
  end.

(** [fill_missing_with_mode] *)
Definition fill_missing_with_mode (self : State) (column : string)
  : State * py.Outcome py.Response :=
  match DatasetManager.get_dataframe self with
  | None => (self, py.Returned (py.Failure "No dataset loaded"))
  | Some df =>
      if pd.empty df then (self, py.Returned (py.Failure "No dataset loaded"))
      else
        match pd.getitem df column with
        | None => (self, py.Returned (py.Failure (not_found column)))
        | Some s =>
            let mode_value :=
              match pd.mode s with
              | m :: _ => m
              | [] => pd.VStr "Unknown"
              end in
            let filled := pd.fillna mode_value s in
            let '(self1, df1) :=
              setitem_in_place self df column (pd.dt filled)
                (pd.values filled) in
            let self2 := fst (DatasetManager.update_dataframe self1 df1) in
            (self2,
             py.Returned
               (py.Success "Filled missing values with mode"
                  [("mode_value", py.PCell mode_value)]))
        end
  end.

(** [fill_missing_with_custom]: the value arrives as text; for a numeric
    column it is read as a float when it holds a dot and as an integer
    otherwise, and a text that cannot be read so raises inside the [try]. *)
Definition fill_missing_with_custom (L : py.Lib) (self : State)
  (column : string) (value : string) : State * py.Outcome py.Response :=
  match DatasetManager.get_dataframe self with
  | None => (self, py.Returned (py.Failure "No dataset loaded"))
  | Some df =>
      if pd.empty df then (self, py.Returned (py.Failure "No dataset loaded"))
      else
        match pd.getitem df column with
        | None => (self, py.Returned (py.Failure (not_found column)))
        | Some s =>
            let parsed :=
              if numeric_kind (pd.dt s) then
                if char_in "."%char value then py.py_float L value
                else match py.py_int L value with
                     | py.Returned z => py.Returned (pd.VInt z)
                     | py.Raised e => py.Raised e
                     end
              else py.Returned (pd.VStr value) in
            match parsed with
            | py.Raised e =>
                (self, py.Returned
                         (py.Failure ("Fill operation failed: " ++ e)))
            | py.Returned v =>
                let filled := pd.fillna v s in
                let '(self1, df1) :=
                  setitem_in_place self df column (pd.dt filled)
                    (pd.values filled) in
                let self2 := fst (DatasetManager.update_dataframe self1 df1) in
                (self2,
                 py.Returned
                   (py.Success "Filled missing values with custom value"
                      [("custom_value", py.PCell v)]))
            end
        end
  end.

(** [drop_column] *)
Definition drop_column (self : State) (column : string)
  : State * py.Outcome py.Response :=
  match DatasetManager.get_dataframe self with
  | None => (self, py.Returned (py.Failure "No dataset loaded"))
  | Some df =>
      if pd.empty df then (self, py.Returned (py.Failure "No dataset loaded"))
      else if negb (str_in column (pd.columns df)) then
        (self, py.Returned (py.Failure (not_found column)))
      else
        let df := pd.drop_column df column in
        let self' := fst (DatasetManager.update_dataframe self df) in
        (self',
         py.Returned
           (py.Success ("Successfully dropped column '" ++ column ++ "'") []))
  end.

(** [remove_duplicates] *)
Definition remove_duplicates (self : State)
  : State * py.Outcome py.Response :=
  match DatasetManager.get_dataframe self with
  | None => (self, py.Returned (py.Failure "No dataset loaded"))
  | Some df =>
      if pd.empty df then (self, py.Returned (py.Failure "No dataset loaded"))
      else
        let duplicates_count := pd.mask_sum (pd.duplicated df) in
        let df := pd.drop_duplicates df in
        let self' := fst (DatasetManager.update_dataframe self df) in
        (self',
         py.Returned
           (py.Success
              ("Removed " ++ string_of_nat duplicates_count
               ++ " duplicate rows")
              [("duplicates_removed", py.PNat duplicates_count)]))
  end.

Record QualitySummary : Type := mkSummary {
  total_rows : nat;
  total_cols : nat;
  missing_total : nat;
  missing_pct : Q;
  duplicate_count : nat;
  memory_usage_mb : Q
}.

(** [get_data_quality_summary]: [None] without a frame, the summary
    otherwise. *)
Definition get_data_quality_summary (L : py.Lib) (self : State)
  : option QualitySummary :=
  match DatasetManager.get_dataframe self with
  | None => None
  | Some df =>
      if pd.empty df then None
      else
        let cells := fst (pd.shape df) * snd (pd.shape df) in
        Some {| total_rows := pd.len df;
                total_cols := length (pd.columns df);
                missing_total := pd.isnull_sum_sum df;
                missing_pct :=
                  if 0 <? cells
                  then (inject_Z (Z.of_nat (pd.isnull_sum_sum df))
                        / inject_Z (Z.of_nat cells) * 100)%Q
                  else 0%Q;
                duplicate_count := pd.mask_sum (pd.duplicated df);
                memory_usage_mb :=
                  (py.memory_usage_deep L df / inject_Z (1024 * 1024))%Q |}
  end.

End DataCleaningController.

(** ** numpy and scikit-learn: what the feature engine relies on *)
Module np.

(** Two's-complement wrap-around of [int64] arithmetic. *)
Definition wrap64 (z : Z) : Z :=
  ((z + 2 ^ 63) mod 2 ^ 64 - 2 ^ 63)%Z.

(** [min_val <= 0] and [min_val < 0] for the minimum of a column; a
    comparison with [NaN] is false. *)
Definition le_zero (c : pd.Cell) : bool :=
  match c with
  | pd.VBool b => negb b
  | pd.VInt z => (z <=? 0)%Z
  | pd.VFloat (pd.Fin q) => Qle_bool q 0
  | pd.VFloat pd.NInf => true
  | _ => false
  end.

Definition lt_zero (c : pd.Cell) : bool :=
  match c with
  | pd.VInt z => (z <? 0)%Z
  | pd.VFloat (pd.Fin q) => negb (Qle_bool 0 q)
  | pd.VFloat pd.NInf => true
  | _ => false
  end.

(** [abs(x)] of a numpy scalar. *)
Definition abs (c : pd.Cell) : pd.Cell :=
  match c with
  | pd.VInt z => pd.VInt (wrap64 (Z.abs z))
  | pd.VFloat (pd.Fin q) => pd.VFloat (pd.Fin (Qabs q))
  | pd.VFloat _ => pd.VFloat pd.PInf
  | _ => c
  end.

(** The sum of two doubles: the exact sum, rounded; [None] is [NaN]. *)
Definition float_add (L : py.Lib) (a b : option pd.Flt) : option pd.Flt :=
  match a, b with
  | Some (pd.Fin x), Some (pd.Fin y) => Some (py.round_double L (x + y)%Q)
  | _, _ => pd.flt_add a b
  end.

(** [a + b] of two numeric cells; a boolean counts as 0 or 1, integers wrap
    around and floats are rounded. *)
Definition add (L : py.Lib) (a b : pd.Cell) : pd.Cell :=
  match a, b with
  | pd.VInt x, pd.VInt y => pd.VInt (wrap64 (x + y))
  | pd.VBool x, pd.VInt y => pd.VInt (wrap64 ((if x then 1 else 0) + y))
  | pd.VInt x, pd.VBool y => pd.VInt (wrap64 (x + (if y then 1 else 0)))
  | pd.VBool x, pd.VBool y =>
      pd.VInt ((if x then 1 else 0) + (if y then 1 else 0))
  | _, _ =>
      match pd.as_float a, pd.as_float b with
      | Some x, Some y =>
          match float_add L (Some x) (Some y) with
          | Some r => pd.VFloat r
          | None => pd.NA
          end
      | _, _ => pd.NA
      end
  end.

(** [np.log] of one cell.  IEEE 754 fixes the logarithm of 1 (zero), of 0
    (minus infinity), of a negative number ([NaN]) and of the infinities;
    elsewhere the rounded value is the library's. *)
Definition log (L : py.Lib) (c : pd.Cell) : pd.Cell :=
  match pd.as_float c with
  | Some (pd.Fin q) =>
      if Qeq_bool q 1 then pd.VFloat (pd.Fin 0)
      else if Qeq_bool q 0 then pd.VFloat pd.NInf
      else if Qle_bool q 0 then pd.NA
      else py.log_rounded L q
  | Some pd.PInf => pd.VFloat pd.PInf
  | Some pd.NInf => pd.NA
  | None => pd.NA
  end.

(** [np.sqrt] of one cell. *)
Definition sqrt (L : py.Lib) (c : pd.Cell) : pd.Cell :=
  match pd.as_float c with
  | Some (pd.Fin q) =>
      if Qeq_bool q 0 then pd.VFloat (pd.Fin 0)
      else if Qle_bool q 0 then pd.NA
      else py.sqrt_rounded L q
  | Some pd.PInf => pd.VFloat pd.PInf
  | Some pd.NInf => pd.NA
  | None => pd.NA
  end.

(** [sum(xs) * 100] of floats, [None] standing for [NaN]: the builtin
    [sum] adds the entries to 0 from the left, one rounded addition each,
    and the product is rounded once more. *)
Definition percent_sum (L : py.Lib) (xs : list pd.Cell) : option pd.Flt :=
  let total :=
    fold_left (fun acc c =>
                 match c with
                 | pd.NA => None
                 | _ => float_add L acc (pd.as_float c)
                 end) xs (Some (pd.Fin 0%Q)) in
  match total with
  | Some (pd.Fin q) => Some (py.round_double L (q * 100)%Q)
  | other => other
  end.


End np.

Module sklearn.

Definition finite_cell (c : pd.Cell) : bool :=
  match pd.as_float c with
  | Some (pd.Fin _) => true
  | _ => false
  end.

(** The input checks of [PCA(n_components=n).fit_transform(X)], after the
    scikit-learn documentation: every entry of [X] is a finite number, and
    [0 <= n <= min(n_samples, n_features)].  The call raises [ValueError]
    where a check fails. *)
Definition pca_accepts (X : list pd.Series) (n_samples : nat) (n : Z) : bool :=
  forallb (fun s => forallb finite_cell (pd.values s)) X
  && (0 <=? n)%Z
  && (n <=? Z.of_nat (Nat.min n_samples (length X)))%Z.

(** [pca.fit_transform(X)] together with [pca.explained_variance_ratio_]. *)
Definition PCA_fit_transform (L : py.Lib) (X : list pd.Series)
  (n_samples : nat) (n : Z)
  : py.Outcome (list (list pd.Cell) * list pd.Cell) :=
  if pca_accepts X n_samples n
  then py.Returned (py.pca_project L X (Z.to_nat n))
  else py.Raised (py.pca_refusal L X n).

End sklearn.

(** ** business_layer/FeatureEngineeringController.py

    The controller holds the shared [DatasetManager] and its two stacks.  An
    operation runs in a state and exception monad over that state, so the
    effects of the statements before a [raise] stay in place when the
    [except] clause takes over, as they do in Python.  The audit log is left
    out, as for the cleaning controller. *)
Module FeatureEngineeringController.

Record State : Type := mkState {
  dataset_manager : DatasetManager.t;
  undo_stack : list pd.DataFrame;
  redo_stack : list pd.DataFrame
}.

(** [__init__] *)
Definition init (dm : DatasetManager.t) : State :=
  {| dataset_manager := dm; undo_stack := []; redo_stack := [] |}.

Definition M (A : Type) : Type := State -> State * py.Outcome A.

Definition ret {A : Type} (a : A) : M A := fun s => (s, py.Returned a).

Definition raise {A : Type} (e : py.PyError) : M A :=
  fun s => (s, py.Raised e).

Definition bind {A B : Type} (m : M A) (k : A -> M B) : M B :=
  fun s =>
    match m s with
    | (s', py.Returned a) => k a s'
    | (s', py.Raised e) => (s', py.Raised e)
    end.

Definition lift {A : Type} (o : py.Outcome A) : M A := fun s => (s, o).

(** [try: body except Exception as e: handler(str(e))] *)
Definition try_except {A : Type} (body : M A) (handler : py.PyError -> M A)
  : M A :=
  fun s =>
    match body s with
    | (s', py.Raised e) => handler e s'
    | done => done
    end.

Notation "x <- m ;; k" := (bind m (fun x => k))
  (at level 61, m at next level, right associativity).
Notation "m ;;; k" := (bind m (fun _ => k))
  (at level 61, right associativity).

(** [self.dataset_manager.get_dataframe()] *)
Definition get_dataframe : M (option pd.DataFrame) :=
  fun s => (s, py.Returned (DatasetManager.get_dataframe (dataset_manager s))).

(** [self.dataset_manager.update_dataframe(df)] *)
Definition update_dataframe (df : pd.DataFrame) : M unit :=
  fun s =>
    ({| dataset_manager :=
          fst (DatasetManager.update_dataframe (dataset_manager s) df);
        undo_stack := undo_stack s;
        redo_stack := redo_stack s |},
     py.Returned tt).

(** The frame the local name [df] refers to.  [df] was bound to the object
    the dataset holds and is never rebound before it is read, so it is the
    dataset's frame with every assignment made so far. *)
Definition frame : M pd.DataFrame :=
  fun s =>
    match DatasetManager.get_dataframe (dataset_manager s) with
    | Some df => (s, py.Returned df)
    | None => (s, py.Returned pd.DataFrame_new)
    end.

(** [df[c] = values], in place on that object. *)
Definition setitem (c : string) (d : pd.dtype) (vs : list pd.Cell) : M unit :=
  fun s =>
    ({| dataset_manager :=
          DatasetManager.assign_in_place (dataset_manager s)
            (fun live => pd.setitem live c d vs);
        undo_stack := undo_stack s;
        redo_stack := redo_stack s |},
     py.Returned tt).

(** [_save_undo_state]: a deep copy of the current frame goes on the undo
    stack and the redo stack is cleared, unless there is no frame. *)
Definition _save_undo_state : M unit :=
  fun s =>
    match DatasetManager.get_dataframe (dataset_manager s) with
    | Some df =>
        if negb (pd.empty df) then
          ({| dataset_manager := dataset_manager s;
              undo_stack := py_append (undo_stack s) df;
              redo_stack := [] |},
           py.Returned tt)
        else (s, py.Returned tt)
    | None => (s, py.Returned tt)
    end.

(** The guards every column operation opens with: a frame is loaded, the
    column is one of its labels and, for the numeric operations, its dtype
    is numeric.  [df[column]] is the column that has the label; where
    several columns have it pandas hands out a frame of them, which has no
    [dtype], so what is proved of these operations is stated for tables
    whose labels are unique. *)
Definition guard_column (need_numeric : bool) (column : string)
  (body : pd.Series -> M py.Response) : M py.Response :=
  df <- get_dataframe ;;
  match df with
  | None => ret (py.Failure "No dataset loaded")
  | Some d =>
      if pd.empty d then ret (py.Failure "No dataset loaded")
      else
        match pd.getitem d column with
        | None =>
            ret (py.Failure ("Column '" ++ column ++ "' not found"))
        | Some s =>
            if need_numeric && negb (numeric_kind (pd.dt s)) then
              ret (py.Failure ("Column '" ++ column ++ "' must be numeric"))
            else body s
        end
  end.

(** The [try] of an operation: an exception of its body becomes the
    failure [f"{what} failed: {str(e)}"]. *)
Definition attempt (what : string) (body : M py.Response) : M py.Response :=
  try_except body (fun e => ret (py.Failure (what ++ " failed: " ++ e))).

(** [str(x)] of a numpy scalar. *)
Definition scalar_str (L : py.Lib) (c : pd.Cell) : string :=
  match c with
  | pd.VInt z => string_of_Z z
  | pd.VFloat x => py.float_str L x
  | pd.VBool true => "True"
  | pd.VBool false => "False"
  | pd.VStr t => t
  | pd.VTime t => string_of_Z t
  | pd.NA => "nan"
  end.

(** *** Scaling *)

(** [standardize_column] *)
Definition standardize_column (L : py.Lib) (column : string)
  : M py.Response :=
  guard_column true column (fun s =>
    attempt "Standardization"
      (_save_undo_state ;;;
       vs <- lift (py.StandardScaler_fit_transform L s) ;;
       setitem column pd.float64 vs ;;;
       df <- frame ;;
       update_dataframe df ;;;
       ret (py.Success
              ("Successfully standardized column '" ++ column ++ "'") []))).

(** [minmax_scale_column] *)
Definition minmax_scale_column (L : py.Lib) (column : string)
  : M py.Response :=
  guard_column true column (fun s =>
    attempt "Normalization"
      (_save_undo_state ;;;
       let new_col_name := column ++ "_minmax" in
       vs <- lift (py.MinMaxScaler_fit_transform L s) ;;
       setitem new_col_name pd.float64 vs ;;;
       df <- frame ;;
       update_dataframe df ;;;
       ret (py.Success
              ("Successfully normalized column '" ++ column ++ "' as '"
               ++ new_col_name ++ "'") []))).

(** [robust_scale_column] *)
Definition robust_scale_column (L : py.Lib) (column : string)
  : M py.Response :=
  guard_column true column (fun s =>
    attempt "Robust scaling"
      (_save_undo_state ;;;
       let new_col_name := column ++ "_robust" in
       vs <- lift (py.RobustScaler_fit_transform L s) ;;
       setitem new_col_name pd.float64 vs ;;;
       df <- frame ;;
       update_dataframe df ;;;
       ret (py.Success
              ("Successfully robust scaled column '" ++ column ++ "' as '"
               ++ new_col_name ++ "'") []))).

(** *** Transformations *)

(** The shift and the values of [log_transform_column]. *)
Definition log_shift (L : py.Lib) (s : pd.Series) : pd.Cell :=
  np.add L (np.abs (pd.min s)) (pd.VInt 1).

Definition log_values (L : py.Lib) (s : pd.Series) : list pd.Cell :=
  if np.le_zero (pd.min s)
  then map (fun c => np.log L (np.add L c (log_shift L s))) (pd.values s)
  else map (np.log L) (pd.values s).

Definition log_message (L : py.Lib) (column : string) (s : pd.Series)
  : string :=
  let new_col_name := column ++ "_log" in
  if np.le_zero (pd.min s)
  then "Log transformed '" ++ column ++ "' to '" ++ new_col_name
       ++ "' (shifted by " ++ scalar_str L (log_shift L s) ++ ")"
  else "Log transformed '" ++ column ++ "' to '" ++ new_col_name ++ "'".

(** [log_transform_column] *)
Definition log_transform_column (L : py.Lib) (column : string)
  : M py.Response :=
  guard_column true column (fun s =>
    attempt "Log transformation"
      (_save_undo_state ;;;
       let new_col_name := column ++ "_log" in
       setitem new_col_name pd.float64 (log_values L s) ;;;
       let msg := log_message L column s in
       df <- frame ;;
       update_dataframe df ;;;
       ret (py.Success msg []))).

Definition sqrt_values (L : py.Lib) (s : pd.Series) : list pd.Cell :=
  if np.lt_zero (pd.min s)
  then map (fun c => np.sqrt L (np.add L c (np.abs (pd.min s))))
         (pd.values s)
  else map (np.sqrt L) (pd.values s).

Definition sqrt_message (L : py.Lib) (column : string) (s : pd.Series)
  : string :=
  let new_col_name := column ++ "_sqrt" in
  if np.lt_zero (pd.min s)
  then "Square root transformed '" ++ column ++ "' to '" ++ new_col_name
       ++ "' (shifted by " ++ scalar_str L (np.abs (pd.min s)) ++ ")"
  else "Square root transformed '" ++ column ++ "' to '" ++ new_col_name
       ++ "'".

(** [sqrt_transform_column] *)
Definition sqrt_transform_column (L : py.Lib) (column : string)
  : M py.Response :=
  guard_column true column (fun s =>
    attempt "Square root transformation"
      (_save_undo_state ;;;
       let new_col_name := column ++ "_sqrt" in
       setitem new_col_name pd.float64 (sqrt_values L s) ;;;
       let msg := sqrt_message L column s in
       df <- frame ;;
       update_dataframe df ;;;
       ret (py.Success msg []))).

(** [bin_column] *)
Definition bin_column (L : py.Lib) (column : string) (n_bins : Z)
  : M py.Response :=
  guard_column true column (fun s =>
    attempt "Binning"
      (_save_undo_state ;;;
       let new_col_name := column ++ "_binned" in
       binned <- lift (py.qcut L s n_bins) ;;
       setitem new_col_name (fst binned) (snd binned) ;;;
       df <- frame ;;
       update_dataframe df ;;;
       ret (py.Success
              ("Successfully binned column '" ++ column ++ "' into "
               ++ string_of_Z n_bins ++ " bins as '" ++ new_col_name ++ "'")
              []))).

(** [range(a, b)] *)
Definition py_range (a b : Z) : list Z :=
  map (fun i => (a + Z.of_nat i)%Z) (seq 0 (Z.to_nat (b - a))).

(** The loop of [create_polynomial_features]: one assignment per degree,
    each made before the next power is computed. *)
Fixpoint poly_loop (L : py.Lib) (column : string) (ds : list Z)
  (new_columns : list string) : M (list string) :=
  match ds with
  | [] => ret new_columns
  | d :: rest =>
      let col_name := column ++ "_poly" ++ string_of_Z d in
      df <- frame ;;
      match pd.getitem df column with
      | None => raise ("'" ++ column ++ "'")
      | Some s =>
          p <- lift (py.series_pow L s d) ;;
          setitem col_name (fst p) (snd p) ;;;
          poly_loop L column rest (py_append new_columns col_name)
      end
  end.

(** [create_polynomial_features] *)
Definition create_polynomial_features (L : py.Lib) (column : string)
  (degree : Z) : M py.Response :=
  guard_column true column (fun _ =>
    attempt "Polynomial features creation"
      (_save_undo_state ;;;
       new_columns <- poly_loop L column (py_range 2 (degree + 1)) [] ;;
       df <- frame ;;
       update_dataframe df ;;;
       ret (py.Success
              ("Successfully created polynomial features: "
               ++ join ", " new_columns) []))).

(** *** Encoding *)

(** [one_hot_encode_column]: the frame with the indicator columns is a new
    object; the dataset sees it on [update_dataframe]. *)
Definition one_hot_encode_column (L : py.Lib) (column : string)
  : M py.Response :=
  guard_column false column (fun s =>
    attempt "One-hot encoding"
      (_save_undo_state ;;;
       dummies <- lift (py.get_dummies L s column) ;;
       df <- frame ;;
       let df := pd.concat_columns df dummies in
       update_dataframe df ;;;
       ret (py.Success
              ("Successfully one-hot encoded column '" ++ column ++ "' into "
               ++ string_of_nat (length dummies) ++ " columns") []))).

(** [label_encode_column] *)
Definition label_encode_column (L : py.Lib) (column : string)
  : M py.Response :=
  guard_column false column (fun s =>
    attempt "Label encoding"
      (_save_undo_state ;;;
       let new_col_name := column ++ "_label" in
       codes <- lift (py.LabelEncoder_fit_transform L s) ;;
       setitem new_col_name pd.int64 codes ;;;
       df <- frame ;;
       update_dataframe df ;;;
       ret (py.Success
              ("Successfully label encoded column '" ++ column ++ "' as '"
               ++ new_col_name ++ "'") []))).

(** *** Advanced operations *)

(** [f"PC_{i+1}"] *)
Definition pc_name (i : nat) : string := "PC_" ++ string_of_nat (i + 1).

(** The loop [for i in range(n_components): df[f"PC_{i+1}"] = pca_result[:, i]]. *)
Fixpoint pca_loop (pca_result : list (list pd.Cell)) (todo : list nat)
  : M unit :=
  match todo with
  | [] => ret tt
  | i :: rest =>
      match nth_error pca_result i with
      | None => raise "index is out of bounds"
      | Some column_i =>
          setitem (pc_name i) pd.float64 column_i ;;;
          pca_loop pca_result rest
      end
  end.

(** [apply_pca] *)
Definition apply_pca (L : py.Lib) (n_components : Z) : M py.Response :=
  df <- get_dataframe ;;
  match df with
  | None => ret (py.Failure "No dataset loaded")
  | Some d =>
      if pd.empty d then ret (py.Failure "No dataset loaded")
      else
        let numeric_cols := pd.select_number d in
        if length numeric_cols <? 2 then
          ret (py.Failure "Need at least 2 numeric columns for PCA")
        else if (Z.of_nat (length numeric_cols) <? n_components)%Z then
          ret (py.Failure ("n_components must be <= "
                           ++ string_of_nat (length numeric_cols)))
        else
          attempt "PCA"
            (_save_undo_state ;;;
             fitted <- lift (sklearn.PCA_fit_transform L numeric_cols
                               (pd.len d) n_components) ;;
             pca_loop (fst fitted) (seq 0 (Z.to_nat n_components)) ;;;
             df <- frame ;;
             update_dataframe df ;;;
             let variance_explained := np.percent_sum L (snd fitted) in
             ret (py.Success
                    ("Successfully applied PCA with "
                     ++ string_of_Z n_components
                     ++ " components (variance explained: "
                     ++ py.float_1f L variance_explained ++ "%)") []))
  end.

(** [eval(expression, {"__builtins__": {}}, local_namespace)]: [df] in the
    namespace is the frame the dataset holds, so what the expression does
    to it in place is done to the table, whether the evaluation then
    returns or raises. *)
Definition eval (L : py.Lib) (expression : string) : M (py.PyObject L) :=
  fun s =>
    match DatasetManager.get_dataframe (dataset_manager s) with
    | Some df =>
        ({| dataset_manager :=
              DatasetManager.assign_in_place (dataset_manager s)
                (py.py_eval_frame L expression);
            undo_stack := undo_stack s;
            redo_stack := redo_stack s |},
         py.py_eval L expression df)
    | None => (s, py.py_eval L expression pd.DataFrame_new)
    end.

(** [create_custom_feature] *)
Definition create_custom_feature (L : py.Lib) (feature_name : string)
  (expression : string) : M py.Response :=
  df <- get_dataframe ;;
  match df with
  | None => ret (py.Failure "No dataset loaded")
  | Some d =>
      if pd.empty d then ret (py.Failure "No dataset loaded")
      else if String.eqb feature_name "" || String.eqb expression "" then
        ret (py.Failure "Feature name and expression required")
      else
        attempt "Custom feature creation"
          (_save_undo_state ;;;
           result <- eval L expression ;;
           df <- frame ;;
           column <- lift (py.as_column L df result) ;;
           setitem feature_name (fst column) (snd column) ;;;
           df <- frame ;;
           update_dataframe df ;;;
           ret (py.Success
                  ("Successfully created custom feature '" ++ feature_name
                   ++ "'") []))
  end.

(** *** Undo and redo *)

(** [undo] *)
Definition undo : M py.Response :=
  fun s =>
    match py_pop (undo_stack s) with
    | None => (s, py.Returned (py.Failure "Nothing to undo"))
    | Some (previous_df, undo_rest) =>
        let current_df := DatasetManager.get_dataframe (dataset_manager s) in
        let redo' :=
          match current_df with
          | Some cur =>
              if negb (pd.empty cur) then py_append (redo_stack s) cur
              else redo_stack s
          | None => redo_stack s
          end in
        ({| dataset_manager :=
              fst (DatasetManager.update_dataframe (dataset_manager s)
                     previous_df);
            undo_stack := undo_rest;
            redo_stack := redo' |},
         py.Returned (py.Success "Undo applied successfully" []))
    end.

(** [redo] *)
Definition redo : M py.Response :=
  fun s =>
    match py_pop (redo_stack s) with
    | None => (s, py.Returned (py.Failure "Nothing to redo"))
    | Some (next_df, redo_rest) =>
        let current_df := DatasetManager.get_dataframe (dataset_manager s) in
        let undo' :=
          match current_df with
          | Some cur =>
              if negb (pd.empty cur) then py_append (undo_stack s) cur
              else undo_stack s
          | None => undo_stack s
          end in
        ({| dataset_manager :=
              fst (DatasetManager.update_dataframe (dataset_manager s)
                     next_df);
            undo_stack := undo';
            redo_stack := redo_rest |},
         py.Returned (py.Success "Redo applied successfully" []))
    end.

End FeatureEngineeringController.

(** ** business_layer/LoggingService.py

    The service holds the database manager, which may be [None], and the
    list [local_logs].  The clock ([datetime.now()]) is read once per logged
    operation; its reading is an argument of the model. *)
Module LoggingService.

(** An entry of [local_logs]. *)
Record Entry : Type := mkEntry {
  dataset_id : option Z;
  operation_type : string;
  description : string;
  timestamp : Z
}.

Definition t : Type := list Entry.

(** [__init__] *)
Definition init : t := [].

(** A log as [get_logs] hands it out: a local entry, or a row of the
    database, which has no [dataset_id] key. *)
Inductive Log : Type :=
| local (e : Entry)
| stored (operation_type description : string) (timestamp : Z).

Definition log_type (l : Log) : string :=
  match l with
  | local e => operation_type e
  | stored ty _ _ => ty
  end.

Definition log_time (l : Log) : Z :=
  match l with
  | local e => timestamp e
  | stored _ _ ts => ts
  end.

(** [log_operation]: the entry is appended whether or not the database
    call raises. *)
Definition log_operation (db : option DatabaseManager.t) (self : t)
  (dataset_id : option Z) (operation_type description : string) (now : Z)
  : t * py.Response :=
  let log_entry :=
    {| dataset_id := dataset_id; operation_type := operation_type;
       description := description; timestamp := now |} in
  let inserted :=
    match db with
    | Some d =>
        DatabaseManager.insert_log d dataset_id operation_type description
    | None => py.Returned tt
    end in
  match inserted with
  | py.Returned _ =>
      (py_append self log_entry,
       py.Success "Operation logged successfully" [])
  | py.Raised e =>
      (py_append self log_entry,
       py.Success ("Logged locally (database error: " ++ e ++ ")") [])
  end.

(** [log_cleaning_operation] *)
Definition log_cleaning_operation (db : option DatabaseManager.t) (self : t)
  (dataset_id : option Z) (operation_type description : string) (now : Z)
  : t * py.Response :=
  log_operation db self dataset_id ("cleaning_" ++ operation_type)
    description now.

(** [logs.sort(key=lambda x: x["timestamp"], reverse=True)]: latest first;
    logs of one time stamp keep their order.  Time stamps are numbers here,
    so any two of them compare. *)
Fixpoint insert_desc (x : Log) (l : list Log) : list Log :=
  match l with
  | [] => [x]
  | y :: rest =>
      if (log_time y <=? log_time x)%Z then x :: l
      else y :: insert_desc x rest
  end.

Definition sort_desc (l : list Log) : list Log := fold_right insert_desc [] l.

Record LogsResult : Type := mkLogsResult {
  success : bool;
  logs : list Log;
  count : nat;
  message : option string
}.

(** The local entries [get_logs] looks at: those of the dataset, or all of
    them when no dataset is named. *)
Definition local_filtered (self : t) (dataset_id : option Z) : list Entry :=
  if truthy dataset_id
  then filter (fun log => id_eqb (LoggingService.dataset_id log) dataset_id)
         self
  else self.

(** [get_logs] *)
Definition get_logs (db : option DatabaseManager.t) (self : t)
  (dataset_id : option Z) : LogsResult :=
  let db_logs :=
    match db, dataset_id with
    | Some d, Some z =>
        if truthy dataset_id then DatabaseManager.fetch_logs d z
        else py.Returned []
    | _, _ => py.Returned []
    end in
  match db_logs with
  | py.Returned rows =>
      let logs :=
        sort_desc
          (map (fun r => stored (fst (fst r)) (snd (fst r)) (snd r)) rows
           ++ map local (local_filtered self dataset_id))%list in
      {| success := true; logs := logs; count := length logs;
         message := None |}
  | py.Raised e =>
      {| success := true;
         logs := sort_desc (map local (local_filtered self dataset_id));
         count := length (local_filtered self dataset_id);
         message := Some ("Using local logs only: " ++ e) |}
  end.

(** [get_logs_by_operation_type] *)
Definition get_logs_by_operation_type (db : option DatabaseManager.t)
  (self : t) (operation_type : string) (dataset_id : option Z) : LogsResult :=
  let result := get_logs db self dataset_id in
  let filtered_logs :=
    filter (fun log => String.eqb (log_type log) operation_type
                       || String.prefix operation_type (log_type log))
      (logs result) in
  {| success := true; logs := filtered_logs; count := length filtered_logs;
     message := None |}.

(** [get_recent_logs] *)
Definition get_recent_logs (db : option DatabaseManager.t) (self : t)
  (limit : Z) (dataset_id : option Z) : LogsResult :=
  let result := get_logs db self dataset_id in
  let recent_logs := py_slice_to limit (logs result) in
  {| success := true; logs := recent_logs; count := length recent_logs;
     message := None |}.

End LoggingService.

(** ** business_layer/ExportController.py

    The controller holds the file handler, the database manager [db] and the
    logging service, which has a database manager of its own,
    [service_db]; an export that reaches the database is logged. *)
Module ExportController.

(** [file_path.split("/")[-1].split("\\")[-1]] *)
Definition filename_of (file_path : string) : string :=
  after_last "\"%char (after_last "/"%char file_path).

(** The message of a successful export. *)
Definition exported_message (dataframe : pd.DataFrame) (file_path : string)
  : string :=
  "Dataset successfully exported to:" ++ nl ++ file_path ++ nl ++ nl
  ++ "Rows: " ++ comma_str (pd.len dataframe) ++ nl
  ++ "Columns: " ++ comma_str (length (pd.columns dataframe)).

(** The inner [try] of [export_dataset]: the file is read back, stored in
    the database and the export is logged; whatever is raised on the way is
    dropped. *)
Definition record_export (F : io.Files)
  (db service_db : option DatabaseManager.t)
  (logs : LoggingService.t) (file_path : string) (dataset_id : option Z)
  (now : Z) : LoggingService.t :=
  match db with
  | Some d =>
      match io.read_bytes F file_path with
      | py.Returned filebytes =>
          match DatabaseManager.insert_dataset d (filename_of file_path)
                  filebytes "export" with
          | py.Returned export_id =>
              fst (LoggingService.log_operation service_db logs
                     (if truthy dataset_id then dataset_id else export_id)
                     "export"
                     ("Exported dataset to " ++ filename_of file_path) now)
          | py.Raised _ => logs
          end
      | py.Raised _ => logs
      end
  | None => logs
  end.

(** [export_dataset] *)
Definition export_dataset (F : io.Files)
  (db service_db : option DatabaseManager.t)
  (logs : LoggingService.t) (dataframe : option pd.DataFrame)
  (file_path : string) (dataset_id : option Z) (now : Z)
  : LoggingService.t * py.Response :=
  match dataframe with
  | None => (logs, py.Failure "Cannot export empty dataset")
  | Some df =>
      if pd.empty df then (logs, py.Failure "Cannot export empty dataset")
      else
        let result := FileHandler.save_file F df file_path in
        if negb (py.success result) then (logs, result)
        else
          (record_export F db service_db logs file_path dataset_id now,
           py.Success (exported_message df file_path) [])
  end.

(** [quick_export_csv] and [quick_export_excel] *)
Definition quick_export_csv (F : io.Files)
  (db service_db : option DatabaseManager.t)
  (logs : LoggingService.t) (dataframe : option pd.DataFrame)
  (file_path : string) (dataset_id : option Z) (now : Z)
  : LoggingService.t * py.Response :=
  let file_path :=
    if negb (endswith file_path ".csv") then file_path ++ ".csv"
    else file_path in
  export_dataset F db service_db logs dataframe file_path dataset_id now.

Definition quick_export_excel (F : io.Files)
  (db service_db : option DatabaseManager.t)
  (logs : LoggingService.t) (dataframe : option pd.DataFrame)
  (file_path : string) (dataset_id : option Z) (now : Z)
  : LoggingService.t * py.Response :=
  let file_path :=
    if negb (endswith file_path ".xlsx") then file_path ++ ".xlsx"
    else file_path in
  export_dataset F db service_db logs dataframe file_path dataset_id now.

(** What [validate_export_path] returns. *)
Record Validation : Type := mkValidation {
  valid : bool;
  message : string
}.

(** [validate_export_path] *)
Definition validate_export_path (file_path : string) : Validation :=
  if String.eqb file_path "" then
    {| valid := false; message := "File path cannot be empty" |}
  else if negb (FileHandler.validate_file_path file_path) then
    {| valid := false; message := "Unsupported file format" |}
  else {| valid := true; message := "Valid export path" |}.

End ExportController.

(** ** The operations of the two engines as data

    The eleven mutating operations of the feature engine, and every
    operation of either engine, each with its arguments; [run_mutation] and
    [run] call the method an operation names. *)
Module Engine.

Import FeatureEngineeringController.

Inductive Mutation : Type :=
| standardize (column : string)
| minmaxScale (column : string)
| robustScale (column : string)
| logTransform (column : string)
| sqrtTransform (column : string)
| binColumn (column : string) (n_bins : Z)
| polynomialFeatures (column : string) (degree : Z)
| oneHotEncode (column : string)
| labelEncode (column : string)
| applyPCA (n_components : Z)
| createCustomFeature (feature_name expression : string).

Definition run_mutation (L : py.Lib) (m : Mutation) : M py.Response :=
  match m with
  | standardize c => standardize_column L c
  | minmaxScale c => minmax_scale_column L c
  | robustScale c => robust_scale_column L c
  | logTransform c => log_transform_column L c
  | sqrtTransform c => sqrt_transform_column L c
  | binColumn c n => bin_column L c n
  | polynomialFeatures c d => create_polynomial_features L c d
  | oneHotEncode c => one_hot_encode_column L c
  | labelEncode c => label_encode_column L c
  | applyPCA n => apply_pca L n
  | createCustomFeature f e => create_custom_feature L f e
  end.

Inductive Cleaning : Type :=
| autoClean
| fillWithMean (column : string)
| fillWithMode (column : string)
| fillWithCustom (column value : string)
| dropColumn (column : string)
| removeDuplicates.

Definition run_cleaning (L : py.Lib) (c : Cleaning)
  : DatasetManager.t -> DatasetManager.t * py.Outcome py.Response :=
  match c with
  | autoClean => DataCleaningController.auto_clean
  | fillWithMean col => fun dm => DataCleaningController.fill_missing_with_mean dm col
  | fillWithMode col => fun dm => DataCleaningController.fill_missing_with_mode dm col
  | fillWithCustom col v =>
      fun dm => DataCleaningController.fill_missing_with_custom L dm col v
  | dropColumn col => fun dm => DataCleaningController.drop_column dm col
  | removeDuplicates => DataCleaningController.remove_duplicates
  end.

Inductive Operation : Type :=
| clean (c : Cleaning)
| qualitySummary
| mutate (m : Mutation)
| undoOp
| redoOp.

(** What an operation hands back: a result dictionary or, for the quality
    summary, the summary or [None]. *)
Inductive Answer : Type :=
| Dict (r : py.Response)
| Summary (q : option DataCleaningController.QualitySummary).

(** A method of the cleaning controller, run on the manager both
    controllers share. *)
Definition on_manager {A : Type}
  (f : DatasetManager.t -> DatasetManager.t * py.Outcome A) : M A :=
  fun s =>
    let '(dm, o) := f (dataset_manager s) in
    ({| dataset_manager := dm;
        undo_stack := undo_stack s;
        redo_stack := redo_stack s |}, o).

Definition run (L : py.Lib) (op : Operation) : M Answer :=
  match op with
  | clean c => r <- on_manager (run_cleaning L c) ;; ret (Dict r)
  | qualitySummary =>
      fun s =>
        (s, py.Returned
              (Summary (DataCleaningController.get_data_quality_summary L
                          (dataset_manager s))))
  | mutate m => r <- run_mutation L m ;; ret (Dict r)
  | undoOp => r <- undo ;; ret (Dict r)
  | redoOp => r <- redo ;; ret (Dict r)
  end.

(** The entry checks of a mutating operation, as the method makes them
    before its [try]: a table with a row and a column is loaded; the column
    is one of its labels and, for the numeric operations, is numeric; the
    table has two numeric columns and no fewer than [n_components]; the
    feature name and the expression are not empty. *)
Definition column_guards (need_numeric : bool) (column : string)
  (df : option pd.DataFrame) : bool :=
  match df with
  | None => false
  | Some d =>
      if pd.empty d then false
      else
        match pd.getitem d column with
        | None => false
        | Some s =>
            if need_numeric && negb (numeric_kind (pd.dt s)) then false
            else true
        end
  end.

Definition passes_guards (m : Mutation) (df : option pd.DataFrame) : bool :=
  match m with
  | standardize c | minmaxScale c | robustScale c | logTransform c
  | sqrtTransform c | binColumn c _ | polynomialFeatures c _ =>
      column_guards true c df
  | oneHotEncode c | labelEncode c => column_guards false c df
  | applyPCA n =>
      match df with
      | None => false
      | Some d =>
          if pd.empty d then false
          else if length (pd.select_number d) <? 2 then false
          else if (Z.of_nat (length (pd.select_number d)) <? n)%Z then false
          else true
      end
  | createCustomFeature f e =>
      match df with
      | None => false
      | Some d =>
          if pd.empty d then false
          else if String.eqb f "" || String.eqb e "" then false
          else true
      end
  end.

(** What the caller's code does to the table it is handed: the expression
    of a custom feature leaves the table as it finds it.  No other
    operation hands the table to code of the caller's. *)
Definition leaves_table (L : py.Lib) (m : Mutation)
  (df : option pd.DataFrame) : Prop :=
  match m with
  | createCustomFeature _ e =>
      match df with
      | Some d => py.py_eval_frame L e d = d
      | None => True
      end
  | _ => True
  end.

(** The engine before any dataset is loaded. *)
Definition fresh : State := init DatasetManager.init.

(** The engine with [df] loaded as its dataset and no history. *)
Definition loaded (df : pd.DataFrame) : State :=
  init (DatasetManager.set_dataset DatasetManager.init
          (Some {| models.data := Some df; models.file_path := None |})).

(** The table of the Table Store. *)
Definition table (s : State) : option pd.DataFrame :=
  DatasetManager.get_dataframe (dataset_manager s).

End Engine.

(** ** Well-formed frames *)
Module wf.

(** A cell a column of dtype [d] can hold.  An object column holds text,
    as it does in a frame read from a delimited file. *)
Definition conforms (d : pd.dtype) (c : pd.Cell) : bool :=
  match d, c with
  | pd.bool_, pd.VBool _ => true
  | pd.int64, pd.VInt _ => true
  | pd.float64, (pd.VFloat _ | pd.NA) => true
  | pd.object_, (pd.VStr _ | pd.NA) => true
  | pd.datetime64, (pd.VTime _ | pd.NA) => true
  | _, _ => false
  end.

(** A cell that is not an infinity. *)
Definition finite (c : pd.Cell) : bool :=
  match c with
  | pd.VFloat pd.PInf | pd.VFloat pd.NInf => false
  | _ => true
  end.

Definition series_ok (rows : nat) (s : pd.Series) : bool :=
  (length (pd.values s) =? rows) && forallb (conforms (pd.dt s)) (pd.values s).

(** Every column has one cell per row, of the column's dtype. *)
Definition frame_ok (df : pd.DataFrame) : bool :=
  forallb (series_ok (pd.len df)) (pd.cols df).

(** No cell of the frame is an infinity. *)
Definition frame_finite (df : pd.DataFrame) : bool :=
  forallb (fun s => forallb finite (pd.values s)) (pd.cols df).

(** A cell whose magnitude is at most [10^300], when it is a float. *)
Definition bounded (c : pd.Cell) : bool :=
  match c with
  | pd.VFloat (pd.Fin q) => Qle_bool (Qabs q) (inject_Z (10 ^ 300))
  | pd.VFloat _ => false
  | _ => true
  end.

(** At most [10^6] cells, each bounded: the double sum of such a column
    stays below [10^306] in magnitude whatever the order of the additions,
    so it does not overflow and the mean of the column is a finite
    double. *)
Definition column_bounded (vs : list pd.Cell) : bool :=
  (Z.of_nat (length vs) <=? 1000000)%Z && forallb bounded vs.

Definition frame_bounded (df : pd.DataFrame) : bool :=
  forallb (fun s => column_bounded (pd.values s)) (pd.cols df).

End wf.

(** ** A library for the closed examples

    The examples below run operations on concrete tables.  The library
    calls are parameters of the model, so an example has to pass some value
    for them: [no_lib] answers every such call with an exception or with a
    missing value, and it rounds no number.  What the examples state does
    not depend on these answers. *)
Definition no_lib : py.Lib :=
  {| py.memory_usage_deep := fun _ => 0%Q;
     py.py_float := fun _ => py.Raised "could not convert string to float";
     py.py_int := fun _ => py.Raised "invalid literal for int()";
     py.float_str := fun _ => "nan";
     py.float_1f := fun _ => "nan";
     py.StandardScaler_fit_transform := fun _ => py.Raised "not available";
     py.MinMaxScaler_fit_transform := fun _ => py.Raised "not available";
     py.RobustScaler_fit_transform := fun _ => py.Raised "not available";
     py.round_double := fun q => pd.Fin q;
     py.log_rounded := fun _ => pd.NA;
     py.sqrt_rounded := fun _ => pd.NA;
     py.qcut := fun _ _ => py.Raised "not available";
     py.series_pow := fun _ _ => py.Raised "not available";
     py.get_dummies := fun _ _ => py.Raised "not available";
     py.LabelEncoder_fit_transform := fun _ => py.Raised "not available";
     py.pca_project := fun _ _ => ([], []);
     py.pca_refusal := fun _ _ => "the input is refused";
     py.PyObject := unit;
     py.py_eval := fun _ _ => py.Raised "not available";
     py.py_eval_frame := fun _ df => df;
     py.as_column := fun _ _ => py.Raised "not available" |}.

(** ** Reasoning about operations of the feature engine *)
Module Logic.

Import FeatureEngineeringController.

(** [triple P m Q E]: run in a state of [P], [m] returns some [a] in a
    state of [Q a], or raises in a state of [E]. *)
Definition triple {A : Type} (P : State -> Prop) (m : M A)
  (Q : A -> State -> Prop) (E : State -> Prop) : Prop :=
  forall s, P s ->
    match m s with
    | (s', py.Returned a) => Q a s'
    | (s', py.Raised _) => E s'
    end.

(** The Table Store holds a table with at least one row and one column. *)
Definition has_table (s : State) : Prop :=
  exists df, Engine.table s = Some df /\ pd.empty df = false.

Definition stacks (u r : list pd.DataFrame) (s : State) : Prop :=
  undo_stack s = u /\ redo_stack s = r.

Definition inv (u r : list pd.DataFrame) (s : State) : Prop :=
  stacks u r s /\ has_table s.

(** What a mutating operation has done when it is back, by whether its
    entry checks passed: where they did not, it returned a failure and
    changed nothing; where they did, the snapshot of the table sits on the
    undo stack over an empty redo stack, whatever the transform then did, and
    a success leaves a table in the store. *)
Definition settles (passed : bool) (s : State)
  (res : State * py.Outcome py.Response) : Prop :=
  exists resp, snd res = py.Returned resp /\
    if passed then
      exists df0, Engine.table s = Some df0 /\ pd.empty df0 = false /\
        stacks (py_append (undo_stack s) df0) [] (fst res) /\
        (py.success resp = true -> has_table (fst res))
    else py.success resp = false /\ fst res = s.

End Logic.

(** A call that returned a failure. *)
Definition failed (o : py.Outcome py.Response) : bool :=
  match o with
  | py.Returned r => negb (py.success r)
  | py.Raised _ => false
  end.

(** ** The exact effect of a body on the table *)
Module Exact.

Import FeatureEngineeringController Logic.

(** The stacks are [u] and [r] and the store holds exactly [d], a table with
    a row and a column. *)
Definition at_table (u r : list pd.DataFrame) (d : pd.DataFrame) (s : State)
  : Prop :=
  stacks u r s /\ Engine.table s = Some d /\ pd.empty d = false.



End Exact.

(** What each operation answers on the fresh engine. *)
Definition fresh_answer (op : Engine.Operation) : Engine.Answer :=
  match op with
  | Engine.clean Engine.autoClean =>
      Engine.Dict (py.Failure "No dataset loaded or dataset is empty")
  | Engine.clean _ | Engine.mutate _ =>
      Engine.Dict (py.Failure "No dataset loaded")
  | Engine.qualitySummary => Engine.Summary None
  | Engine.undoOp => Engine.Dict (py.Failure "Nothing to undo")
  | Engine.redoOp => Engine.Dict (py.Failure "Nothing to redo")
  end.


(** ** The two notions of a duplicate row, in the words of the
    specification *)
Module Duplicates.

(** Row [i] equals some other row of the table. *)
Definition equals_another (rs : list pd.Row) (i : nat) : bool :=
  existsb (fun j => negb (j =? i) && pd.row_eqb (nth i rs []) (nth j rs []))
    (seq 0 (length rs)).

(** Row [i] equals a row above it. *)
Definition equals_earlier (rs : list pd.Row) (i : nat) : bool :=
  existsb (fun j => pd.row_eqb (nth i rs []) (nth j rs [])) (seq 0 i).

End Duplicates.

(** ** Invariants of a cleaned frame *)
Module Cleaned.

(** A cell that is one of the missing-value tokens. *)
Definition token (c : pd.Cell) : bool :=
  match c with
  | pd.VStr s => str_in s DataCleaningController.missing_indicators
  | _ => false
  end.

(** A cell that is present and is no token: [auto_clean] has nothing to do
    with it. *)
Definition settled (c : pd.Cell) : bool := pd.notna c && negb (token c).

Definition all_cells (p : pd.Cell -> bool) (df : pd.DataFrame) : bool :=
  forallb (fun s => forallb p (pd.values s)) (pd.cols df).

(** Every column has one cell per row. *)
Definition square (df : pd.DataFrame) : bool :=
  forallb (fun s => length (pd.values s) =? pd.len df) (pd.cols df).

End Cleaned.

(** ** The pipeline of [auto_clean] as frames *)
Module Pipeline.

Import DataCleaningController.

(** The frame after steps 1 to 4, and the frame [auto_clean] stores. *)
Definition filled (df : pd.DataFrame) : pd.DataFrame :=
  step4 (step3 (step2 (step1 df))).

Definition cleaned (df : pd.DataFrame) : pd.DataFrame :=
  pd.drop_duplicates (filled df).

(** Two lists of rows seen so far that answer every look-up alike. *)
Definition same_classes (seen seen' : list pd.Row) : Prop :=
  forall r, existsb (pd.row_eqb r) seen = existsb (pd.row_eqb r) seen'.

End Pipeline.

(** ** Tables of the examples *)

(** A column with both infinities and a gap, and a repeated last row. *)
Definition inf_table : pd.DataFrame :=
  {| pd.index := [0; 1; 2; 3; 4]%Z;
     pd.cols :=
       [{| pd.name := "A"; pd.dt := pd.float64;
           pd.values := [pd.VFloat pd.PInf; pd.VFloat pd.NInf; pd.NA;
                         pd.VFloat (pd.Fin 1); pd.VFloat (pd.Fin 1)] |};
        {| pd.name := "B"; pd.dt := pd.object_;
           pd.values := [pd.VStr "a"; pd.VStr "b"; pd.VStr "c"; pd.VStr "d";
                         pd.VStr "d"] |}] |}.

(** A token to replace, and a row that repeats once it is replaced. *)
Definition small_table : pd.DataFrame :=
  {| pd.index := [0; 1; 2]%Z;
     pd.cols :=
       [{| pd.name := "Name"; pd.dt := pd.object_;
           pd.values := [pd.VStr "Raju"; pd.VStr "?"; pd.VStr "Raju"] |};
        {| pd.name := "Age"; pd.dt := pd.float64;
           pd.values := [pd.VFloat (pd.Fin 25); pd.VFloat (pd.Fin 30);
                         pd.VFloat (pd.Fin 25)] |}] |}.

(** The manager with [df] as its dataset. *)
Definition manager_with (df : pd.DataFrame) : DatasetManager.t :=
  DatasetManager.set_dataset DatasetManager.init
    (Some {| models.data := Some df; models.file_path := None |}).

(** Three rows and no column. *)
Definition hollow_table : pd.DataFrame :=
  {| pd.index := [0; 1; 2]%Z; pd.cols := [] |}.

(** Column [A] misses two of its five cells. *)
Definition sparse_table : pd.DataFrame :=
  {| pd.index := [0; 1; 2; 3; 4]%Z;
     pd.cols :=
       [{| pd.name := "A"; pd.dt := pd.float64;
           pd.values := [pd.VFloat (pd.Fin 1); pd.NA; pd.VFloat (pd.Fin 3);
                         pd.NA; pd.VFloat (pd.Fin 5)] |};
        {| pd.name := "B"; pd.dt := pd.int64;
           pd.values := [pd.VInt 1; pd.VInt 2; pd.VInt 3; pd.VInt 4;
                         pd.VInt 5] |}] |}.

(** The rows [Raju,25], [Ajay,30], [Raju,25]. *)
Definition people_table : pd.DataFrame :=
  {| pd.index := [0; 1; 2]%Z;
     pd.cols :=
       [{| pd.name := "Name"; pd.dt := pd.object_;
           pd.values := [pd.VStr "Raju"; pd.VStr "Ajay"; pd.VStr "Raju"] |};
        {| pd.name := "Age"; pd.dt := pd.int64;
           pd.values := [pd.VInt 25; pd.VInt 30; pd.VInt 25] |}] |}.

(** Two numeric columns, one of them with a gap. *)
Definition gap_table : pd.DataFrame :=
  {| pd.index := [0; 1; 2]%Z;
     pd.cols :=
       [{| pd.name := "x"; pd.dt := pd.float64;
           pd.values := [pd.VFloat (pd.Fin 1); pd.NA; pd.VFloat (pd.Fin 3)] |};
        {| pd.name := "y"; pd.dt := pd.int64;
           pd.values := [pd.VInt 2; pd.VInt 4; pd.VInt 6] |}] |}.

(** The column [-5, 0, 10]. *)
Definition log_table : pd.DataFrame :=
  {| pd.index := [0; 1; 2]%Z;
     pd.cols :=
       [{| pd.name := "x"; pd.dt := pd.int64;
           pd.values := [pd.VInt (-5); pd.VInt 0; pd.VInt 10] |}] |}.

(** Two numeric columns and a column of text. *)
Definition pca_table : pd.DataFrame :=
  {| pd.index := [0; 1; 2]%Z;
     pd.cols :=
       [{| pd.name := "x"; pd.dt := pd.int64;
           pd.values := [pd.VInt (-5); pd.VInt 0; pd.VInt 10] |};
        {| pd.name := "y"; pd.dt := pd.float64;
           pd.values := [pd.VFloat (pd.Fin 1); pd.VFloat (pd.Fin 2);
                         pd.VFloat (pd.Fin 4)] |};
        {| pd.name := "label"; pd.dt := pd.object_;
           pd.values := [pd.VStr "a"; pd.VStr "b"; pd.VStr "c"] |}] |}.


(** The frame without its rows, as [df.drop(df.index, inplace=True)] leaves
    it. *)
Definition without_rows (df : pd.DataFrame) : pd.DataFrame :=
  {| pd.index := [];
     pd.cols := map (fun s => {| pd.name := pd.name s; pd.dt := pd.dt s;
                                 pd.values := [] |}) (pd.cols df) |}.

(** A library that evaluates two expressions, both to the number 0: ["0"],
    and ["df.drop(df.index, inplace=True) or 0"], which first removes every
    row of the frame it is handed.  A number assigned to a label makes a
    column that repeats it once per row. *)
Definition zero_lib : py.Lib :=
  {| py.memory_usage_deep := py.memory_usage_deep no_lib;
     py.py_float := py.py_float no_lib;
     py.py_int := py.py_int no_lib;
     py.float_str := py.float_str no_lib;
     py.float_1f := py.float_1f no_lib;
     py.StandardScaler_fit_transform := py.StandardScaler_fit_transform no_lib;
     py.MinMaxScaler_fit_transform := py.MinMaxScaler_fit_transform no_lib;
     py.RobustScaler_fit_transform := py.RobustScaler_fit_transform no_lib;
     py.round_double := py.round_double no_lib;
     py.log_rounded := py.log_rounded no_lib;
     py.sqrt_rounded := py.sqrt_rounded no_lib;
     py.qcut := py.qcut no_lib;
     py.series_pow := py.series_pow no_lib;
     py.get_dummies := py.get_dummies no_lib;
     py.LabelEncoder_fit_transform := py.LabelEncoder_fit_transform no_lib;
     py.pca_project := py.pca_project no_lib;
     py.pca_refusal := py.pca_refusal no_lib;
     py.PyObject := unit;
     py.py_eval := fun _ _ => py.Returned tt;
     py.py_eval_frame :=
       fun expression df =>
         if String.eqb expression "df.drop(df.index, inplace=True) or 0"
         then without_rows df else df;
     py.as_column :=
       fun df _ => py.Returned (pd.int64, map (fun _ => pd.VInt 0)
                                            (pd.index df)) |}.

(** The engine after that second expression has made the feature [z] of
    [log_table]. *)
Definition emptied_state : FeatureEngineeringController.State :=
  fst (Engine.run_mutation zero_lib
         (Engine.createCustomFeature "z"
            "df.drop(df.index, inplace=True) or 0")
         (Engine.loaded log_table)).

(** ** A session: operations and uploads

    What the user interface does with the two engines: it runs their
    operations and, on an upload, hands a new dataset to the manager they
    share ([set_dataset]); the feature engine and its stacks live on. *)
Module Session.

Import FeatureEngineeringController.

Inductive Step : Type :=
| operation (op : Engine.Operation)
| upload (dataset : models.Dataset).

Definition set_dataset (dataset : models.Dataset) (s : State) : State :=
  {| dataset_manager :=
       DatasetManager.set_dataset (dataset_manager s) (Some dataset);
     undo_stack := undo_stack s;
     redo_stack := redo_stack s |}.

Definition step (L : py.Lib) (s : State) (st : Step) : State :=
  match st with
  | operation op => fst (Engine.run L op s)
  | upload dataset => set_dataset dataset s
  end.

Definition run (L : py.Lib) (steps : list Step) (s : State) : State :=
  fold_left (step L) steps s.

(** Every snapshot on either stack has a row and a column. *)
Definition snapshots_ok (s : State) : bool :=
  forallb (fun d => negb (pd.empty d)) (undo_stack s)
  && forallb (fun d => negb (pd.empty d)) (redo_stack s).

(** A dataset is loaded. *)
Definition loaded (s : State) : bool :=
  match DatasetManager.current_dataset (dataset_manager s) with
  | Some _ => true
  | None => false
  end.

End Session.

(** ** The stacks over a session and the columns an operation assigns *)
Module Stacks.

Import FeatureEngineeringController Logic.

(** Whether a dataset is loaded is [b]. *)
Definition pres (b : bool) (s : State) : Prop := Session.loaded s = b.

(** [m] neither loads nor unloads a dataset, whether it returns or raises. *)
Definition keeps {A : Type} (m : M A) : Prop :=
  forall b, triple (pres b) m (fun _ => pres b) (pres b).

(** The invariant of a session: the snapshots have a row and a column, and
    there is none before a dataset is loaded. *)
Definition session_inv (s : State) : Prop :=
  Session.snapshots_ok s = true
  /\ (Session.loaded s = false -> undo_stack s = [] /\ redo_stack s = []).

(** The state once the snapshot of [d] is pushed. *)
Definition saved (s : State) (d : pd.DataFrame) : State :=
  {| dataset_manager := dataset_manager s;
     undo_stack := py_append (undo_stack s) d;
     redo_stack := [] |}.

(** The label a single-column operation assigns: [standardize_column]
    writes to the column it reads, the others to a column named after it,
    [create_custom_feature] to the feature name. *)
Definition assigned_label (m : Engine.Mutation) : option string :=
  match m with
  | Engine.standardize c => Some c
  | Engine.minmaxScale c => Some (c ++ "_minmax")
  | Engine.robustScale c => Some (c ++ "_robust")
  | Engine.logTransform c => Some (c ++ "_log")
  | Engine.sqrtTransform c => Some (c ++ "_sqrt")
  | Engine.binColumn c _ => Some (c ++ "_binned")
  | Engine.labelEncode c => Some (c ++ "_label")
  | Engine.createCustomFeature f _ => Some f
  | _ => None
  end.

(** [f"{column}_poly{d}"] *)
Definition poly_label (column : string) (d : Z) : string :=
  column ++ "_poly" ++ string_of_Z d.

(** The table after the assignments of the loop, one per degree and
    power. *)
Definition assign_powers (column : string)
  (powers : list (Z * (pd.dtype * list pd.Cell))) (df : pd.DataFrame)
  : pd.DataFrame :=
  fold_left (fun t dp => pd.setitem t (poly_label column (fst dp))
                           (fst (snd dp)) (snd (snd dp)))
    powers df.

End Stacks.

(** ** The logs [get_logs] returns *)
Module Logs.

Import LoggingService.

(** Latest first. *)
Definition not_before (a b : Log) : Prop := (log_time b <= log_time a)%Z.

(** The logs [get_logs] gathers before it sorts them: the rows of the
    database, when it is asked and answers, then the local entries. *)
Definition gathered (db : option DatabaseManager.t) (self : t)
  (dataset_id : option Z) : list Log :=
  (match db, dataset_id with
  | Some d, Some z =>
      if truthy dataset_id then
        match DatabaseManager.fetch_logs d z with
        | py.Returned rows =>
            map (fun r => stored (fst (fst r)) (snd (fst r)) (snd r)) rows
        | py.Raised _ => []
        end
      else []
  | _, _ => []
   end ++ map local (local_filtered self dataset_id))%list.

(** The entry [log_operation] makes. *)
Definition entry_of (dataset_id : option Z)
  (operation_type description : string) (now : Z) : Entry :=
  {| dataset_id := dataset_id; operation_type := operation_type;
     description := description; timestamp := now |}.

End Logs.

(** ** The manager and the reports of the validator *)

(** What a cleaning operation leaves of the manager on success: the
    dataset's path and the history are as they were. *)
Definition same_origin (dm dm' : DatasetManager.t) : Prop :=
  DatasetManager.dataset_history dm' = DatasetManager.dataset_history dm
  /\ option_map models.file_path (DatasetManager.current_dataset dm')
     = option_map models.file_path (DatasetManager.current_dataset dm).

(** The column a fill operation fills. *)
Definition fill_target (c : Engine.Cleaning) : option string :=
  match c with
  | Engine.fillWithMean col | Engine.fillWithMode col
  | Engine.fillWithCustom col _ => Some col
  | _ => None
  end.

(** The entry of a column in the report of [check_missing_values]. *)
Definition missing_entry (df : pd.DataFrame) (s : pd.Series)
  : DataValidator.MissingEntry :=
  {| DataValidator.count := pd.isnull_sum s;
     DataValidator.percentage :=
       (inject_Z (Z.of_nat (pd.isnull_sum s))
        / inject_Z (Z.of_nat (pd.len df)) * 100)%Q |}.

(** The entry of a column in the report of [check_data_types]. *)
Definition type_info (s : pd.Series) : DataValidator.TypeInfo :=
  {| DataValidator.dtype := pd.dtype_str (pd.dt s);
     DataValidator.is_numeric := pd.is_numeric_dtype (pd.dt s);
     DataValidator.is_categorical := pd.is_categorical_dtype (pd.dt s);
     DataValidator.is_datetime := pd.is_datetime64_any_dtype (pd.dt s) |}.

(** A run of [update_dataframe] calls, one per frame. *)
Definition update_all (self : DatasetManager.t) (frames : list pd.DataFrame)
  : DatasetManager.t :=
  fold_left (fun dm df => fst (DatasetManager.update_dataframe dm df))
    frames self.

(** ** Further examples *)

(** Two rows and one column. *)
Definition one_column_table : pd.DataFrame :=
  {| pd.index := [0; 1]%Z;
     pd.cols := [{| pd.name := "x"; pd.dt := pd.int64;
                    pd.values := [pd.VInt 1; pd.VInt 2] |}] |}.

(** The engine on [log_table] with [pca_table] as its only snapshot. *)
Definition one_snapshot : FeatureEngineeringController.State :=
  {| FeatureEngineeringController.dataset_manager := manager_with log_table;
     FeatureEngineeringController.undo_stack := [pca_table];
     FeatureEngineeringController.redo_stack := [] |}.

(** A dataset as an upload hands it over. *)
Definition uploaded_people : models.Dataset :=
  {| models.data := Some people_table;
     models.file_path := Some "people.csv" |}.

(** A file system on which every call raises, for the closed examples. *)
Definition no_files : io.Files :=
  {| io.read_csv := fun _ => py.Raised "no such file";
     io.read_excel := fun _ => py.Raised "no such file";
     io.to_csv := fun _ _ => py.Raised "read-only file system";
     io.to_excel := fun _ _ => py.Raised "read-only file system";
     io.read_bytes := fun _ => py.Raised "no such file" |}.

(** * Lemmas and theorems *)

(** ** Tables with unique labels

    [df[c]] is a column where one column has the label [c]; the properties of
    the operations that read a column by its label are stated for tables
    whose labels are unique, as the labels of a table read from a file
    are. *)

Lemma people_labels : NoDup (pd.columns people_table).
Proof. repeat constructor; simpl; intuition discriminate. Qed.

Lemma gap_labels : NoDup (pd.columns gap_table).
Proof. repeat constructor; simpl; intuition discriminate. Qed.

Lemma small_labels : NoDup (pd.columns small_table).
Proof. repeat constructor; simpl; intuition discriminate. Qed.

Lemma sparse_labels : NoDup (pd.columns sparse_table).
Proof. repeat constructor; simpl; intuition discriminate. Qed.

Lemma log_labels : NoDup (pd.columns log_table).
Proof. repeat constructor; simpl; intuition discriminate. Qed.

Lemma pca_labels : NoDup (pd.columns pca_table).
Proof. repeat constructor; simpl; intuition discriminate. Qed.

(** * Part 1: the cleaning engine *)

Import Cleaned DataCleaningController Pipeline Duplicates.

(** ** Equality of cells and rows *)

Lemma flt_eqb_refl x : pd.flt_eqb x x = true.
Proof. destruct x; simpl; auto using Qeq_bool_refl. Qed.

Lemma flt_eqb_sym x y : pd.flt_eqb x y = pd.flt_eqb y x.
Proof. destruct x, y; simpl; auto using Qeq_bool_comm. Qed.

Lemma flt_eqb_trans x y z :
  pd.flt_eqb x y = true -> pd.flt_eqb y z = true -> pd.flt_eqb x z = true.
Proof.
  destruct x, y, z; simpl; try discriminate; auto.
  apply Qeq_bool_trans.
Qed.

Lemma cell_eqb_refl c : pd.cell_eqb c c = true.
Proof.
  destruct c; simpl; auto using flt_eqb_refl, Z.eqb_refl, String.eqb_refl.
  destruct b; reflexivity.
Qed.

Lemma cell_eqb_sym a b : pd.cell_eqb a b = pd.cell_eqb b a.
Proof.
  destruct a, b; simpl; auto using flt_eqb_sym, Z.eqb_sym, String.eqb_sym.
  destruct b, b0; reflexivity.
Qed.

Lemma cell_eqb_trans a b c :
  pd.cell_eqb a b = true -> pd.cell_eqb b c = true -> pd.cell_eqb a c = true.
Proof.
  destruct a, b, c; simpl; try discriminate; auto.
  - destruct b, b0, b1; simpl; auto.
  - rewrite !Z.eqb_eq. congruence.
  - apply flt_eqb_trans.
  - rewrite !String.eqb_eq. congruence.
  - rewrite !Z.eqb_eq. congruence.
Qed.

Lemma row_eqb_refl r : pd.row_eqb r r = true.
Proof. induction r; simpl; [reflexivity|]. now rewrite cell_eqb_refl. Qed.

Lemma row_eqb_sym a b : pd.row_eqb a b = pd.row_eqb b a.
Proof.
  revert b. induction a as [|x a IH]; intros [|y b]; simpl; auto.
  now rewrite cell_eqb_sym, IH.
Qed.

Lemma row_eqb_trans a b c :
  pd.row_eqb a b = true -> pd.row_eqb b c = true -> pd.row_eqb a c = true.
Proof.
  revert b c. induction a as [|x a IH]; intros [|y b] [|z c]; simpl;
    try discriminate; auto.
  rewrite !andb_true_iff. intros [H1 H2] [H3 H4]. split.
  - eapply cell_eqb_trans; eassumption.
  - eapply IH; eassumption.
Qed.

(** ** Masks and the rows they select *)

Lemma select_all {A : Type} (m : list bool) (l : list A) :
  forallb (fun b => b) m = true -> length m = length l -> pd.select m l = l.
Proof.
  revert l. induction m as [|b m IH]; intros [|x l]; simpl; try discriminate;
    auto.
  intros H Hl. apply andb_true_iff in H as [Hb Hm]. subst b.
  f_equal. apply IH; [exact Hm | lia].
Qed.

Lemma length_select {A : Type} (m : list bool) (l : list A) :
  length m = length l -> length (pd.select m l) = pd.mask_sum m.
Proof.
  unfold pd.mask_sum. revert l.
  induction m as [|b m IH]; intros [|x l]; simpl; try discriminate; auto.
  intros Hl. destruct b; simpl; rewrite IH by lia; reflexivity.
Qed.

Lemma length_transpose n cs : length (pd.transpose n cs) = n.
Proof. revert cs. induction n; intros cs; simpl; auto. Qed.

Lemma transpose_select (m : list bool) (cs : list (list pd.Cell)) :
  (forall c, In c cs -> length c = length m) ->
  pd.transpose (pd.mask_sum m) (map (pd.select m) cs)
  = pd.select m (pd.transpose (length m) cs).
Proof.
  unfold pd.mask_sum. revert cs.
  induction m as [|b m IH]; intros cs Hlen; [reflexivity|].
  assert (Htl : forall c, In c (map (@tl pd.Cell) cs) -> length c = length m).
  { intros c Hc. apply in_map_iff in Hc as [c0 [<- Hc0]].
    specialize (Hlen c0 Hc0). destruct c0; simpl in *; [discriminate | lia]. }
  assert (Hsel : forall b', map (pd.select (b' :: m)) cs
                 = if b' then map (fun c => hd pd.NA c :: pd.select m (tl c)) cs
                   else map (fun c => pd.select m (tl c)) cs).
  { intros b'. destruct b'; apply map_ext_in; intros c Hc;
      specialize (Hlen c Hc); destruct c; simpl in *; try discriminate;
      reflexivity. }
  rewrite Hsel. destruct b; simpl.
  - rewrite !map_map. simpl. apply (f_equal2 cons); [reflexivity|].
    rewrite <- (map_map (@tl pd.Cell) (pd.select m)). apply IH. exact Htl.
  - rewrite <- (map_map (@tl pd.Cell) (pd.select m)). apply IH. exact Htl.
Qed.

(** ** Dropping duplicates leaves no duplicate *)

Lemma existsb_row_absorb r seen x :
  existsb (pd.row_eqb r) seen = true ->
  pd.row_eqb x r || existsb (pd.row_eqb x) seen = existsb (pd.row_eqb x) seen.
Proof.
  intros H. destruct (pd.row_eqb x r) eqn:E; [|reflexivity]. simpl.
  apply existsb_exists in H as [y [Hy Hry]]. symmetry.
  apply existsb_exists. exists y. split; [exact Hy|].
  eapply row_eqb_trans; eassumption.
Qed.

Lemma no_duplicate_after_drop rs :
  forall seen seen', same_classes seen seen' ->
    forallb negb
      (pd.duplicated_first seen'
         (pd.select (map negb (pd.duplicated_first seen rs)) rs)) = true.
Proof.
  induction rs as [|r rs IH]; intros seen seen' Hc; simpl; [reflexivity|].
  destruct (existsb (pd.row_eqb r) seen) eqn:Hd; simpl.
  - apply IH. intros x. simpl. rewrite <- Hc.
    apply existsb_row_absorb. exact Hd.
  - rewrite <- Hc, Hd. simpl. apply IH. intros x. simpl. now rewrite Hc.
Qed.

Lemma forallb_negb_sum (m : list bool) :
  forallb negb m = true -> pd.mask_sum m = 0.
Proof.
  unfold pd.mask_sum. induction m as [|b m IH]; simpl; [reflexivity|].
  intros H. apply andb_true_iff in H as [Hb Hm]. destruct b; [discriminate|].
  auto.
Qed.

Lemma forallb_negb_all (m : list bool) :
  forallb negb m = true -> forallb (fun b => b) (map negb m) = true.
Proof.
  induction m as [|b m IH]; simpl; [reflexivity|].
  intros H. apply andb_true_iff in H as [Hb Hm]. rewrite Hb. simpl. auto.
Qed.

Lemma length_duplicated_first seen rs :
  length (pd.duplicated_first seen rs) = length rs.
Proof. revert seen. induction rs; intros seen; simpl; auto. Qed.

(** ** The steps of [auto_clean] *)


Lemma numeric_kind_cases d :
  numeric_kind d = true -> d = pd.bool_ \/ d = pd.int64 \/ d = pd.float64.
Proof. destruct d; simpl; auto; discriminate. Qed.

Lemma numeric_present d c :
  numeric_kind d = true -> wf.conforms d c = true -> wf.finite c = true ->
  c = pd.NA \/ exists q, pd.as_float c = Some (pd.Fin q).
Proof.
  intros Hk Hc Hf.
  destruct (numeric_kind_cases d Hk) as [-> | [-> | ->]];
    destruct c as [| b | z | [q| |] | t | t]; simpl in *; try discriminate;
    eauto.
Qed.

Lemma flt_sum_finite xs :
  (forall x, In x xs -> exists q, x = pd.Fin q) ->
  forall q0, exists q,
    fold_left (fun acc x => pd.flt_add acc (Some x)) xs (Some (pd.Fin q0))
    = Some (pd.Fin q).
Proof.
  induction xs as [|x xs IH]; intros H q0; simpl; [eauto|].
  destruct (H x (or_introl eq_refl)) as [q ->]. simpl.
  apply IH. intros y Hy. apply H. right. exact Hy.
Qed.

Lemma present_floats_finite d vs :
  numeric_kind d = true ->
  forallb (wf.conforms d) vs = true -> forallb wf.finite vs = true ->
  forall x, In x (pd.present_floats vs) -> exists q, x = pd.Fin q.
Proof.
  intros Hk. induction vs as [|c vs IH]; simpl; intros Hc Hf x Hx;
    [contradiction|].
  apply andb_true_iff in Hc as [Hc1 Hc2].
  apply andb_true_iff in Hf as [Hf1 Hf2].
  destruct (numeric_present d c Hk Hc1 Hf1) as [-> | [q Hq]].
  - simpl in Hx. auto.
  - rewrite Hq in Hx. destruct Hx as [<- | Hx]; eauto.
Qed.

Lemma present_floats_nonempty d vs :
  numeric_kind d = true ->
  forallb (wf.conforms d) vs = true -> forallb wf.finite vs = true ->
  forallb pd.isna vs = false -> pd.present_floats vs <> [].
Proof.
  intros Hk. induction vs as [|c vs IH]; simpl; intros Hc Hf Hn;
    [discriminate|].
  apply andb_true_iff in Hc as [Hc1 Hc2].
  apply andb_true_iff in Hf as [Hf1 Hf2].
  destruct (numeric_present d c Hk Hc1 Hf1) as [-> | [q Hq]].
  - simpl in *. auto.
  - rewrite Hq. discriminate.
Qed.

(** The mean of a numeric column of finite values, not all missing, is a
    finite number. *)
Lemma mean_finite d vs :
  numeric_kind d = true ->
  forallb (wf.conforms d) vs = true -> forallb wf.finite vs = true ->
  forallb pd.isna vs = false ->
  exists q, pd.mean_values vs = pd.VFloat (pd.Fin q).
Proof.
  intros Hk Hc Hf Hn. unfold pd.mean_values.
  pose proof (present_floats_nonempty d vs Hk Hc Hf Hn) as Hne.
  pose proof (present_floats_finite d vs Hk Hc Hf) as Hfin.
  destruct (pd.present_floats vs) as [|x xs] eqn:E; [contradiction|].
  unfold pd.flt_sum. destruct (flt_sum_finite (x :: xs) Hfin 0%Q) as [q ->].
  eauto.
Qed.

Lemma in_insert_sorted c x l :
  In x (pd.insert_sorted c l) -> x = c \/ In x l.
Proof.
  induction l as [|y l IH]; simpl.
  - intros [<- | []]. auto.
  - destruct (pd.cell_leb c y); simpl.
    + intros [<- | [<- | H]]; auto.
    + intros [<- | H]; auto. destruct (IH H); auto.
Qed.

Lemma in_sort_cells x l : In x (pd.sort_cells l) -> In x l.
Proof.
  induction l as [|y l IH]; simpl; [auto|].
  intros H. apply in_insert_sorted in H as [-> | H]; auto.
Qed.

Lemma in_distinct x l : In x (pd.distinct l) -> In x l.
Proof.
  induction l as [|y l IH]; simpl; [auto|].
  intros [<- | H]; auto. apply filter_In in H as [H _]. auto.
Qed.

(** A mode of a column is one of its present cells. *)
Lemma in_mode x vs : In x (pd.mode_values vs) -> In x vs /\ pd.notna x = true.
Proof.
  unfold pd.mode_values. intros H.
  apply in_sort_cells in H. apply filter_In in H as [H _].
  apply in_distinct in H. apply filter_In in H. exact H.
Qed.

Lemma fillna_settled v vs :
  settled v = true -> forallb (fun c => negb (token c)) vs = true ->
  forallb settled (pd.fillna_values v vs) = true.
Proof.
  intros Hv. unfold pd.fillna_values. induction vs as [|c vs IH]; simpl;
    [reflexivity|].
  intros H. apply andb_true_iff in H as [H1 H2].
  rewrite (IH H2), andb_true_r.
  destruct (pd.isna c) eqn:E; [exact Hv|].
  unfold settled, pd.notna. now rewrite E, H1.
Qed.

Lemma present_settled vs :
  existsb pd.isna vs = false -> forallb (fun c => negb (token c)) vs = true ->
  forallb settled vs = true.
Proof.
  induction vs as [|c vs IH]; simpl; [reflexivity|].
  intros H1 H2. apply orb_false_iff in H1 as [Ha Hb].
  apply andb_true_iff in H2 as [Hc Hd].
  rewrite (IH Hb Hd), andb_true_r. unfold settled, pd.notna. now rewrite Ha, Hc.
Qed.

Lemma forallb_in {A : Type} (p : A -> bool) l x :
  forallb p l = true -> In x l -> p x = true.
Proof. intros H Hx. rewrite forallb_forall in H. auto. Qed.

(** Step 4 settles every cell of a well-typed, finite, token-free column. *)
Lemma fill_missing_settled s :
  forallb (wf.conforms (pd.dt s)) (pd.values s) = true ->
  forallb wf.finite (pd.values s) = true ->
  forallb (fun c => negb (token c)) (pd.values s) = true ->
  forallb settled (pd.values (fill_missing s)) = true.
Proof.
  intros Hc Hf Ht. unfold fill_missing, pd.isnull_any.
  destruct (existsb pd.isna (pd.values s)) eqn:Hany;
    [|apply present_settled; assumption].
  destruct (numeric_kind (pd.dt s)) eqn:Hk.
  - unfold pd.isna_all. destruct (forallb pd.isna (pd.values s)) eqn:Hall; simpl.
    + apply fillna_settled; [|exact Ht].
      destruct (pd.dt s); reflexivity.
    + apply fillna_settled; [|exact Ht].
      unfold pd.mean.
      destruct (mean_finite _ _ Hk Hc Hf Hall) as [q ->].
      destruct (pd.dt s); reflexivity.
  - unfold pd.mode. destruct (pd.mode_values (pd.values s)) as [|m ms] eqn:Hm;
      simpl.
    + apply fillna_settled; [|exact Ht]. destruct (pd.dt s); reflexivity.
    + assert (Hin : In m (pd.mode_values (pd.values s)))
        by (rewrite Hm; left; reflexivity).
      apply in_mode in Hin as [Hin Hna].
      apply fillna_settled; [|exact Ht].
      assert (Htm : negb (token m) = true)
        by exact (forallb_in (fun c => negb (token c)) _ m Ht Hin).
      assert (Hfv : pd.fill_value (pd.dt s) m = m \/
                    exists z, pd.fill_value (pd.dt s) m = pd.VFloat (pd.Fin z)).
      { destruct (pd.dt s), m; simpl; eauto. }
      destruct Hfv as [-> | [z ->]]; [|reflexivity].
      unfold settled. now rewrite Hna, Htm.
Qed.

Lemma length_fill_missing s :
  length (pd.values (fill_missing s)) = length (pd.values s).
Proof.
  unfold fill_missing.
  destruct (pd.isnull_any s); [|reflexivity].
  destruct (numeric_kind (pd.dt s)).
  - destruct (negb (pd.isna_all s)); simpl; unfold pd.fillna_values;
      apply length_map.
  - destruct (pd.mode s); simpl; unfold pd.fillna_values; apply length_map.
Qed.

Lemma replace_cell_no_token c :
  negb (token (pd.replace_cell missing_indicators c)) = true.
Proof.
  destruct c; cbn -[str_in]; try reflexivity.
  destruct (str_in s missing_indicators) eqn:E; cbn -[str_in]; [reflexivity|].
  now rewrite E.
Qed.

Lemma replace_cell_conforms d c :
  wf.conforms d c = true ->
  wf.conforms d (pd.replace_cell missing_indicators c) = true.
Proof.
  destruct d, c; cbn -[str_in]; try discriminate; auto;
    destruct (str_in s missing_indicators); auto.
Qed.

Lemma replace_cell_finite c :
  wf.finite c = true -> wf.finite (pd.replace_cell missing_indicators c) = true.
Proof.
  destruct c; cbn -[str_in]; auto. destruct (str_in s missing_indicators); auto.
Qed.

Lemma replace_cell_settled c :
  settled c = true -> pd.replace_cell missing_indicators c = c.
Proof.
  unfold settled. destruct c; cbn -[str_in]; auto.
  intros H. destruct (str_in s missing_indicators); [discriminate | reflexivity].
Qed.

(** ** The frame [auto_clean] stores *)

Lemma series_eta (s : pd.Series) :
  {| pd.name := pd.name s; pd.dt := pd.dt s; pd.values := pd.values s |} = s.
Proof. destruct s; reflexivity. Qed.

Lemma frame_eta (df : pd.DataFrame) :
  {| pd.index := pd.index df; pd.cols := pd.cols df |} = df.
Proof. destruct df; reflexivity. Qed.

Lemma map_id_in {A : Type} (f : A -> A) (l : list A) :
  (forall x, In x l -> f x = x) -> map f l = l.
Proof.
  intros H. rewrite <- (map_id l) at 2. apply map_ext_in. exact H.
Qed.

Lemma filter_all {A : Type} (p : A -> bool) (l : list A) :
  (forall x, In x l -> p x = true) -> filter p l = l.
Proof.
  induction l as [|x l IH]; simpl; intros H; [reflexivity|].
  rewrite (H x (or_introl eq_refl)). f_equal. apply IH. auto.
Qed.

Lemma forallb_select {A : Type} (p : A -> bool) (m : list bool) (l : list A) :
  forallb p l = true -> forallb p (pd.select m l) = true.
Proof.
  revert l. induction m as [|b m IH]; intros [|x l]; simpl; auto.
  intros H. apply andb_true_iff in H as [H1 H2].
  destruct b; simpl; [rewrite H1; simpl|]; auto.
Qed.

Lemma in_cols_filled df s' :
  In s' (pd.cols (filled df)) ->
  exists s, In s (pd.cols df)
            /\ s' = fill_missing (pd.replace_series missing_indicators s).
Proof.
  unfold filled, step4, step3, step2, step1. simpl. intros H.
  apply in_map_iff in H as [s1 [<- H]].
  apply filter_In in H as [H _]. apply filter_In in H as [H _].
  apply in_map_iff in H as [s [<- H]]. eauto.
Qed.

Lemma frame_ok_in df s :
  wf.frame_ok df = true -> In s (pd.cols df) ->
  length (pd.values s) = pd.len df
  /\ forallb (wf.conforms (pd.dt s)) (pd.values s) = true.
Proof.
  unfold wf.frame_ok, wf.series_ok. intros H Hs.
  pose proof (forallb_in _ _ _ H Hs) as H1. cbv beta in H1.
  apply andb_true_iff in H1 as [H1 H2]. apply Nat.eqb_eq in H1. auto.
Qed.

Lemma forallb_map_intro {A B : Type} (p : B -> bool) (f : A -> B) l :
  (forall x, In x l -> p (f x) = true) -> forallb p (map f l) = true.
Proof.
  intros H. apply forallb_forall. intros y Hy.
  apply in_map_iff in Hy as [x [<- Hx]]. auto.
Qed.

Lemma filled_square df :
  wf.frame_ok df = true -> square (filled df) = true.
Proof.
  intros Hok. unfold square. apply forallb_forall. intros s' Hs'.
  apply in_cols_filled in Hs' as [s [Hs ->]].
  rewrite length_fill_missing. simpl. rewrite length_map.
  apply Nat.eqb_eq. apply (frame_ok_in df s Hok Hs).
Qed.

Lemma filled_settled df :
  wf.frame_ok df = true -> wf.frame_finite df = true ->
  all_cells settled (filled df) = true.
Proof.
  intros Hok Hfin. unfold all_cells. apply forallb_forall. intros s' Hs'.
  apply in_cols_filled in Hs' as [s [Hs ->]].
  destruct (frame_ok_in df s Hok Hs) as [_ Hc].
  pose proof (forallb_in _ _ _ Hfin Hs) as Hf. cbv beta in Hf.
  apply fill_missing_settled; simpl.
  - apply forallb_map_intro. intros c Hc'. apply replace_cell_conforms.
    exact (forallb_in _ _ _ Hc Hc').
  - apply forallb_map_intro. intros c Hc'. apply replace_cell_finite.
    exact (forallb_in _ _ _ Hf Hc').
  - apply forallb_map_intro. intros c _. apply replace_cell_no_token.
Qed.

Lemma len_rows df : length (pd.rows df) = pd.len df.
Proof. apply length_transpose. Qed.

Lemma square_in df s :
  square df = true -> In s (pd.cols df) -> length (pd.values s) = pd.len df.
Proof.
  unfold square. intros H Hs. apply Nat.eqb_eq.
  exact (forallb_in _ _ _ H Hs).
Qed.

(** The rows of the selected frame are the selected rows. *)
Lemma rows_select_rows (m : list bool) df :
  square df = true -> length m = pd.len df ->
  pd.rows (pd.select_rows m df) = pd.select m (pd.rows df).
Proof.
  intros Hsq Hm. unfold pd.rows, pd.select_rows, pd.len. simpl.
  rewrite length_select by exact Hm.
  rewrite map_map. simpl. rewrite <- (map_map pd.values (pd.select m)).
  unfold pd.len in Hm. rewrite <- Hm. apply transpose_select.
  intros c Hc. apply in_map_iff in Hc as [s [<- Hs]].
  rewrite Hm. apply (square_in df s Hsq Hs).
Qed.

Lemma select_rows_square (m : list bool) df :
  square df = true -> length m = pd.len df ->
  square (pd.select_rows m df) = true.
Proof.
  intros Hsq Hm. unfold square, pd.select_rows, pd.len. simpl.
  apply forallb_map_intro. intros s Hs. simpl. apply Nat.eqb_eq.
  assert (Hs' : length m = length (pd.values s))
    by (rewrite Hm; symmetry; apply (square_in df s Hsq Hs)).
  rewrite (length_select m (pd.values s) Hs').
  rewrite (length_select m (pd.index df) Hm). reflexivity.
Qed.

Lemma select_rows_all (m : list bool) df :
  square df = true -> length m = pd.len df ->
  forallb (fun b => b) m = true -> pd.select_rows m df = df.
Proof.
  intros Hsq Hm Hall. unfold pd.select_rows.
  rewrite select_all by assumption.
  rewrite (map_id_in _ (pd.cols df)); [apply frame_eta|].
  intros s Hs. rewrite select_all; [apply series_eta | exact Hall |].
  rewrite Hm. symmetry. apply (square_in df s Hsq Hs).
Qed.

Lemma drop_duplicates_square df :
  square df = true -> square (pd.drop_duplicates df) = true.
Proof.
  intros Hsq. unfold pd.drop_duplicates. destruct (pd.empty df); [exact Hsq|].
  apply select_rows_square; [exact Hsq|].
  rewrite length_map, length_duplicated_first. apply len_rows.
Qed.

Lemma drop_duplicates_cells p df :
  all_cells p df = true -> all_cells p (pd.drop_duplicates df) = true.
Proof.
  intros H. unfold pd.drop_duplicates. destruct (pd.empty df); [exact H|].
  unfold all_cells, pd.select_rows. simpl.
  apply forallb_map_intro. intros s Hs. simpl. apply forallb_select.
  exact (forallb_in _ _ _ H Hs).
Qed.

Lemma drop_duplicates_len df :
  1 <= pd.len df -> 1 <= pd.len (pd.drop_duplicates df).
Proof.
  intros Hl. unfold pd.drop_duplicates. destruct (pd.empty df); [exact Hl|].
  unfold pd.select_rows, pd.rows, pd.len in *. simpl.
  destruct (pd.index df) as [|i idx]; simpl in *; [lia|].
  apply le_n_S, Nat.le_0_l.
Qed.

(** A frame [drop_duplicates] has produced holds no duplicate. *)
Lemma drop_duplicates_none df :
  square df = true ->
  pd.mask_sum (pd.duplicated (pd.drop_duplicates df)) = 0
  /\ pd.drop_duplicates (pd.drop_duplicates df) = pd.drop_duplicates df.
Proof.
  intros Hsq.
  pose proof (drop_duplicates_square df Hsq) as Hsq'.
  set (E := pd.drop_duplicates df) in *.
  unfold pd.duplicated. unfold pd.drop_duplicates at 1.
  destruct (pd.empty E) eqn:HeE; [split; reflexivity|].
  assert (Hnone : forallb negb (pd.duplicated_first [] (pd.rows E)) = true).
  { subst E. unfold pd.drop_duplicates in *.
    destruct (pd.empty df) eqn:He; [congruence|].
    rewrite rows_select_rows;
      [| exact Hsq
       | rewrite length_map, length_duplicated_first; apply len_rows].
    apply no_duplicate_after_drop. intros r. reflexivity. }
  split; [apply forallb_negb_sum; exact Hnone|].
  apply select_rows_all; [exact Hsq' | | apply forallb_negb_all; exact Hnone].
  rewrite length_map, length_duplicated_first. apply len_rows.
Qed.

(** ** A second run finds nothing to do *)

Lemma settled_notna c : settled c = true -> pd.notna c = true.
Proof. unfold settled. intros H. apply andb_true_iff in H. tauto. Qed.

Lemma filter_notna_settled vs :
  forallb settled vs = true -> filter pd.notna vs = vs.
Proof.
  intros H. apply filter_all. intros c Hc. apply settled_notna.
  exact (forallb_in _ _ _ H Hc).
Qed.

Lemma existsb_isna_settled vs :
  forallb settled vs = true -> existsb pd.isna vs = false.
Proof.
  induction vs as [|c vs IH]; simpl; [reflexivity|].
  intros H. apply andb_true_iff in H as [H1 H2]. rewrite (IH H2).
  apply settled_notna in H1. unfold pd.notna in H1.
  destruct (pd.isna c); [discriminate | reflexivity].
Qed.

Lemma threshold_met (n : nat) :
  Qle_bool ((8 # 10) * inject_Z (Z.of_nat n)) (inject_Z (Z.of_nat n)) = true.
Proof.
  apply Qle_bool_iff. unfold Qle, Qmult, inject_Z.
  cbn [Qnum Qden]. lia.
Qed.

Section SecondRun.

Variable E : pd.DataFrame.
Hypothesis Hsq : square E = true.
Hypothesis Hset : all_cells settled E = true.
Hypothesis Hlen : 1 <= pd.len E.

Lemma settled_in s : In s (pd.cols E) -> forallb settled (pd.values s) = true.
Proof. intros Hs. exact (forallb_in _ _ _ Hset Hs). Qed.

Lemma count_full s : In s (pd.cols E) -> pd.count s = pd.len E.
Proof.
  intros Hs. unfold pd.count.
  rewrite filter_notna_settled by (apply settled_in; exact Hs).
  apply (square_in E s Hsq Hs).
Qed.

Lemma step1_settled : step1 E = E.
Proof.
  unfold step1, pd.replace.
  rewrite (map_id_in _ (pd.cols E)); [apply frame_eta|].
  intros s Hs. unfold pd.replace_series.
  rewrite (map_id_in _ (pd.values s)); [apply series_eta|].
  intros c Hc. apply replace_cell_settled.
  exact (forallb_in _ _ _ (settled_in s Hs) Hc).
Qed.

Lemma step2_settled : step2 E = E.
Proof.
  unfold step2, pd.dropna_all. rewrite filter_all; [apply frame_eta|].
  intros s Hs. rewrite (count_full s Hs). apply Nat.ltb_lt. lia.
Qed.

Lemma step3_settled : step3 E = E.
Proof.
  unfold step3, pd.dropna_thresh. rewrite filter_all; [apply frame_eta|].
  intros s Hs. rewrite (count_full s Hs). apply threshold_met.
Qed.

Lemma step4_settled : step4 E = E.
Proof.
  unfold step4. rewrite (map_id_in _ (pd.cols E)); [apply frame_eta|].
  intros s Hs. unfold fill_missing, pd.isnull_any.
  now rewrite (existsb_isna_settled _ (settled_in s Hs)).
Qed.

Lemma filled_settled_id : filled E = E.
Proof.
  unfold filled. now rewrite step1_settled, step2_settled, step3_settled,
    step4_settled.
Qed.

End SecondRun.

Lemma bounded_finite c : wf.bounded c = true -> wf.finite c = true.
Proof. destruct c as [| | |[q| |]| |]; simpl; auto. Qed.

Lemma column_bounded_finite vs :
  wf.column_bounded vs = true -> forallb wf.finite vs = true.
Proof.
  unfold wf.column_bounded. intros H. apply andb_true_iff in H as [_ H].
  apply forallb_forall. intros c Hc. apply bounded_finite.
  exact (forallb_in _ _ _ H Hc).
Qed.

Lemma frame_bounded_finite df :
  wf.frame_bounded df = true -> wf.frame_finite df = true.
Proof.
  unfold wf.frame_bounded, wf.frame_finite. intros H.
  apply forallb_forall. intros s Hs. apply column_bounded_finite.
  exact (forallb_in _ _ _ H Hs).
Qed.

(** The frame a first run stores is square, settled and keeps a row. *)
Lemma cleaned_invariants df :
  wf.frame_ok df = true -> wf.frame_finite df = true -> 1 <= pd.len df ->
  square (cleaned df) = true /\ all_cells settled (cleaned df) = true
  /\ 1 <= pd.len (cleaned df).
Proof.
  intros Hok Hfin Hl. unfold cleaned. repeat split.
  - apply drop_duplicates_square, filled_square, Hok.
  - apply drop_duplicates_cells, filled_settled; assumption.
  - apply drop_duplicates_len. exact Hl.
Qed.

Lemma cleaned_idempotent df :
  wf.frame_ok df = true -> wf.frame_finite df = true -> 1 <= pd.len df ->
  filled (cleaned df) = cleaned df
  /\ pd.mask_sum (pd.duplicated (cleaned df)) = 0
  /\ cleaned (cleaned df) = cleaned df.
Proof.
  intros Hok Hfin Hl.
  destruct (cleaned_invariants df Hok Hfin Hl) as [Hsq [Hset Hlen]].
  pose proof (filled_settled_id _ Hsq Hset Hlen) as Hf.
  destruct (drop_duplicates_none (filled df) (filled_square df Hok))
    as [Hsum Hdd].
  fold (cleaned df) in Hsum, Hdd.
  repeat split; [exact Hf | exact Hsum |].
  unfold cleaned at 1. rewrite Hf. exact Hdd.
Qed.

Lemma empty_len df : pd.empty df = false -> 1 <= pd.len df.
Proof.
  unfold pd.empty. intros H. apply orb_false_iff in H as [H _].
  apply Nat.eqb_neq in H. lia.
Qed.

Lemma auto_clean_loaded self T :
  DatasetManager.get_dataframe self = Some T -> pd.empty T = false ->
  exists ds,
    DatasetManager.current_dataset self = Some ds /\
    auto_clean self =
      ({| DatasetManager.current_dataset :=
            Some {| models.data := Some (cleaned T);
                    models.file_path := models.file_path ds |};
          DatasetManager.dataset_history :=
            DatasetManager.dataset_history self |},
       py.Returned
         (py.Success "Dataset cleaned successfully"
            [("original_shape", py.PShape (pd.shape T));
             ("new_shape", py.PShape (pd.shape (cleaned T)));
             ("duplicates_removed",
              py.PNat (pd.mask_sum (pd.duplicated (filled T))));
             ("columns_removed",
              py.PInt (Z.of_nat (snd (pd.shape T))
                       - Z.of_nat (snd (pd.shape (cleaned T)))))])).
Proof.
  intros Ht Hne. unfold auto_clean. rewrite Ht, Hne.
  unfold DatasetManager.get_dataframe in Ht.
  unfold DatasetManager.update_dataframe.
  destruct (DatasetManager.current_dataset self) as [ds|] eqn:Hd.
  - exists ds. split; reflexivity.
  - inversion Ht; subst. discriminate.
Qed.

(** C6 (as amended): on a well-formed table with at least one row and one
    column, whose labels are unique and whose columns have at most [10^6]
    cells with every float at most [10^300] in magnitude, so that no sum of
    a column overflows, a second [auto_clean] leaves the stored table as the
    first one left it: steps 1 to 4 change nothing in it, it holds no
    duplicate row, and the second call either reports zero duplicates and
    zero columns removed or, when the first run has dropped every column,
    the empty-table failure. *)
Theorem C6_auto_clean_idempotent_on_finite_tables
  (self : DatasetManager.t) (T : pd.DataFrame) :
  DatasetManager.get_dataframe self = Some T ->
  pd.empty T = false ->
  NoDup (pd.columns T) ->
  wf.frame_ok T = true ->
  wf.frame_bounded T = true ->
  let first := auto_clean self in
  let second := auto_clean (fst first) in
  exists E,
    DatasetManager.get_dataframe (fst first) = Some E
    /\ fst second = fst first
    /\ step1 E = E
    /\ step2 E = E
    /\ step3 E = E
    /\ step4 E = E
    /\ pd.mask_sum (pd.duplicated E) = 0
    /\ pd.drop_duplicates E = E
    /\ (snd second
        = py.Returned
            (py.Success "Dataset cleaned successfully"
               [("original_shape", py.PShape (pd.shape E));
                ("new_shape", py.PShape (pd.shape E));
                ("duplicates_removed", py.PNat 0);
                ("columns_removed", py.PInt 0)])
        \/ (pd.cols E = []
            /\ snd second
               = py.Returned
                   (py.Failure "No dataset loaded or dataset is empty"))).
Proof.
  intros Ht Hne _ Hok Hb first second.
  pose proof (frame_bounded_finite T Hb) as Hfin.
  destruct (auto_clean_loaded self T Ht Hne) as [ds [Hds H1]].
  destruct (cleaned_idempotent T Hok Hfin (empty_len T Hne))
    as [Hf [Hsum Hcc]].
  destruct (cleaned_invariants T Hok Hfin (empty_len T Hne))
    as [Hsq [Hset Hlen]].
  destruct (drop_duplicates_none (filled T) (filled_square T Hok))
    as [_ Hdd].
  fold (cleaned T) in Hdd.
  subst first second. rewrite H1. cbn [fst snd].
  set (s1 := {| DatasetManager.current_dataset :=
                  Some {| models.data := Some (cleaned T);
                          models.file_path := models.file_path ds |};
                DatasetManager.dataset_history :=
                  DatasetManager.dataset_history self |}).
  assert (Hg : DatasetManager.get_dataframe s1 = Some (cleaned T))
    by reflexivity.
  exists (cleaned T).
  split; [exact Hg|].
  assert (Hsteps : step1 (cleaned T) = cleaned T
                   /\ step2 (cleaned T) = cleaned T
                   /\ step3 (cleaned T) = cleaned T
                   /\ step4 (cleaned T) = cleaned T).
  { split; [apply step1_settled; assumption|].
    split; [apply step2_settled; assumption|].
    split; [apply step3_settled; assumption|].
    apply step4_settled; assumption. }
  destruct Hsteps as [Hs1 [Hs2 [Hs3 Hs4]]].
  destruct (pd.empty (cleaned T)) eqn:He.
  - assert (Hc : pd.cols (cleaned T) = []).
    { unfold pd.empty in He. apply orb_true_iff in He as [He | He].
      - apply Nat.eqb_eq in He. lia.
      - apply Nat.eqb_eq in He.
        destruct (pd.cols (cleaned T)); [reflexivity | discriminate]. }
    unfold auto_clean. rewrite Hg, He. cbn [fst snd].
    repeat split; auto.
  - destruct (auto_clean_loaded s1 (cleaned T) Hg He) as [ds1 [Hds1 H2]].
    rewrite H2. cbn [fst snd]. rewrite Hcc, Hf, Hsum, Z.sub_diag.
    simpl in Hds1. inversion Hds1; subst ds1. simpl.
    repeat split; auto.
Qed.

Lemma C6_auto_clean_idempotent_witness :
  DatasetManager.get_dataframe (manager_with small_table) = Some small_table
  /\ pd.empty small_table = false
  /\ NoDup (pd.columns small_table)
  /\ wf.frame_ok small_table = true
  /\ wf.frame_bounded small_table = true
  /\ fst (auto_clean (fst (auto_clean (manager_with small_table))))
     = fst (auto_clean (manager_with small_table)).
Proof.
  do 2 (split; [reflexivity|]). split; [exact small_labels|].
  do 2 (split; [vm_compute; reflexivity|]).
  destruct (C6_auto_clean_idempotent_on_finite_tables
              (manager_with small_table) small_table eq_refl eq_refl
              small_labels eq_refl eq_refl) as [E [_ [H _]]].
  exact H.
Defined.

(** C6 (as stated) fails: a column holding both infinities has no mean, so
    its gap stays; removing the duplicate row then makes the gap weigh more
    than the 20% the second run tolerates, and the second run drops the
    column. *)
Lemma C6_second_run_drops_a_column :
  pd.empty inf_table = false
  /\ wf.frame_ok inf_table = true
  /\ option_map pd.columns
       (DatasetManager.get_dataframe
          (fst (auto_clean (manager_with inf_table))))
     = Some ["A"; "B"]
  /\ option_map pd.columns
       (DatasetManager.get_dataframe
          (fst (auto_clean (fst (auto_clean (manager_with inf_table))))))
     = Some ["B"]
  /\ snd (auto_clean (fst (auto_clean (manager_with inf_table))))
     = py.Returned
         (py.Success "Dataset cleaned successfully"
            [("original_shape", py.PShape (4, 2));
             ("new_shape", py.PShape (4, 1));
             ("duplicates_removed", py.PNat 0);
             ("columns_removed", py.PInt 1)]).
Proof. repeat split. Qed.

(** ** Validation *)

(** C9 (as amended): [validate_dataframe] answers invalid, with the one
    error "Dataframe is empty" and no warning, exactly when the table has no
    row or no column; every other table is valid and has no error, whatever
    it is missing and however many rows repeat. *)
Theorem C9_invalid_iff_no_row_or_no_column (L : py.Lib) (df : pd.DataFrame) :
  (DataValidator.is_valid (DataValidator.validate_dataframe L df) = false
   <-> pd.len df = 0 \/ length (pd.cols df) = 0)
  /\ (if DataValidator.is_valid (DataValidator.validate_dataframe L df)
      then DataValidator.errors (DataValidator.validate_dataframe L df) = []
      else DataValidator.errors (DataValidator.validate_dataframe L df)
           = ["Dataframe is empty"]
           /\ DataValidator.warnings (DataValidator.validate_dataframe L df)
              = []).
Proof.
  unfold DataValidator.validate_dataframe.
  destruct (pd.empty df) eqn:He; simpl.
  - split; [|split; reflexivity]. split; [intros _ | reflexivity].
    unfold pd.empty in He. apply orb_true_iff in He.
    destruct He as [He | He]; apply Nat.eqb_eq in He; auto.
  - split; [|reflexivity]. split; [discriminate|].
    unfold pd.empty in He. apply orb_false_iff in He as [H1 H2].
    apply Nat.eqb_neq in H1. apply Nat.eqb_neq in H2. intros [H | H]; lia.
Qed.

(** C9 (as stated) fails: a table with three rows and no column is
    invalid. *)
Lemma C9_rows_without_columns_invalid :
  pd.len hollow_table = 3
  /\ DataValidator.is_valid
       (DataValidator.validate_dataframe no_lib hollow_table) = false
  /\ DataValidator.errors
       (DataValidator.validate_dataframe no_lib hollow_table)
     = ["Dataframe is empty"].
Proof. repeat split. Qed.

(** For every library, as the example above. *)
Lemma hollow_table_invalid (L : py.Lib) :
  DataValidator.is_valid (DataValidator.validate_dataframe L hollow_table)
  = false.
Proof. reflexivity. Qed.

(** ** Step 3 of [auto_clean] *)

(** Step 3 keeps a column exactly when its present cells are at least 80%
    of the rows. *)
Lemma step3_keeps df s :
  In s (pd.cols (step3 df))
  <-> In s (pd.cols df)
      /\ (4 * Z.of_nat (pd.len df) <= 5 * Z.of_nat (pd.count s))%Z.
Proof.
  unfold step3, pd.dropna_thresh. cbn [pd.cols]. rewrite filter_In.
  rewrite Qle_bool_iff. unfold Qle, Qmult, inject_Z. cbn [Qnum Qden].
  rewrite Z.mul_1_r, Pos.mul_1_r.
  split; intros [H1 H2]; (split; [exact H1 | lia]).
Qed.

(** C2 (code at the failing input): column [A] of [sparse_table] misses 2
    of its 5 cells, fewer than 0.8 x 5 = 4, and step 3 drops it; so does
    [auto_clean]. *)
Theorem C2_step3_drops_column_missing_two_of_five :
  pd.len sparse_table = 5
  /\ option_map pd.isnull_sum (pd.getitem sparse_table "A") = Some 2
  /\ pd.columns (step2 (step1 sparse_table)) = ["A"; "B"]
  /\ pd.columns (step3 (step2 (step1 sparse_table))) = ["B"]
  /\ option_map pd.columns
       (DatasetManager.get_dataframe
          (fst (auto_clean (manager_with sparse_table))))
     = Some ["B"].
Proof. repeat split. Qed.

(** ** Duplicates: the report and the removal *)

Lemma existsb_ext_in {A : Type} (f g : A -> bool) (l : list A) :
  (forall x, In x l -> f x = g x) -> existsb f l = existsb g l.
Proof.
  induction l as [|x l IH]; simpl; intros H; [reflexivity|].
  rewrite (H x (or_introl eq_refl)), IH; auto.
Qed.

Lemma existsb_seq_shift (f : nat -> bool) a n :
  existsb f (seq (S a) n) = existsb (fun j => f (S j)) (seq a n).
Proof.
  revert a. induction n as [|n IH]; intros a; simpl; [reflexivity|].
  now rewrite IH.
Qed.

Lemma existsb_nth {A : Type} (f : A -> bool) (l : list A) (d : A) :
  existsb f l = existsb (fun j => f (nth j l d)) (seq 0 (length l)).
Proof.
  induction l as [|x l IH]; simpl; [reflexivity|].
  rewrite existsb_seq_shift. simpl. now rewrite <- IH.
Qed.

Lemma existsb_rev {A : Type} (f : A -> bool) (l : list A) :
  existsb f (rev l) = existsb f l.
Proof.
  induction l as [|x l IH]; simpl; [reflexivity|].
  rewrite existsb_app, IH. simpl. rewrite orb_false_r. apply orb_comm.
Qed.

Lemma map_nth_seq {A B : Type} (f : A -> B) (l : list A) (d : A) :
  map f l = map (fun i => f (nth i l d)) (seq 0 (length l)).
Proof.
  induction l as [|x l IH]; simpl; [reflexivity|].
  f_equal. rewrite <- seq_shift, map_map. exact IH.
Qed.

Lemma duplicated_first_spec (pre rs : list pd.Row) :
  pd.duplicated_first (rev pre) rs
  = map (fun i =>
           existsb (fun j => pd.row_eqb (nth i (pre ++ rs)%list [])
                               (nth j (pre ++ rs)%list []))
             (seq 0 i))
      (seq (length pre) (length rs)).
Proof.
  revert pre. induction rs as [|r rs IH]; intros pre; simpl; [reflexivity|].
  f_equal.
  - rewrite nth_middle.
    rewrite existsb_rev, (existsb_nth _ pre []).
    apply existsb_ext_in. intros j Hj. apply in_seq in Hj.
    rewrite app_nth1 by lia. reflexivity.
  - specialize (IH (pre ++ [r])%list).
    rewrite rev_app_distr in IH. simpl in IH. rewrite IH.
    rewrite length_app. simpl. rewrite Nat.add_1_r.
    apply map_ext. intros i. rewrite <- List.app_assoc. reflexivity.
Qed.

Lemma duplicated_first_earlier (rs : list pd.Row) :
  pd.duplicated_first [] rs = map (equals_earlier rs) (seq 0 (length rs)).
Proof. exact (duplicated_first_spec [] rs). Qed.

Lemma one_le_filter {A : Type} (p : A -> bool) (l : list A) :
  (1 <=? length (filter p l)) = existsb p l.
Proof.
  induction l as [|x l IH]; simpl; [reflexivity|].
  destruct (p x); simpl; [reflexivity | exact IH].
Qed.

(** A list holds two entries with [p] exactly when, beside one of them,
    another has [p]. *)
Lemma two_le_filter {A : Type} (p : A -> bool) (d : A) (l : list A) :
  forall i, i < length l -> p (nth i l d) = true ->
    (2 <=? length (filter p l))
    = existsb (fun j => negb (j =? i) && p (nth j l d)) (seq 0 (length l)).
Proof.
  induction l as [|x l IH]; intros i Hi Hp; simpl in Hi; [lia|].
  cbn [length seq existsb]. rewrite existsb_seq_shift.
  destruct i as [|i].
  - simpl in Hp. cbn [filter]. rewrite Hp. cbn [negb andb orb length].
    change (2 <=? S (length (filter p l))) with (1 <=? length (filter p l)).
    rewrite one_le_filter. apply (existsb_nth p l d).
  - simpl in Hp. cbn [filter nth Nat.eqb negb andb].
    destruct (p x) eqn:Hx; cbn [orb length].
    + change (2 <=? S (length (filter p l))) with (1 <=? length (filter p l)).
      rewrite one_le_filter. apply existsb_exists.
      exists (nth i l d). split; [apply nth_In; lia | exact Hp].
    + apply IH; [lia | exact Hp].
Qed.

Lemma duplicated_all_another (rs : list pd.Row) :
  pd.duplicated_all rs = map (equals_another rs) (seq 0 (length rs)).
Proof.
  unfold pd.duplicated_all.
  rewrite (map_nth_seq _ rs []). apply map_ext_in. intros i Hi.
  apply in_seq in Hi. unfold equals_another.
  apply two_le_filter; [lia | apply row_eqb_refl].
Qed.

Lemma mask_sum_map {A : Type} (f : A -> bool) (l : list A) :
  pd.mask_sum (map f l) = length (filter f l).
Proof.
  unfold pd.mask_sum. induction l as [|x l IH]; simpl; [reflexivity|].
  destruct (f x); simpl; now rewrite IH.
Qed.

Lemma mask_sum_negb (m : list bool) :
  pd.mask_sum (map negb m) = length m - pd.mask_sum m.
Proof.
  unfold pd.mask_sum. induction m as [|b m IH]; [reflexivity|].
  assert (length (filter (fun b => b) m) <= length m) by apply filter_length_le.
  destruct b; cbn [map negb filter length]; rewrite IH; lia.
Qed.

(** C5: on the rows [Raju,25], [Ajay,30], [Raju,25], [remove_duplicates]
    succeeds, reports one duplicate removed and stores a table of two rows,
    the first occurrences; [check_duplicates] on the same table counts two
    and lists rows 0 and 2.  On every table with a row and a column the
    report counts the rows that equal some other row, while the removal
    counts the rows that equal a row above them, which are the rows it
    drops. *)
Theorem C5_duplicate_report_versus_removal
  (self : DatasetManager.t) (df : pd.DataFrame) :
  DatasetManager.get_dataframe self = Some df ->
  pd.empty df = false ->
  (snd (DataCleaningController.remove_duplicates (manager_with people_table))
   = py.Returned
       (py.Success "Removed 1 duplicate rows"
          [("duplicates_removed", py.PNat 1)])
   /\ DatasetManager.get_dataframe
        (fst (DataCleaningController.remove_duplicates
                (manager_with people_table)))
      = Some
          {| pd.index := [0; 1]%Z;
             pd.cols :=
               [{| pd.name := "Name"; pd.dt := pd.object_;
                   pd.values := [pd.VStr "Raju"; pd.VStr "Ajay"] |};
                {| pd.name := "Age"; pd.dt := pd.int64;
                   pd.values := [pd.VInt 25; pd.VInt 30] |}] |}
   /\ DataValidator.check_duplicates people_table
      = {| DataValidator.duplicate_count := 2;
           DataValidator.duplicate_indices := [0; 2]%Z |})
  /\ DataValidator.duplicate_count (DataValidator.check_duplicates df)
     = length (filter (equals_another (pd.rows df)) (seq 0 (pd.len df)))
  /\ snd (DataCleaningController.remove_duplicates self)
     = py.Returned
         (py.Success
            ("Removed "
             ++ string_of_nat
                  (length (filter (equals_earlier (pd.rows df))
                             (seq 0 (pd.len df))))
             ++ " duplicate rows")
            [("duplicates_removed",
              py.PNat (length (filter (equals_earlier (pd.rows df))
                                 (seq 0 (pd.len df)))))])
  /\ DatasetManager.get_dataframe
       (fst (DataCleaningController.remove_duplicates self))
     = Some (pd.select_rows
               (map (fun i => negb (equals_earlier (pd.rows df) i))
                  (seq 0 (pd.len df))) df)
  /\ pd.len df
     - pd.len (pd.select_rows
                 (map (fun i => negb (equals_earlier (pd.rows df) i))
                    (seq 0 (pd.len df))) df)
     = length (filter (equals_earlier (pd.rows df)) (seq 0 (pd.len df))).
Proof.
  intros Ht Hne. split; [repeat split|].
  assert (Hfirst : pd.duplicated df
                   = map (equals_earlier (pd.rows df)) (seq 0 (pd.len df))).
  { unfold pd.duplicated. rewrite Hne, duplicated_first_earlier.
    now rewrite len_rows. }
  split; [|split; [|split]].
  - unfold DataValidator.check_duplicates, pd.duplicated_keep_false.
    rewrite Hne. cbn [DataValidator.duplicate_count].
    unfold pd.len at 1. cbn [pd.select_rows pd.index].
    rewrite length_select
      by (unfold pd.duplicated_all; rewrite length_map; apply len_rows).
    rewrite duplicated_all_another, len_rows. apply mask_sum_map.
  - unfold DataCleaningController.remove_duplicates.
    rewrite Ht, Hne, Hfirst, mask_sum_map. reflexivity.
  - unfold DataCleaningController.remove_duplicates.
    rewrite Ht, Hne. cbn [fst].
    unfold DatasetManager.get_dataframe in *.
    unfold DatasetManager.update_dataframe.
    destruct (DatasetManager.current_dataset self) as [ds|] eqn:Hd.
    + cbn [fst DatasetManager.current_dataset models.data]. f_equal.
      unfold pd.drop_duplicates. rewrite Hne.
      unfold pd.duplicated in Hfirst. rewrite Hne in Hfirst.
      rewrite Hfirst, map_map. reflexivity.
    + inversion Ht; subst. discriminate.
  - unfold pd.len at 2. cbn [pd.select_rows pd.index].
    rewrite length_select by (rewrite length_map, length_seq; reflexivity).
    rewrite <- (map_map (equals_earlier (pd.rows df)) negb).
    rewrite mask_sum_negb, length_map, length_seq, mask_sum_map.
    assert (length (filter (equals_earlier (pd.rows df)) (seq 0 (pd.len df)))
            <= pd.len df).
    { eapply Nat.le_trans; [apply filter_length_le|].
      rewrite length_seq. apply Nat.le_refl. }
    lia.
Qed.

Lemma C5_duplicate_report_witness :
  DatasetManager.get_dataframe (manager_with people_table) = Some people_table
  /\ pd.empty people_table = false
  /\ DataValidator.duplicate_count (DataValidator.check_duplicates people_table)
     = length (filter (equals_another (pd.rows people_table))
                 (seq 0 (pd.len people_table))).
Proof.
  split; [reflexivity|]. split; [reflexivity|].
  apply (C5_duplicate_report_versus_removal (manager_with people_table)
           people_table eq_refl eq_refl).
Defined.

(** * Part 2: the feature engine *)


Import FeatureEngineeringController Logic Exact.



Lemma py_pop_append {A : Type} (l : list A) (x : A) :
  py_pop (py_append l x) = Some (x, l).
Proof.
  unfold py_append. induction l as [|y l IH]; [reflexivity|].
  simpl. rewrite IH. destruct (l ++ [x])%list eqn:E; [|reflexivity].
  destruct l; discriminate.
Qed.

Lemma has_table_dataset (s : State) (df : pd.DataFrame) :
  Engine.table s = Some df -> pd.empty df = false ->
  exists ds, DatasetManager.current_dataset (dataset_manager s) = Some ds
             /\ models.data ds = Some df.
Proof.
  unfold Engine.table, DatasetManager.get_dataframe.
  destruct (DatasetManager.current_dataset (dataset_manager s)) as [ds|].
  - intros H _. eauto.
  - intros H E. inversion H; subst. discriminate.
Qed.

Lemma setitem_not_empty (df : pd.DataFrame) c d vs :
  pd.empty df = false -> pd.empty (pd.setitem df c d vs) = false.
Proof.
  unfold pd.empty, pd.setitem, pd.len. intros H.
  apply orb_false_iff in H as [H1 H2].
  destruct (str_in c (pd.columns df)); simpl; rewrite H1; simpl.
  - rewrite length_map. exact H2.
  - rewrite length_app. simpl. apply Nat.eqb_neq. lia.
Qed.

Lemma concat_not_empty (df : pd.DataFrame) extra :
  pd.empty df = false -> pd.empty (pd.concat_columns df extra) = false.
Proof.
  unfold pd.empty, pd.concat_columns, pd.len. intros H.
  apply orb_false_iff in H as [H1 H2]. simpl. rewrite H1. simpl.
  rewrite length_app. apply Nat.eqb_neq. apply Nat.eqb_neq in H2. lia.
Qed.

Lemma triple_bind {A B : Type} P (m : M A) (k : A -> M B) Q R E :
  triple P m Q E -> (forall a, triple (Q a) (k a) R E) ->
  triple P (bind m k) R E.
Proof.
  intros Hm Hk s HP. unfold bind. specialize (Hm s HP).
  destruct (m s) as [s' [a|e]]; [apply Hk; exact Hm | exact Hm].
Qed.

Lemma triple_weaken {A : Type} (P P' : State -> Prop) (m : M A)
  (Q Q' : A -> State -> Prop) (E E' : State -> Prop) :
  triple P' m Q' E' ->
  (forall s, P s -> P' s) -> (forall a s, Q' a s -> Q a s) ->
  (forall s, E' s -> E s) ->
  triple P m Q E.
Proof.
  intros H HP HQ HE s Hs. specialize (H s (HP s Hs)).
  destruct (m s) as [s' [a|e]]; auto.
Qed.

Lemma triple_lift {A : Type} (o : py.Outcome A) (P : State -> Prop) E :
  (forall s, P s -> E s) ->
  triple P (lift o) (fun _ => P) E.
Proof. intros HE s H. unfold lift. destruct o; auto. Qed.

Lemma inv_stacks u r s : inv u r s -> stacks u r s.
Proof. intros [H _]. exact H. Qed.

Lemma triple_frame u r E :
  triple (inv u r) frame
    (fun df s => inv u r s /\ pd.empty df = false) E.
Proof.
  intros s [Hs [df [Ht Hne]]]. unfold frame.
  unfold Engine.table in Ht. rewrite Ht.
  split; [split; [exact Hs | exists df; auto] | exact Hne].
Qed.

Lemma triple_setitem u r c d vs E :
  triple (inv u r) (setitem c d vs) (fun _ => inv u r) E.
Proof.
  intros s [[Hu Hr] [df [Ht Hne]]]. unfold setitem.
  destruct (has_table_dataset s df Ht Hne) as [ds [Hd Hdata]].
  split; [split; assumption|].
  exists (pd.setitem df c d vs). split; [|apply setitem_not_empty; exact Hne].
  unfold Engine.table, DatasetManager.get_dataframe,
    DatasetManager.assign_in_place. simpl.
  rewrite Hd, Hdata. reflexivity.
Qed.

Lemma triple_update u r df E :
  pd.empty df = false ->
  triple (inv u r) (update_dataframe df) (fun _ => inv u r) E.
Proof.
  intros Hdf s [[Hu Hr] [df0 [Ht Hne]]]. unfold update_dataframe.
  destruct (has_table_dataset s df0 Ht Hne) as [ds [Hd Hdata]].
  split; [split; assumption|].
  exists df. split; [|exact Hdf].
  unfold Engine.table, DatasetManager.get_dataframe,
    DatasetManager.update_dataframe. simpl.
  rewrite Hd. reflexivity.
Qed.

Lemma triple_ret_const {A : Type} (a : A) (P : State -> Prop) E :
  triple P (ret a) (fun _ => P) E.
Proof. intros s H. exact H. Qed.

Lemma triple_ret_success u r msg kv E :
  triple (inv u r) (ret (py.Success msg kv))
    (fun resp s => inv u r s /\ py.success resp = true) E.
Proof. intros s H. split; [exact H | reflexivity]. Qed.

Lemma triple_lift_inv {A : Type} (o : py.Outcome A) u r :
  triple (inv u r) (lift o) (fun _ => inv u r) (stacks u r).
Proof. apply triple_lift. apply inv_stacks. Qed.

Lemma triple_frame_inv u r E :
  triple (inv u r) frame (fun _ => inv u r) E.
Proof.
  eapply triple_weaken; [apply (triple_frame u r E) | auto | | auto].
  intros a s [H _]. exact H.
Qed.

Lemma triple_pure {A : Type} (P : State -> Prop) (phi : Prop) (m : M A) Q E :
  (phi -> triple P m Q E) -> triple (fun s => P s /\ phi) m Q E.
Proof. intros H s [HP Hphi]. apply H; assumption. Qed.

(** One step of a body: the rule for the statement at its head. *)
Ltac body_step :=
  lazymatch goal with
  | |- triple _ (bind (lift _) _) _ _ =>
      eapply triple_bind; [apply triple_lift_inv | intros ?]
  | |- triple _ (bind (setitem _ _ _) _) _ _ =>
      eapply triple_bind; [apply triple_setitem | intros ?]
  | |- triple _ (bind frame _) _ _ =>
      eapply triple_bind;
        [apply triple_frame | intros ?; apply triple_pure; intros ?]
  | |- triple _ (bind (update_dataframe _) _) _ _ =>
      eapply triple_bind;
        [apply triple_update;
         first [assumption | apply concat_not_empty; assumption]
        | intros ?]
  | |- triple _ (ret (py.Success _ _)) _ _ => apply triple_ret_success
  end.

Ltac body := cbv zeta; repeat body_step.

Section Bodies.

Variable L : py.Lib.
Variables u r : list pd.DataFrame.

Lemma poly_loop_inv column ds acc :
  triple (inv u r) (poly_loop L column ds acc) (fun _ => inv u r)
    (stacks u r).
Proof.
  revert acc. induction ds as [|d ds IH]; intros acc; simpl.
  - apply triple_ret_const.
  - eapply triple_bind; [apply triple_frame_inv|]. intros df.
    destruct (pd.getitem df column) as [s|].
    + body_step. body_step. apply IH.
    + intros s H. apply inv_stacks. exact H.
Qed.

Lemma pca_loop_inv result todo :
  triple (inv u r) (pca_loop result todo) (fun _ => inv u r) (stacks u r).
Proof.
  induction todo as [|i todo IH]; simpl.
  - apply triple_ret_const.
  - destruct (nth_error result i) as [c|].
    + body_step. apply IH.
    + intros s H. apply inv_stacks. exact H.
Qed.

End Bodies.

Lemma attempt_settles what (b : M py.Response) s df0 :
  Engine.table s = Some df0 -> pd.empty df0 = false ->
  (forall u r, triple (inv u r) b
                 (fun resp s' => inv u r s' /\ py.success resp = true)
                 (stacks u r)) ->
  settles true s (attempt what (_save_undo_state ;;; b) s).
Proof.
  intros Ht Hne Hb.
  unfold attempt, try_except, bind, _save_undo_state.
  unfold Engine.table in Ht. rewrite Ht, Hne. simpl.
  set (s1 := {| dataset_manager := dataset_manager s;
                undo_stack := py_append (undo_stack s) df0;
                redo_stack := [] |}).
  assert (H1 : inv (py_append (undo_stack s) df0) [] s1).
  { split; [split; reflexivity|]. exists df0. split; [exact Ht | exact Hne]. }
  specialize (Hb _ _ s1 H1).
  destruct (b s1) as [s' [resp|e]].
  - destruct Hb as [[Hs Hh] Hok]. exists resp. split; [reflexivity|].
    exists df0. repeat split; try apply Hs; auto.
  - exists (py.Failure (what ++ " failed: " ++ e)). split; [reflexivity|].
    exists df0. repeat split; try apply Hb; auto.
    simpl. discriminate.
Qed.

Lemma failure_settles s msg :
  settles false s (ret (py.Failure msg) s).
Proof. exists (py.Failure msg). split; [reflexivity|]. split; reflexivity. Qed.

Lemma bind_get_dataframe {A : Type} (k : option pd.DataFrame -> M A) s :
  (df <- get_dataframe ;; k df) s
  = k (DatasetManager.get_dataframe (dataset_manager s)) s.
Proof. reflexivity. Qed.

Lemma guard_settles need_numeric column (body : pd.Series -> M py.Response) s :
  (forall ser df0, Engine.table s = Some df0 -> pd.empty df0 = false ->
     settles true s (body ser s)) ->
  settles (Engine.column_guards need_numeric column (Engine.table s)) s
    (guard_column need_numeric column body s).
Proof.
  intros Hb. unfold guard_column, Engine.column_guards, Engine.table.
  rewrite bind_get_dataframe.
  destruct (DatasetManager.get_dataframe (dataset_manager s)) as [d|] eqn:Ht;
    [|apply failure_settles].
  destruct (pd.empty d) eqn:Hne; [apply failure_settles|].
  destruct (pd.getitem d column) as [ser|]; [|apply failure_settles].
  destruct (need_numeric && negb (numeric_kind (pd.dt ser)));
    [apply failure_settles|].
  apply (Hb ser d); assumption.
Qed.

Ltac column_operation :=
  apply guard_settles; intros ser df0 Ht Hne;
  apply (attempt_settles _ _ _ df0 Ht Hne); intros u r; body.

(** An evaluation that leaves the table as it is leaves the state. *)
Lemma eval_leaves_run (L : py.Lib) expression s d :
  Engine.table s = Some d -> pd.empty d = false ->
  py.py_eval_frame L expression d = d ->
  eval L expression s = (s, py.py_eval L expression d).
Proof.
  intros Ht Hne Hd. unfold eval.
  destruct (has_table_dataset s d Ht Hne) as [ds [Hds Hdata]].
  unfold Engine.table in Ht. rewrite Ht. f_equal.
  unfold DatasetManager.assign_in_place. rewrite Hds, Hdata, Hd.
  destruct s as [[cd hist] us rs]. simpl in *. subst cd.
  destruct ds as [data path]. simpl in *. subst data. reflexivity.
Qed.

Lemma attempt_settles_at what (b : M py.Response) s df0 :
  Engine.table s = Some df0 -> pd.empty df0 = false ->
  (forall u r, triple (fun s1 => inv u r s1 /\ Engine.table s1 = Some df0) b
                 (fun resp s' => inv u r s' /\ py.success resp = true)
                 (stacks u r)) ->
  settles true s (attempt what (_save_undo_state ;;; b) s).
Proof.
  intros Ht Hne Hb.
  unfold attempt, try_except, bind, _save_undo_state.
  unfold Engine.table in Ht. rewrite Ht, Hne. simpl.
  set (s1 := {| dataset_manager := dataset_manager s;
                undo_stack := py_append (undo_stack s) df0;
                redo_stack := [] |}).
  assert (H1 : inv (py_append (undo_stack s) df0) [] s1).
  { split; [split; reflexivity|]. exists df0. split; [exact Ht | exact Hne]. }
  specialize (Hb _ _ s1 (conj H1 Ht)).
  destruct (b s1) as [s' [resp|e]].
  - destruct Hb as [[Hs Hh] Hok]. exists resp. split; [reflexivity|].
    exists df0. repeat split; try apply Hs; auto.
  - exists (py.Failure (what ++ " failed: " ++ e)). split; [reflexivity|].
    exists df0. repeat split; try apply Hb; auto.
    simpl. discriminate.
Qed.

(** Every mutating operation settles, by its entry checks, where the
    caller's expression leaves the table alone. *)
Lemma mutation_settles (L : py.Lib) (m : Engine.Mutation) (s : State) :
  Engine.leaves_table L m (Engine.table s) ->
  settles (Engine.passes_guards m (Engine.table s)) s
    (Engine.run_mutation L m s).
Proof.
  intros Hleaves. destruct m; simpl.
  - unfold standardize_column. column_operation.
  - unfold minmax_scale_column. column_operation.
  - unfold robust_scale_column. column_operation.
  - unfold log_transform_column. column_operation.
  - unfold sqrt_transform_column. column_operation.
  - unfold bin_column. column_operation.
  - unfold create_polynomial_features. column_operation.
    eapply triple_bind; [apply poly_loop_inv | intros ?]. body.
  - unfold one_hot_encode_column. column_operation.
  - unfold label_encode_column. column_operation.
  - unfold apply_pca, Engine.table. rewrite bind_get_dataframe.
    destruct (DatasetManager.get_dataframe (dataset_manager s)) as [d|] eqn:Ht;
      [|apply failure_settles].
    destruct (pd.empty d) eqn:Hne; [apply failure_settles|].
    destruct (length (pd.select_number d) <? 2); [apply failure_settles|].
    destruct (Z.of_nat (length (pd.select_number d)) <? n_components)%Z;
      [apply failure_settles|].
    apply (attempt_settles _ _ _ d Ht Hne); intros u r. body.
    eapply triple_bind; [apply pca_loop_inv | intros ?]. body.
  - unfold create_custom_feature, Engine.table. rewrite bind_get_dataframe.
    destruct (DatasetManager.get_dataframe (dataset_manager s)) as [d|] eqn:Ht;
      [|apply failure_settles].
    destruct (pd.empty d) eqn:Hne; [apply failure_settles|].
    destruct (String.eqb feature_name "" || String.eqb expression "");
      [apply failure_settles|].
    cbn [Engine.leaves_table] in Hleaves. unfold Engine.table in Hleaves.
    rewrite Ht in Hleaves.
    apply (attempt_settles_at _ _ _ d Ht Hne); intros u r.
    eapply triple_bind with (Q := fun _ => inv u r).
    + intros s1 [Hinv Ht1]. rewrite (eval_leaves_run L _ s1 d Ht1 Hne Hleaves).
      destruct (py.py_eval L expression d); [exact Hinv|].
      apply inv_stacks. exact Hinv.
    + intros ?. body.
Qed.

(** ** The stacks, whatever the caller's expression does *)

Lemma stacks_eval (L : py.Lib) expression u r :
  triple (stacks u r) (eval L expression) (fun _ => stacks u r) (stacks u r).
Proof.
  intros s H. unfold eval.
  destruct (DatasetManager.get_dataframe (dataset_manager s));
    [destruct (py.py_eval L expression d)
    |destruct (py.py_eval L expression pd.DataFrame_new)]; exact H.
Qed.

Lemma stacks_setitem c d vs u r :
  triple (stacks u r) (setitem c d vs) (fun _ => stacks u r) (stacks u r).
Proof. intros s H. exact H. Qed.

Lemma stacks_frame u r :
  triple (stacks u r) frame (fun _ => stacks u r) (stacks u r).
Proof.
  intros s H. unfold frame.
  destruct (DatasetManager.get_dataframe (dataset_manager s)); exact H.
Qed.

Lemma stacks_update df u r :
  triple (stacks u r) (update_dataframe df) (fun _ => stacks u r)
    (stacks u r).
Proof. intros s H. exact H. Qed.

Lemma custom_feature_stacks (L : py.Lib) feature_name expression u r :
  triple (stacks u r)
    (result <- eval L expression ;;
     df <- frame ;;
     column <- lift (py.as_column L df result) ;;
     setitem feature_name (fst column) (snd column) ;;;
     df <- frame ;;
     update_dataframe df ;;;
     ret (py.Success
            ("Successfully created custom feature '" ++ feature_name ++ "'")
            []))
    (fun _ => stacks u r) (stacks u r).
Proof.
  eapply triple_bind; [apply stacks_eval | intros result].
  eapply triple_bind; [apply stacks_frame | intros df].
  eapply triple_bind; [apply triple_lift; auto | intros column].
  eapply triple_bind; [apply stacks_setitem | intros ?].
  eapply triple_bind; [apply stacks_frame | intros df'].
  eapply triple_bind; [apply stacks_update | intros ?].
  apply triple_ret_const.
Qed.

Lemma attempt_stacks what (b : M py.Response) s df0 :
  DatasetManager.get_dataframe (dataset_manager s) = Some df0 ->
  pd.empty df0 = false ->
  (forall u r, triple (stacks u r) b (fun _ => stacks u r) (stacks u r)) ->
  exists resp,
    snd (attempt what (_save_undo_state ;;; b) s) = py.Returned resp
    /\ exists d,
         Some df0 = Some d /\ pd.empty d = false
         /\ stacks (py_append (undo_stack s) d) []
              (fst (attempt what (_save_undo_state ;;; b) s)).
Proof.
  intros Ht Hne Hb.
  unfold attempt, try_except, bind, _save_undo_state.
  rewrite Ht, Hne. simpl.
  set (s1 := {| dataset_manager := dataset_manager s;
                undo_stack := py_append (undo_stack s) df0;
                redo_stack := [] |}).
  specialize (Hb (py_append (undo_stack s) df0) [] s1 (conj eq_refl eq_refl)).
  destruct (b s1) as [s' [resp|e]].
  - exists resp. split; [reflexivity|]. exists df0. auto.
  - eexists. split; [reflexivity|]. exists df0. auto.
Qed.

(** Every mutating operation returns; where its entry checks fail nothing
    has changed, where they pass the snapshot sits on the undo stack over
    an empty redo stack. *)
Lemma mutation_stacks (L : py.Lib) (m : Engine.Mutation) (s : State) :
  exists resp,
    snd (Engine.run_mutation L m s) = py.Returned resp
    /\ if Engine.passes_guards m (Engine.table s)
       then exists df0,
              Engine.table s = Some df0 /\ pd.empty df0 = false
              /\ stacks (py_append (undo_stack s) df0) []
                   (fst (Engine.run_mutation L m s))
       else py.success resp = false
            /\ fst (Engine.run_mutation L m s) = s.
Proof.
  assert (Hs : forall m, Engine.leaves_table L m (Engine.table s) ->
            exists resp,
              snd (Engine.run_mutation L m s) = py.Returned resp
              /\ if Engine.passes_guards m (Engine.table s)
                 then exists df0,
                        Engine.table s = Some df0 /\ pd.empty df0 = false
                        /\ stacks (py_append (undo_stack s) df0) []
                             (fst (Engine.run_mutation L m s))
                 else py.success resp = false
                      /\ fst (Engine.run_mutation L m s) = s).
  { intros m0 Hl. destruct (mutation_settles L m0 s Hl) as [resp [Hr H]].
    exists resp. split; [exact Hr|].
    destruct (Engine.passes_guards m0 (Engine.table s)); [|exact H].
    destruct H as [df0 [Ht [Hne [Hst _]]]]. exists df0. auto. }
  destruct m; try (apply Hs; exact I).
  clear Hs. cbn [Engine.run_mutation Engine.passes_guards].
  unfold create_custom_feature, Engine.table. rewrite bind_get_dataframe.
  destruct (DatasetManager.get_dataframe (dataset_manager s)) as [d|] eqn:Ht;
    [|eexists; split; [reflexivity|split; reflexivity]].
  destruct (pd.empty d) eqn:Hne;
    [eexists; split; [reflexivity|split; reflexivity]|].
  destruct (String.eqb feature_name "" || String.eqb expression "");
    [eexists; split; [reflexivity|split; reflexivity]|].
  apply (attempt_stacks _ _ s d Ht Hne). intros u r.
  apply custom_feature_stacks.
Qed.


Lemma unique_labels_of_log_table :
  forall df, Engine.table (Engine.loaded log_table) = Some df ->
             NoDup (pd.columns df).
Proof.
  intros df H. inversion H; subst df.
  repeat constructor; simpl; intuition discriminate.
Qed.


(** For every library: [apply_pca(2)] on a table whose numeric column has a
    gap passes the entry checks, pushes the snapshot, and fails inside
    [PCA.fit_transform]. *)
Lemma pca_on_gap_fails (L : py.Lib) :
  failed (snd (Engine.run_mutation L (Engine.applyPCA 2)
                 (Engine.loaded gap_table))) = true
  /\ undo_stack (fst (Engine.run_mutation L (Engine.applyPCA 2)
                        (Engine.loaded gap_table))) = [gap_table].
Proof. split; reflexivity. Qed.


(** C4: the push of a snapshot and the clearing of the redo stack are one
    step, [_save_undo_state]: it either changes nothing or appends the
    current table to the undo stack and empties the redo stack.  A mutating
    operation likewise either changes nothing or leaves the pre-call table
    pushed and the redo stack empty; after a successful one the redo stack
    is empty. *)
Theorem C4_snapshot_push_clears_redo
  (L : py.Lib) (m : Engine.Mutation) (s : State) :
  (fst (_save_undo_state s) = s
   \/ exists df,
        Engine.table s = Some df
        /\ undo_stack (fst (_save_undo_state s)) = py_append (undo_stack s) df
        /\ redo_stack (fst (_save_undo_state s)) = [])
  /\ (fst (Engine.run_mutation L m s) = s
      \/ exists df,
           Engine.table s = Some df
           /\ undo_stack (fst (Engine.run_mutation L m s))
              = py_append (undo_stack s) df
           /\ redo_stack (fst (Engine.run_mutation L m s)) = [])
  /\ (forall resp,
        snd (Engine.run_mutation L m s) = py.Returned resp ->
        py.success resp = true ->
        redo_stack (fst (Engine.run_mutation L m s)) = []).
Proof.
  split; [|split].
  - unfold _save_undo_state, Engine.table.
    destruct (DatasetManager.get_dataframe (dataset_manager s)) as [df|];
      [|left; reflexivity].
    destruct (pd.empty df); simpl; [left; reflexivity|].
    right. exists df. auto.
  - destruct (mutation_stacks L m s) as [resp [Hr H]].
    destruct (Engine.passes_guards m (Engine.table s)).
    + destruct H as [df0 [Ht [_ [Hu Hd]]]]. right. exists df0. auto.
    + left. apply H.
  - intros resp Hr Hok.
    destruct (mutation_stacks L m s) as [resp' [Hr' H]].
    rewrite Hr in Hr'. inversion Hr'; subst resp'.
    destruct (Engine.passes_guards m (Engine.table s)).
    + destruct H as [df0 [_ [_ [_ Hd]]]]. exact Hd.
    + destruct H as [H _]. congruence.
Qed.

Lemma manager_after_update dm df ds :
  DatasetManager.current_dataset dm = Some ds ->
  fst (DatasetManager.update_dataframe dm df)
  = {| DatasetManager.current_dataset :=
         Some {| models.data := Some df;
                 models.file_path := models.file_path ds |};
       DatasetManager.dataset_history := DatasetManager.dataset_history dm |}.
Proof. intros H. unfold DatasetManager.update_dataframe. now rewrite H. Qed.

(** C3 (as amended): on a table with unique labels, after a successful
    mutating operation, which for a custom feature is one whose expression
    leaves the table it is handed as it finds it, [undo] succeeds and puts
    the pre-call table back in the store, and [redo] after it succeeds and
    puts the post-call table back; the engine is then in the very state the
    operation left. *)
Theorem C3_undo_then_redo_restore
  (L : py.Lib) (m : Engine.Mutation) (s s' : State) (resp : py.Response) :
  (forall df, Engine.table s = Some df -> NoDup (pd.columns df)) ->
  Engine.leaves_table L m (Engine.table s) ->
  Engine.run_mutation L m s = (s', py.Returned resp) ->
  py.success resp = true ->
  exists before after,
    Engine.table s = Some before
    /\ Engine.table s' = Some after
    /\ snd (undo s') = py.Returned (py.Success "Undo applied successfully" [])
    /\ Engine.table (fst (undo s')) = Some before
    /\ snd (redo (fst (undo s')))
       = py.Returned (py.Success "Redo applied successfully" [])
    /\ Engine.table (fst (redo (fst (undo s')))) = Some after
    /\ fst (redo (fst (undo s'))) = s'.
Proof.
  intros _ Hleaves Hrun Hok.
  destruct (mutation_settles L m s Hleaves) as [resp' [Hr H]].
  rewrite Hrun in Hr, H. simpl in Hr, H. inversion Hr; subst resp'.
  destruct (Engine.passes_guards m (Engine.table s));
    [|destruct H; congruence].
  destruct H as [before [Ht [Hne [[Hu Hd] Hh]]]].
  destruct (Hh Hok) as [after [Ht' Hne']].
  destruct (has_table_dataset s' after Ht' Hne') as [ds [Hds Hdata]].
  exists before, after.
  unfold undo. rewrite Hu, py_pop_append.
  unfold Engine.table in Ht'. rewrite Ht', Hne', Hd. cbn [negb fst snd].
  rewrite (manager_after_update _ before ds Hds).
  unfold redo. cbn [redo_stack undo_stack dataset_manager].
  rewrite (py_pop_append [] after).
  cbn [DatasetManager.get_dataframe DatasetManager.current_dataset models.data].
  rewrite Hne. cbn [negb fst snd].
  unfold Engine.table.
  cbn [dataset_manager DatasetManager.get_dataframe
       DatasetManager.update_dataframe DatasetManager.current_dataset
       models.data models.file_path fst DatasetManager.dataset_history].
  repeat split; auto.
  destruct s' as [dm' us' rs']. simpl in *. subst us' rs'.
  f_equal. destruct dm' as [cd hist]. simpl in *. subst cd.
  f_equal. f_equal. destruct ds; simpl in *. subst. reflexivity.
Qed.

Lemma C3_undo_then_redo_witness :
  Engine.leaves_table zero_lib (Engine.createCustomFeature "z" "0")
    (Engine.table (Engine.loaded log_table))
  /\ snd (Engine.run_mutation zero_lib (Engine.createCustomFeature "z" "0")
            (Engine.loaded log_table))
     = py.Returned (py.Success "Successfully created custom feature 'z'" [])
  /\ Engine.table
       (fst (undo (fst (Engine.run_mutation zero_lib
                          (Engine.createCustomFeature "z" "0")
                          (Engine.loaded log_table)))))
     = Some log_table.
Proof.
  split; [reflexivity|]. split; [reflexivity|].
  destruct (C3_undo_then_redo_restore zero_lib
              (Engine.createCustomFeature "z" "0")
              (Engine.loaded log_table) _ _ unique_labels_of_log_table
              eq_refl eq_refl eq_refl)
    as [before [after [Hb [_ [_ [Hu _]]]]]].
  transitivity (Some before); [exact Hu|].
  symmetry. exact Hb.
Defined.

(** C3 (as stated) fails: the expression of a custom feature is handed the
    table itself.  [df.drop(df.index, inplace=True) or 0] removes every row
    and has the value 0, so the operation succeeds and leaves a table of no
    row; [undo] then finds nothing worth keeping for [redo], puts the
    pre-call table back, and [redo] answers that there is nothing to
    redo. *)
Lemma C3_expression_empties_the_table :
  Engine.run_mutation zero_lib
    (Engine.createCustomFeature "z" "df.drop(df.index, inplace=True) or 0")
    (Engine.loaded log_table)
  = (emptied_state,
     py.Returned (py.Success "Successfully created custom feature 'z'" []))
  /\ Engine.table emptied_state
     = Some {| pd.index := [];
               pd.cols := [{| pd.name := "x"; pd.dt := pd.int64;
                              pd.values := [] |};
                           {| pd.name := "z"; pd.dt := pd.int64;
                              pd.values := [] |}] |}
  /\ snd (undo emptied_state)
     = py.Returned (py.Success "Undo applied successfully" [])
  /\ Engine.table (fst (undo emptied_state)) = Some log_table
  /\ redo_stack (fst (undo emptied_state)) = []
  /\ snd (redo (fst (undo emptied_state)))
     = py.Returned (py.Failure "Nothing to redo")
  /\ Engine.table (fst (redo (fst (undo emptied_state)))) = Some log_table.
Proof. repeat split. Qed.

(** ** Exact effects of the statements of a body *)





Lemma exact_setitem u r d c dt vs E :
  triple (at_table u r d) (setitem c dt vs)
    (fun _ => at_table u r (pd.setitem d c dt vs)) E.
Proof.
  intros s [[Hu Hr] [Ht Hne]]. unfold setitem.
  destruct (has_table_dataset s d Ht Hne) as [ds [Hd Hdata]].
  split; [split; assumption|]. split; [|apply setitem_not_empty; exact Hne].
  unfold Engine.table, DatasetManager.get_dataframe,
    DatasetManager.assign_in_place. simpl.
  rewrite Hd, Hdata. reflexivity.
Qed.

Lemma exact_frame u r d E :
  triple (at_table u r d) frame (fun df s => at_table u r d s /\ df = d) E.
Proof.
  intros s H. unfold frame. destruct H as [Hs [Ht Hne]].
  unfold Engine.table in Ht. rewrite Ht.
  split; [split; [exact Hs | split; assumption] | reflexivity].
Qed.

Lemma exact_update u r d E :
  triple (at_table u r d) (update_dataframe d) (fun _ => at_table u r d) E.
Proof.
  intros s [[Hu Hr] [Ht Hne]]. unfold update_dataframe.
  destruct (has_table_dataset s d Ht Hne) as [ds [Hd Hdata]].
  split; [split; assumption|]. split; [|exact Hne].
  unfold Engine.table, DatasetManager.get_dataframe,
    DatasetManager.update_dataframe. simpl.
  rewrite Hd. reflexivity.
Qed.

(** The write-back [df <- frame ;; update_dataframe df] leaves the store as
    the assignments made it. *)
Lemma exact_write_back {A : Type} u r d (k : M A) Q E :
  triple (at_table u r d) k Q E ->
  triple (at_table u r d) (df <- frame ;; update_dataframe df ;;; k) Q E.
Proof.
  intros Hk. eapply triple_bind; [apply exact_frame|].
  intros df. apply triple_pure. intros ->.
  eapply triple_bind; [apply exact_update|]. intros u0. exact Hk.
Qed.

Lemma exact_ret {A : Type} (a : A) (P : State -> Prop) E :
  triple P (ret a) (fun x s => P s /\ x = a) E.
Proof. intros s H. split; [exact H | reflexivity]. Qed.


(** What a [try] does with the outcome of its body. *)
Lemma attempt_run what (b : M py.Response) s :
  attempt what b s
  = match b s with
    | (s', py.Returned a) => (s', py.Returned a)
    | (s', py.Raised e) =>
        (s', py.Returned (py.Failure (what ++ " failed: " ++ e)))
    end.
Proof.
  unfold attempt, try_except, ret. destruct (b s) as [s' [a|e]]; reflexivity.
Qed.

Lemma save_run s d :
  Engine.table s = Some d -> pd.empty d = false ->
  forall (A : Type) (k : M A),
    (_save_undo_state ;;; k) s
    = k {| dataset_manager := dataset_manager s;
           undo_stack := py_append (undo_stack s) d;
           redo_stack := [] |}.
Proof.
  intros Ht Hne A k. unfold bind, _save_undo_state.
  unfold Engine.table in Ht. rewrite Ht, Hne. reflexivity.
Qed.

Lemma at_table_saved s d :
  Engine.table s = Some d -> pd.empty d = false ->
  at_table (py_append (undo_stack s) d) [] d
    {| dataset_manager := dataset_manager s;
       undo_stack := py_append (undo_stack s) d;
       redo_stack := [] |}.
Proof. intros Ht Hne. split; [split; reflexivity|]. split; assumption. Qed.

(** ** Fresh labels are appended *)




Lemma bind_lift {A B : Type} (o : py.Outcome A) (k : A -> M B) s :
  (x <- lift o ;; k x) s
  = match o with
    | py.Returned a => k a s
    | py.Raised e => (s, py.Raised e)
    end.
Proof. unfold bind, lift. destruct o; reflexivity. Qed.

Lemma wrap64_small z :
  (- 2 ^ 63 <= z < 2 ^ 63)%Z -> np.wrap64 z = z.
Proof. intros H. unfold np.wrap64. rewrite Z.mod_small; lia. Qed.

(** ** The logarithm transform *)


Lemma np_number_kind d : pd.is_np_number d = true -> numeric_kind d = true.
Proof. destruct d; intros H; try discriminate H; reflexivity. Qed.



(** ** Principal components *)






(** ** No dataset loaded *)

(** C10 (as amended): before any dataset is loaded the store hands out an
    empty table, not [None]; every operation returns without raising and
    leaves the engine as it was; the cleaning and the mutating operations
    return a failure saying that no dataset is loaded, the quality summary
    returns [None], and [undo] and [redo] return the failure of an empty
    stack. *)
Theorem C10_no_dataset_answers (L : py.Lib) (op : Engine.Operation) :
  Engine.table Engine.fresh = Some pd.DataFrame_new
  /\ pd.empty pd.DataFrame_new = true
  /\ Engine.run L op Engine.fresh
     = (Engine.fresh, py.Returned (fresh_answer op)).
Proof.
  split; [reflexivity|]. split; [reflexivity|].
  destruct op as [c| |m| |]; [destruct c | | destruct m | |]; reflexivity.
Qed.

(** C10 (as stated) fails: the quality summary returns [None], which is no
    failure with a message, and [undo] returns a failure that does not speak
    of a dataset. *)
Lemma C10_summary_and_undo_answer_otherwise :
  Engine.run no_lib Engine.qualitySummary Engine.fresh
  = (Engine.fresh, py.Returned (Engine.Summary None))
  /\ Engine.run no_lib Engine.undoOp Engine.fresh
     = (Engine.fresh,
        py.Returned (Engine.Dict (py.Failure "Nothing to undo"))).
Proof. split; reflexivity. Qed.

(** * Part 3: further properties of the engines, the manager and the services *)

(** ** Failures of the cleaning operations *)

Lemma manager_eta (dm : DatasetManager.t) :
  {| DatasetManager.current_dataset := DatasetManager.current_dataset dm;
     DatasetManager.dataset_history := DatasetManager.dataset_history dm |}
  = dm.
Proof. destruct dm; reflexivity. Qed.

Lemma update_same_origin dm df :
  same_origin dm (fst (DatasetManager.update_dataframe dm df)).
Proof.
  unfold same_origin, DatasetManager.update_dataframe.
  destruct (DatasetManager.current_dataset dm) eqn:E; simpl; rewrite ?E; auto.
Qed.

Lemma assign_same_origin dm f :
  same_origin dm (DatasetManager.assign_in_place dm f).
Proof.
  unfold same_origin, DatasetManager.assign_in_place.
  destruct (DatasetManager.current_dataset dm) as [ds|] eqn:E; simpl;
    rewrite ?E; auto.
  destruct (models.data ds); simpl; rewrite ?E; auto.
Qed.

Lemma same_origin_trans a b c :
  same_origin a b -> same_origin b c -> same_origin a c.
Proof. intros [H1 H2] [H3 H4]. split; congruence. Qed.

Lemma same_origin_refl a : same_origin a a.
Proof. split; reflexivity. Qed.

(** A cleaning operation keeps the history and the path. *)
Lemma cleaning_same_origin
  (L : py.Lib) (c : Engine.Cleaning) (dm : DatasetManager.t) :
  same_origin dm (fst (Engine.run_cleaning L c dm)).
Proof.
  assert (Hassign : forall f df,
            same_origin dm
              (fst (DatasetManager.update_dataframe
                      (DatasetManager.assign_in_place dm f) df))).
  { intros. eapply same_origin_trans; [apply assign_same_origin|].
    apply update_same_origin. }
  destruct c; simpl;
    [unfold auto_clean | unfold fill_missing_with_mean
     | unfold fill_missing_with_mode | unfold fill_missing_with_custom
     | unfold drop_column | unfold remove_duplicates];
    (destruct (DatasetManager.get_dataframe dm) as [df|];
       [|apply same_origin_refl]);
    (destruct (pd.empty df); [apply same_origin_refl|]).
  - apply update_same_origin.
  - destruct (pd.getitem df column) as [s|]; [|apply same_origin_refl].
    destruct (negb (numeric_kind (pd.dt s))); [apply same_origin_refl|].
    cbn [fst snd setitem_in_place]. apply Hassign.
  - destruct (pd.getitem df column) as [s|]; [|apply same_origin_refl].
    cbn [fst snd setitem_in_place]. apply Hassign.
  - destruct (pd.getitem df column) as [s|]; [|apply same_origin_refl].
    match goal with
    | |- context [match ?p with py.Returned _ => _ | py.Raised _ => _ end] =>
        destruct p as [v|e]
    end; [|apply same_origin_refl].
    cbn [fst snd setitem_in_place]. apply Hassign.
  - destruct (negb (str_in column (pd.columns df)));
      [apply same_origin_refl|].
    apply update_same_origin.
  - apply update_same_origin.
Qed.

Lemma manager_with_labels (T : pd.DataFrame) :
  NoDup (pd.columns T) ->
  forall df, DatasetManager.get_dataframe (manager_with T) = Some df ->
             NoDup (pd.columns df).
Proof. intros H df Hd. inversion Hd; subst df. exact H. Qed.

(** X1: over a manager whose table, if it has one, has unique labels,
    every cleaning operation returns a response and raises nothing, and it
    keeps the history of the manager and the path of its dataset.  It
    succeeds only over a table with a row and a column, and when it fails
    the manager is exactly as it was. *)
Theorem cleaning_failure_changes_nothing
  (L : py.Lib) (c : Engine.Cleaning) (dm : DatasetManager.t) :
  (forall df, DatasetManager.get_dataframe dm = Some df ->
              NoDup (pd.columns df)) ->
  exists resp,
    snd (Engine.run_cleaning L c dm) = py.Returned resp
    /\ same_origin dm (fst (Engine.run_cleaning L c dm))
    /\ if py.success resp
       then exists df, DatasetManager.get_dataframe dm = Some df
                       /\ pd.empty df = false
       else fst (Engine.run_cleaning L c dm) = dm.
Proof.
  intros _.
  destruct c; simpl.
  - unfold auto_clean.
    destruct (DatasetManager.get_dataframe dm) as [df|] eqn:Ht;
      [|eexists; repeat split; reflexivity].
    destruct (pd.empty df) eqn:He; [eexists; repeat split; reflexivity|].
    eexists. split; [reflexivity|]. split; [apply update_same_origin|].
    simpl. eauto.
  - unfold fill_missing_with_mean.
    destruct (DatasetManager.get_dataframe dm) as [df|] eqn:Ht;
      [|eexists; repeat split; reflexivity].
    destruct (pd.empty df) eqn:He; [eexists; repeat split; reflexivity|].
    destruct (pd.getitem df column) as [s|];
      [|eexists; repeat split; reflexivity].
    destruct (negb (numeric_kind (pd.dt s)));
      [eexists; repeat split; reflexivity|].
    eexists. split; [reflexivity|]. cbn [fst snd setitem_in_place]. split.
    + eapply same_origin_trans; [apply assign_same_origin|].
      apply update_same_origin.
    + simpl. eauto.
  - unfold fill_missing_with_mode.
    destruct (DatasetManager.get_dataframe dm) as [df|] eqn:Ht;
      [|eexists; repeat split; reflexivity].
    destruct (pd.empty df) eqn:He; [eexists; repeat split; reflexivity|].
    destruct (pd.getitem df column) as [s|];
      [|eexists; repeat split; reflexivity].
    eexists. split; [reflexivity|]. cbn [fst snd setitem_in_place]. split.
    + eapply same_origin_trans; [apply assign_same_origin|].
      apply update_same_origin.
    + simpl. eauto.
  - unfold fill_missing_with_custom.
    destruct (DatasetManager.get_dataframe dm) as [df|] eqn:Ht;
      [|eexists; repeat split; reflexivity].
    destruct (pd.empty df) eqn:He; [eexists; repeat split; reflexivity|].
    destruct (pd.getitem df column) as [s|];
      [|eexists; repeat split; reflexivity].
    match goal with
    | |- context [match ?p with py.Returned _ => _ | py.Raised _ => _ end] =>
        destruct p as [v|e]
    end; [|eexists; repeat split; reflexivity].
    eexists. split; [reflexivity|]. cbn [fst snd setitem_in_place]. split.
    + eapply same_origin_trans; [apply assign_same_origin|].
      apply update_same_origin.
    + simpl. eauto.
  - unfold drop_column.
    destruct (DatasetManager.get_dataframe dm) as [df|] eqn:Ht;
      [|eexists; repeat split; reflexivity].
    destruct (pd.empty df) eqn:He; [eexists; repeat split; reflexivity|].
    destruct (negb (str_in column (pd.columns df)));
      [eexists; repeat split; reflexivity|].
    eexists. split; [reflexivity|]. split; [apply update_same_origin|].
    simpl. eauto.
  - unfold remove_duplicates.
    destruct (DatasetManager.get_dataframe dm) as [df|] eqn:Ht;
      [|eexists; repeat split; reflexivity].
    destruct (pd.empty df) eqn:He; [eexists; repeat split; reflexivity|].
    eexists. split; [reflexivity|]. split; [apply update_same_origin|].
    simpl. eauto.
Qed.

Lemma cleaning_failure_changes_nothing_witness :
  exists resp,
    snd (Engine.run_cleaning no_lib (Engine.fillWithMean "Name")
           (manager_with people_table)) = py.Returned resp
    /\ py.success resp = false
    /\ fst (Engine.run_cleaning no_lib (Engine.fillWithMean "Name")
              (manager_with people_table)) = manager_with people_table.
Proof.
  destruct (cleaning_failure_changes_nothing no_lib
              (Engine.fillWithMean "Name") (manager_with people_table)
              (manager_with_labels people_table people_labels))
    as [resp [Hr [_ H]]].
  exists resp. split; [exact Hr|].
  assert (Hs : py.success resp = false).
  { cbv in Hr. inversion Hr. reflexivity. }
  rewrite Hs in H. split; [exact Hs | exact H].
Defined.


(** ** Reading and writing a column *)

Lemma getitem_name df c s : pd.getitem df c = Some s -> pd.name s = c.
Proof.
  unfold pd.getitem. intros H. apply find_some in H as [_ H].
  now apply String.eqb_eq.
Qed.

Lemma getitem_present df c s :
  pd.getitem df c = Some s -> str_in c (pd.columns df) = true.
Proof.
  unfold pd.getitem, str_in, pd.columns. intros H.
  apply find_some in H as [Hin Hn]. apply existsb_exists.
  exists (pd.name s). split; [apply in_map; exact Hin|].
  rewrite String.eqb_sym. exact Hn.
Qed.

Lemma getitem_absent df c :
  pd.getitem df c = None -> str_in c (pd.columns df) = false.
Proof.
  unfold pd.getitem, str_in, pd.columns. intros H.
  destruct (existsb (String.eqb c) (map pd.name (pd.cols df))) eqn:E;
    [|reflexivity].
  apply existsb_exists in E as [n [Hn Hc]].
  apply in_map_iff in Hn as [s [<- Hs]].
  pose proof (find_none _ _ H s Hs) as Hf. cbv beta in Hf.
  rewrite String.eqb_sym in Hc. congruence.
Qed.

Lemma find_map_replace (c : string) (new : pd.Series) (l : list pd.Series) :
  pd.name new = c ->
  existsb (fun s => String.eqb (pd.name s) c) l = true ->
  find (fun s => String.eqb (pd.name s) c)
    (map (fun s => if String.eqb (pd.name s) c then new else s) l)
  = Some new.
Proof.
  intros Hn. induction l as [|x l IH]; simpl; [discriminate|].
  destruct (String.eqb (pd.name x) c) eqn:E; simpl.
  - intros _. rewrite Hn, String.eqb_refl. reflexivity.
  - rewrite E. exact IH.
Qed.

Lemma find_map_keep (c c' : string) (new : pd.Series) (l : list pd.Series) :
  pd.name new = c -> c' <> c ->
  find (fun s => String.eqb (pd.name s) c')
    (map (fun s => if String.eqb (pd.name s) c then new else s) l)
  = find (fun s => String.eqb (pd.name s) c') l.
Proof.
  intros Hn Hc. induction l as [|x l IH]; simpl; [reflexivity|].
  destruct (String.eqb (pd.name x) c) eqn:E.
  - rewrite Hn. apply String.eqb_eq in E. rewrite E.
    assert (Hne : String.eqb c c' = false)
      by (apply String.eqb_neq; congruence).
    rewrite Hne. exact IH.
  - destruct (String.eqb (pd.name x) c'); [reflexivity | exact IH].
Qed.

Lemma str_in_exists c (l : list pd.Series) :
  str_in c (map pd.name l) = existsb (fun s => String.eqb (pd.name s) c) l.
Proof.
  unfold str_in. induction l as [|x l IH]; simpl; [reflexivity|].
  now rewrite IH, String.eqb_sym.
Qed.

Lemma getitem_setitem_same df c d vs :
  str_in c (pd.columns df) = true ->
  pd.getitem (pd.setitem df c d vs) c
  = Some {| pd.name := c; pd.dt := d; pd.values := vs |}.
Proof.
  intros H. unfold pd.setitem. rewrite H. unfold pd.getitem. simpl.
  apply find_map_replace; [reflexivity|].
  unfold pd.columns in H. now rewrite str_in_exists in H.
Qed.

Lemma getitem_setitem_other df c c' d vs :
  c' <> c -> pd.getitem (pd.setitem df c d vs) c' = pd.getitem df c'.
Proof.
  intros Hc. unfold pd.setitem, pd.getitem.
  destruct (str_in c (pd.columns df)); simpl.
  - apply find_map_keep; [reflexivity | exact Hc].
  - induction (pd.cols df) as [|x l IH]; simpl.
    + assert (Hne : String.eqb c c' = false)
        by (apply String.eqb_neq; congruence).
      now rewrite Hne.
    + destruct (String.eqb (pd.name x) c'); [reflexivity | exact IH].
Qed.

Lemma columns_setitem_present df c d vs :
  str_in c (pd.columns df) = true ->
  pd.columns (pd.setitem df c d vs) = pd.columns df.
Proof.
  intros H. unfold pd.setitem. rewrite H. unfold pd.columns. simpl.
  rewrite map_map. apply map_ext_in. intros s _.
  destruct (String.eqb (pd.name s) c) eqn:E; [|reflexivity].
  simpl. symmetry. now apply String.eqb_eq.
Qed.

Lemma index_setitem df c d vs : pd.index (pd.setitem df c d vs) = pd.index df.
Proof. unfold pd.setitem. destruct (str_in c (pd.columns df)); reflexivity. Qed.

(** ** The dataset behind a loaded table *)

Lemma loaded_dataset dm T :
  DatasetManager.get_dataframe dm = Some T -> pd.empty T = false ->
  exists ds, DatasetManager.current_dataset dm = Some ds
             /\ models.data ds = Some T.
Proof.
  unfold DatasetManager.get_dataframe.
  destruct (DatasetManager.current_dataset dm) as [ds|]; [eauto|].
  intros H He. inversion H; subst. discriminate.
Qed.

Lemma get_after_update dm df ds :
  DatasetManager.current_dataset dm = Some ds ->
  DatasetManager.get_dataframe (fst (DatasetManager.update_dataframe dm df))
  = Some df.
Proof.
  intros H. unfold DatasetManager.update_dataframe. rewrite H. reflexivity.
Qed.

Lemma dataset_after_assign dm f T :
  DatasetManager.get_dataframe dm = Some T -> pd.empty T = false ->
  exists ds, DatasetManager.current_dataset (DatasetManager.assign_in_place dm f)
             = Some ds.
Proof.
  intros Ht He. destruct (loaded_dataset dm T Ht He) as [ds [Hd Hdata]].
  unfold DatasetManager.assign_in_place. rewrite Hd, Hdata. simpl. eauto.
Qed.

(** The table after [df[c] = values] and the write-back. *)
Lemma stored_after_assign dm T c d vs :
  DatasetManager.get_dataframe dm = Some T -> pd.empty T = false ->
  DatasetManager.get_dataframe
    (fst (DatasetManager.update_dataframe
            (DatasetManager.assign_in_place dm
               (fun live => pd.setitem live c d vs))
            (pd.setitem T c d vs)))
  = Some (pd.setitem T c d vs).
Proof.
  intros Ht He.
  destruct (dataset_after_assign dm (fun live => pd.setitem live c d vs) T Ht He)
    as [ds Hds].
  apply (get_after_update _ _ ds Hds).
Qed.

Lemma fillna_values_present v vs i x :
  nth_error vs i = Some x -> pd.isna x = false ->
  nth_error (pd.fillna_values v vs) i = Some x.
Proof.
  intros H Hx. unfold pd.fillna_values. rewrite nth_error_map, H. simpl.
  now rewrite Hx.
Qed.

(** What the three fill operations have in common: the table they store. *)
Lemma fill_stored dm T col s v :
  DatasetManager.get_dataframe dm = Some T -> pd.empty T = false ->
  pd.getitem T col = Some s ->
  exists T' s',
    DatasetManager.get_dataframe
      (fst (DatasetManager.update_dataframe
              (DatasetManager.assign_in_place dm
                 (fun live => pd.setitem live col (pd.dt (pd.fillna v s))
                                (pd.values (pd.fillna v s))))
              (pd.setitem T col (pd.dt (pd.fillna v s))
                 (pd.values (pd.fillna v s)))))
    = Some T'
    /\ pd.index T' = pd.index T
    /\ pd.columns T' = pd.columns T
    /\ pd.getitem T' col = Some s'
    /\ (forall c', c' <> col -> pd.getitem T' c' = pd.getitem T c')
    /\ pd.values s'
       = map (fun x => if pd.isna x then pd.fill_value (pd.dt s) v else x)
           (pd.values s)
    /\ (forall i x, nth_error (pd.values s) i = Some x -> pd.isna x = false ->
          nth_error (pd.values s') i = Some x).
Proof.
  intros Ht He Hg. rewrite (stored_after_assign dm T col _ _ Ht He).
  pose proof (getitem_present T col s Hg) as Hp.
  eexists. eexists. split; [reflexivity|].
  split; [apply index_setitem|].
  split; [apply columns_setitem_present; exact Hp|].
  split; [apply getitem_setitem_same; exact Hp|].
  split; [intros c' Hc; apply getitem_setitem_other; exact Hc|].
  split; [reflexivity|].
  intros i x Hi Hx. cbn [pd.values pd.fillna].
  now apply fillna_values_present.
Qed.

Ltac fill_case Ht v :=
  match goal with
  | He : pd.empty ?T = false, Hg : pd.getitem ?T ?col = Some ?s |- _ =>
      unfold setitem_in_place; cbn [fst snd];
      destruct (fill_stored _ T col s v Ht He Hg)
        as [T' [s' [H1 [H2 [H3 [H4 [H5 [H6 H7]]]]]]]];
      exists T', s, s', (pd.fill_value (pd.dt s) v); repeat split; auto
  end.

(** X2: on a table with unique labels, a fill operation that succeeds,
    with the mean, the mode or a custom value, keeps the index and the
    labels and leaves every other column as it is; in the column it fills,
    the missing cells get one and the same value and every present cell
    keeps its own. *)
Theorem fill_touches_only_gaps
  (L : py.Lib) (c : Engine.Cleaning) (col : string) (dm : DatasetManager.t)
  (T : pd.DataFrame) (resp : py.Response) :
  NoDup (pd.columns T) ->
  fill_target c = Some col ->
  DatasetManager.get_dataframe dm = Some T ->
  snd (Engine.run_cleaning L c dm) = py.Returned resp ->
  py.success resp = true ->
  exists T' s s' v,
    DatasetManager.get_dataframe (fst (Engine.run_cleaning L c dm)) = Some T'
    /\ pd.index T' = pd.index T
    /\ pd.columns T' = pd.columns T
    /\ pd.getitem T col = Some s
    /\ pd.getitem T' col = Some s'
    /\ (forall c', c' <> col -> pd.getitem T' c' = pd.getitem T c')
    /\ pd.values s' = map (fun x => if pd.isna x then v else x) (pd.values s)
    /\ (forall i x, nth_error (pd.values s) i = Some x -> pd.isna x = false ->
          nth_error (pd.values s') i = Some x).
Proof.
  intros _.
  intros Hc Ht Hr Hok.
  destruct c; try discriminate; simpl in Hc; inversion Hc; subst column;
    simpl in Hr |- *.
  - unfold fill_missing_with_mean in *. rewrite Ht in *.
    destruct (pd.empty T) eqn:He;
      [simpl in Hr; inversion Hr; subst; discriminate|].
    destruct (pd.getitem T col) as [s|] eqn:Hg;
      [|simpl in Hr; inversion Hr; subst; discriminate].
    destruct (negb (numeric_kind (pd.dt s)));
      [simpl in Hr; inversion Hr; subst; discriminate|].
    fill_case Ht (pd.mean s).
  - unfold fill_missing_with_mode in *. rewrite Ht in *.
    destruct (pd.empty T) eqn:He;
      [simpl in Hr; inversion Hr; subst; discriminate|].
    destruct (pd.getitem T col) as [s|] eqn:Hg;
      [|simpl in Hr; inversion Hr; subst; discriminate].
    fill_case Ht (match pd.mode s with m :: _ => m | [] => pd.VStr "Unknown" end).
  - unfold fill_missing_with_custom in *. rewrite Ht in *.
    destruct (pd.empty T) eqn:He;
      [simpl in Hr; inversion Hr; subst; discriminate|].
    destruct (pd.getitem T col) as [s|] eqn:Hg;
      [|simpl in Hr; inversion Hr; subst; discriminate].
    match goal with
    | |- context [match ?p with py.Returned _ => _ | py.Raised _ => _ end] =>
        destruct p as [v|e]
    end; [|simpl in Hr; inversion Hr; subst; discriminate].
    fill_case Ht v.
Qed.


Lemma fill_touches_only_gaps_witness :
  exists T' s s' v,
    DatasetManager.get_dataframe
      (fst (Engine.run_cleaning no_lib (Engine.fillWithMean "x")
              (manager_with gap_table))) = Some T'
    /\ pd.index T' = pd.index gap_table
    /\ pd.columns T' = pd.columns gap_table
    /\ pd.getitem gap_table "x" = Some s
    /\ pd.getitem T' "x" = Some s'
    /\ (forall c', c' <> "x" -> pd.getitem T' c' = pd.getitem gap_table c')
    /\ pd.values s' = map (fun x => if pd.isna x then v else x) (pd.values s)
    /\ (forall i x, nth_error (pd.values s) i = Some x -> pd.isna x = false ->
          nth_error (pd.values s') i = Some x).
Proof.
  refine (fill_touches_only_gaps no_lib (Engine.fillWithMean "x") "x"
           (manager_with gap_table) gap_table _
           gap_labels eq_refl eq_refl eq_refl eq_refl).
Defined.



Lemma filled_no_gap v (vs : list pd.Cell) :
  pd.isna v = false ->
  filter pd.isna (map (fun x => if pd.isna x then v else x) vs) = [].
Proof.
  intros Hv. induction vs as [|x vs IH]; simpl; [reflexivity|].
  destruct (pd.isna x) eqn:E; [rewrite Hv | rewrite E]; exact IH.
Qed.




(** ** The mode *)

Lemma occurrences_present x vs :
  pd.notna x = true ->
  pd.occurrences x (filter pd.notna vs) = pd.occurrences x vs.
Proof.
  intros Hx. unfold pd.occurrences.
  induction vs as [|c vs IH]; simpl; [reflexivity|].
  destruct (pd.notna c) eqn:E; simpl.
  - destruct (pd.cell_eqb x c); simpl; now rewrite IH.
  - assert (Hc : pd.cell_eqb x c = false).
    { destruct c; try discriminate. destruct x; try discriminate; reflexivity. }
    now rewrite Hc.
Qed.

Lemma occurrences_le_top (l : list pd.Cell) (f : pd.Cell -> nat) v :
  In v l -> f v <= fold_right (fun v acc => Nat.max (f v) acc) 0 l.
Proof.
  induction l as [|x l IH]; simpl; [contradiction|].
  intros [-> | H]; [lia|]. specialize (IH H). lia.
Qed.

Lemma top_attained (l : list pd.Cell) (f : pd.Cell -> nat) :
  l <> [] ->
  exists v, In v l /\ f v = fold_right (fun v acc => Nat.max (f v) acc) 0 l.
Proof.
  induction l as [|x l IH]; [congruence|]. intros _. simpl.
  destruct l as [|y l].
  - exists x. split; [left; reflexivity|]. simpl. lia.
  - destruct IH as [v [Hv Hf]]; [discriminate|].
    destruct (Nat.max_spec (f x)
                (fold_right (fun v acc => Nat.max (f v) acc) 0 (y :: l)))
      as [[_ ->] | [_ ->]].
    + exists v. split; [right; exact Hv | exact Hf].
    + exists x. split; [left; reflexivity | reflexivity].
Qed.

Lemma occurrences_eqb x y l :
  pd.cell_eqb x y = true -> pd.occurrences x l = pd.occurrences y l.
Proof.
  intros H. unfold pd.occurrences. f_equal. apply filter_ext. intros c.
  destruct (pd.cell_eqb x c) eqn:E1, (pd.cell_eqb y c) eqn:E2; auto.
  - rewrite cell_eqb_sym in H.
    rewrite (cell_eqb_trans y x c H E1) in E2. discriminate.
  - rewrite (cell_eqb_trans x y c H E2) in E1. discriminate.
Qed.

Lemma distinct_covers x l :
  In x l -> exists y, In y (pd.distinct l) /\ pd.cell_eqb y x = true.
Proof.
  induction l as [|a l IH]; simpl; [contradiction|].
  intros [-> | H].
  - exists x. split; [left; reflexivity | apply cell_eqb_refl].
  - destruct (IH H) as [y [Hy Hyx]].
    destruct (pd.cell_eqb a y) eqn:E.
    + exists a. split; [left; reflexivity|].
      apply (cell_eqb_trans a y x E Hyx).
    + exists y. split; [|exact Hyx]. right. apply filter_In.
      split; [exact Hy|]. now rewrite E.
Qed.

Lemma insert_sorted_in c x l :
  x = c \/ In x l -> In x (pd.insert_sorted c l).
Proof.
  induction l as [|y l IH]; simpl.
  - intros [-> | []]. left; reflexivity.
  - destruct (pd.cell_eqb c y); destruct (pd.cell_leb c y); simpl;
      intros [-> | [-> | H]]; auto.
Qed.

Lemma sort_cells_in x l : In x l -> In x (pd.sort_cells l).
Proof.
  induction l as [|y l IH]; simpl; [auto|].
  intros [-> | H]; apply insert_sorted_in; auto.
Qed.

(** A column has a mode exactly when it has a present cell, and a mode is a
    present cell no other present cell occurs more often than. *)
Lemma mode_values_spec vs :
  (pd.mode_values vs = [] <-> forallb pd.isna vs = true)
  /\ (forall m, In m (pd.mode_values vs) ->
        In m vs /\ pd.notna m = true
        /\ forall x, pd.notna x = true ->
             pd.occurrences x vs <= pd.occurrences m vs).
Proof.
  split.
  - split.
    + intros Hm. apply forallb_forall. intros c Hc.
      destruct (pd.isna c) eqn:E; [reflexivity|]. exfalso.
      assert (Hp : In c (filter pd.notna vs)).
      { apply filter_In. split; [exact Hc|]. unfold pd.notna. now rewrite E. }
      set (present := filter pd.notna vs) in *.
      destruct (top_attained present (fun v => pd.occurrences v present))
        as [v [Hv Hf]].
      { intros Hnil. rewrite Hnil in Hp. contradiction. }
      destruct (distinct_covers v present Hv) as [y [Hy Hyv]].
      assert (Hin : In y (pd.mode_values vs)).
      { unfold pd.mode_values. fold present. apply sort_cells_in.
        apply filter_In. split; [exact Hy|]. apply Nat.eqb_eq.
        rewrite (occurrences_eqb y v present Hyv). exact Hf. }
      rewrite Hm in Hin. contradiction.
    + intros Hall. unfold pd.mode_values.
      assert (Hp : filter pd.notna vs = []).
      { induction vs as [|c vs IH]; [reflexivity|]. simpl in *.
        apply andb_true_iff in Hall as [H1 H2]. unfold pd.notna at 1.
        rewrite H1. simpl. auto. }
      rewrite Hp. reflexivity.
  - intros m Hm. destruct (in_mode m vs Hm) as [Hin Hna].
    split; [exact Hin|]. split; [exact Hna|].
    intros x Hx. unfold pd.mode_values in Hm.
    apply in_sort_cells in Hm. apply filter_In in Hm as [_ Htop].
    apply Nat.eqb_eq in Htop.
    set (present := filter pd.notna vs) in *.
    rewrite <- (occurrences_present x vs Hx), <- (occurrences_present m vs Hna).
    fold present. rewrite Htop.
    destruct (filter (pd.cell_eqb x) present) as [|c rest] eqn:Ef.
    + unfold pd.occurrences at 1. rewrite Ef. simpl. lia.
    + assert (Hc : In c (filter (pd.cell_eqb x) present))
        by (rewrite Ef; left; reflexivity).
      apply filter_In in Hc as [Hc Hxc].
      rewrite (occurrences_eqb x c present Hxc).
      apply (occurrences_le_top present (fun v => pd.occurrences v present)).
      exact Hc.
Qed.

Lemma fill_value_present d m :
  pd.notna m = true -> pd.isna (pd.fill_value d m) = false.
Proof. destruct d, m; simpl; try discriminate; reflexivity. Qed.

(** X4: [fill_missing_with_mode] on a column of a table with unique labels
    that is not empty succeeds and leaves no missing cell in the column.
    The value it reports and fills in is a present value of the column that
    no present value outnumbers, or ["Unknown"] when the column has no
    present value. *)
Theorem fill_with_mode_effect
  (dm : DatasetManager.t) (T : pd.DataFrame) (col : string) (s : pd.Series) :
  NoDup (pd.columns T) ->
  DatasetManager.get_dataframe dm = Some T ->
  pd.empty T = false ->
  pd.getitem T col = Some s ->
  exists m,
    snd (fill_missing_with_mode dm col)
    = py.Returned
        (py.Success "Filled missing values with mode"
           [("mode_value", py.PCell m)])
    /\ (if pd.isna_all s then m = pd.VStr "Unknown"
        else In m (pd.values s) /\ pd.notna m = true
             /\ forall x, pd.notna x = true ->
                  pd.occurrences x (pd.values s)
                  <= pd.occurrences m (pd.values s))
    /\ exists T' s',
         DatasetManager.get_dataframe (fst (fill_missing_with_mode dm col))
         = Some T'
         /\ pd.getitem T' col = Some s'
         /\ pd.values s'
            = map (fun x => if pd.isna x then pd.fill_value (pd.dt s) m else x)
                (pd.values s)
         /\ pd.isnull_sum s' = 0.
Proof.
  intros _.
  intros Ht He Hg. unfold fill_missing_with_mode.
  rewrite Ht, He, Hg. unfold setitem_in_place. cbn [fst snd].
  set (m := match pd.mode s with m :: _ => m | [] => pd.VStr "Unknown" end).
  exists m. split; [reflexivity|].
  destruct (mode_values_spec (pd.values s)) as [Hnil Hin].
  assert (Hm : (if pd.isna_all s then m = pd.VStr "Unknown"
                else In m (pd.values s) /\ pd.notna m = true
                     /\ forall x, pd.notna x = true ->
                          pd.occurrences x (pd.values s)
                          <= pd.occurrences m (pd.values s))).
  { unfold pd.isna_all. subst m. unfold pd.mode.
    destruct (forallb pd.isna (pd.values s)) eqn:Hall.
    - now rewrite (proj2 Hnil eq_refl).
    - destruct (pd.mode_values (pd.values s)) as [|m0 ms] eqn:Em.
      + discriminate (proj1 Hnil eq_refl).
      + apply Hin. left. reflexivity. }
  split; [exact Hm|]. clearbody m.
  destruct (fill_stored dm T col s m Ht He Hg)
    as [T' [s' [H1 [H2 [H3 [H4 [H5 [H6 H7]]]]]]]].
  exists T', s'. split; [exact H1|]. split; [exact H4|]. split; [exact H6|].
  unfold pd.isnull_sum. rewrite H6, filled_no_gap; [reflexivity|].
  apply fill_value_present.
  revert Hm. destruct (pd.isna_all s); intros Hm;
    [rewrite Hm; reflexivity | apply Hm].
Qed.

Lemma fill_with_mode_effect_witness :
  DatasetManager.get_dataframe (manager_with people_table) = Some people_table
  /\ pd.empty people_table = false
  /\ exists m,
       snd (fill_missing_with_mode (manager_with people_table) "Name")
       = py.Returned
           (py.Success "Filled missing values with mode"
              [("mode_value", py.PCell m)]).
Proof.
  split; [reflexivity|]. split; [reflexivity|].
  destruct (fill_with_mode_effect (manager_with people_table) people_table
              "Name"
              {| pd.name := "Name"; pd.dt := pd.object_;
                 pd.values := [pd.VStr "Raju"; pd.VStr "Ajay";
                               pd.VStr "Raju"] |}
              people_labels eq_refl eq_refl eq_refl) as [m [H _]].
  exists m. exact H.
Defined.


(** ** Dropping a column *)

Lemma getitem_drop_other df c c' :
  c' <> c -> pd.getitem (pd.drop_column df c) c' = pd.getitem df c'.
Proof.
  intros Hc. unfold pd.getitem, pd.drop_column. simpl.
  induction (pd.cols df) as [|x l IH]; simpl; [reflexivity|].
  destruct (String.eqb (pd.name x) c) eqn:E; simpl.
  - apply String.eqb_eq in E. rewrite E.
    assert (Hne : String.eqb c c' = false)
      by (apply String.eqb_neq; congruence).
    now rewrite Hne.
  - destruct (String.eqb (pd.name x) c'); [reflexivity | exact IH].
Qed.

Lemma getitem_drop_same df c : pd.getitem (pd.drop_column df c) c = None.
Proof.
  unfold pd.getitem, pd.drop_column. simpl.
  induction (pd.cols df) as [|x l IH]; simpl; [reflexivity|].
  destruct (String.eqb (pd.name x) c) eqn:E; simpl; [exact IH|].
  now rewrite E.
Qed.

Lemma drop_column_shorter df c :
  str_in c (pd.columns df) = true ->
  length (pd.cols (pd.drop_column df c)) < length (pd.cols df).
Proof.
  unfold pd.columns. rewrite str_in_exists. unfold pd.drop_column. simpl.
  induction (pd.cols df) as [|x l IH]; simpl; [discriminate|].
  destruct (String.eqb (pd.name x) c) eqn:E; simpl.
  - intros _.
    pose proof (filter_length_le
                  (fun s => negb (String.eqb (pd.name s) c)) l). lia.
  - intros H. specialize (IH H). lia.
Qed.

(** X5: [drop_column] on a table that is not empty: for a label of the
    table it succeeds and stores the table without the columns of that
    label, the index and the other columns as they were; for any other
    label it fails with the not-found message and leaves the manager as it
    was. *)
Theorem drop_column_effect
  (dm : DatasetManager.t) (T : pd.DataFrame) (col : string) :
  DatasetManager.get_dataframe dm = Some T ->
  pd.empty T = false ->
  if str_in col (pd.columns T)
  then snd (drop_column dm col)
       = py.Returned
           (py.Success ("Successfully dropped column '" ++ col ++ "'") [])
       /\ exists T',
            DatasetManager.get_dataframe (fst (drop_column dm col)) = Some T'
            /\ pd.index T' = pd.index T
            /\ pd.columns T'
               = filter (fun c => negb (String.eqb c col)) (pd.columns T)
            /\ pd.getitem T' col = None
            /\ (forall c', c' <> col -> pd.getitem T' c' = pd.getitem T c')
            /\ length (pd.cols T') < length (pd.cols T)
  else snd (drop_column dm col) = py.Returned (py.Failure (not_found col))
       /\ fst (drop_column dm col) = dm.
Proof.
  intros Ht He. unfold drop_column. rewrite Ht, He.
  destruct (str_in col (pd.columns T)) eqn:Hin; cbn [negb fst snd];
    [|split; reflexivity].
  split; [reflexivity|].
  destruct (loaded_dataset dm T Ht He) as [ds [Hds _]].
  exists (pd.drop_column T col).
  split; [apply (get_after_update _ _ ds Hds)|].
  split; [reflexivity|]. split.
  - unfold pd.columns, pd.drop_column. simpl.
    induction (pd.cols T) as [|x l IH]; simpl; [reflexivity|].
    destruct (String.eqb (pd.name x) col); simpl; now rewrite IH.
  - split; [apply getitem_drop_same|].
    split; [intros c' Hc; apply getitem_drop_other; exact Hc|].
    apply drop_column_shorter. exact Hin.
Qed.

Lemma drop_column_effect_witness :
  DatasetManager.get_dataframe (manager_with people_table) = Some people_table
  /\ pd.empty people_table = false
  /\ snd (drop_column (manager_with people_table) "Age")
     = py.Returned (py.Success "Successfully dropped column 'Age'" []).
Proof.
  split; [reflexivity|]. split; [reflexivity|].
  apply (drop_column_effect (manager_with people_table) people_table "Age"
           eq_refl eq_refl).
Defined.

(** ** The last column *)

(** X6: dropping the only column of a table succeeds and stores a frame
    with the old index and no column.  That frame counts as empty: from
    then on every cleaning operation fails, saying that no dataset is
    loaded, and changes nothing, the quality summary is [None] and the
    validator calls the frame invalid. *)
Theorem dropping_the_only_column_unloads
  (L : py.Lib) (dm : DatasetManager.t) (T : pd.DataFrame) (s : pd.Series) :
  DatasetManager.get_dataframe dm = Some T ->
  pd.empty T = false ->
  pd.cols T = [s] ->
  let dm' := fst (drop_column dm (pd.name s)) in
  snd (drop_column dm (pd.name s))
  = py.Returned
      (py.Success ("Successfully dropped column '" ++ pd.name s ++ "'") [])
  /\ DatasetManager.get_dataframe dm'
     = Some {| pd.index := pd.index T; pd.cols := [] |}
  /\ (forall c, Engine.run_cleaning L c dm'
                = (dm', py.Returned
                          (py.Failure
                             (match c with
                              | Engine.autoClean =>
                                  "No dataset loaded or dataset is empty"
                              | _ => "No dataset loaded"
                              end))))
  /\ get_data_quality_summary L dm' = None
  /\ DataValidator.is_valid
       (DataValidator.validate_dataframe L
          {| pd.index := pd.index T; pd.cols := [] |}) = false.
Proof.
  intros Ht He Hc dm'.
  assert (Hin : str_in (pd.name s) (pd.columns T) = true).
  { unfold pd.columns, str_in. rewrite Hc. simpl.
    now rewrite String.eqb_refl. }
  assert (Hrun : drop_column dm (pd.name s)
                 = (fst (DatasetManager.update_dataframe dm
                           {| pd.index := pd.index T; pd.cols := [] |}),
                    py.Returned
                      (py.Success ("Successfully dropped column '"
                                   ++ pd.name s ++ "'") []))).
  { unfold drop_column. rewrite Ht, He, Hin. cbn [negb].
    unfold pd.drop_column. rewrite Hc. simpl.
    now rewrite String.eqb_refl. }
  subst dm'. rewrite Hrun. cbn [fst snd].
  destruct (loaded_dataset dm T Ht He) as [ds [Hds _]].
  pose proof (get_after_update dm {| pd.index := pd.index T; pd.cols := [] |}
                ds Hds) as Hget.
  set (dm' := fst (DatasetManager.update_dataframe dm
                     {| pd.index := pd.index T; pd.cols := [] |})) in *.
  assert (Hempty : pd.empty {| pd.index := pd.index T; pd.cols := [] |} = true).
  { unfold pd.empty. simpl. apply orb_true_r. }
  split; [reflexivity|]. split; [exact Hget|]. split; [|split].
  - intros c. destruct c; simpl;
      [unfold auto_clean | unfold fill_missing_with_mean
       | unfold fill_missing_with_mode | unfold fill_missing_with_custom
       | unfold drop_column | unfold remove_duplicates];
      rewrite Hget, Hempty; reflexivity.
  - unfold get_data_quality_summary. now rewrite Hget, Hempty.
  - unfold DataValidator.validate_dataframe. now rewrite Hempty.
Qed.

Lemma dropping_the_only_column_witness :
  DatasetManager.get_dataframe (manager_with one_column_table)
  = Some one_column_table
  /\ pd.empty one_column_table = false
  /\ get_data_quality_summary no_lib
       (fst (drop_column (manager_with one_column_table) "x")) = None.
Proof.
  split; [reflexivity|]. split; [reflexivity|].
  apply (dropping_the_only_column_unloads no_lib
           (manager_with one_column_table) one_column_table
           {| pd.name := "x"; pd.dt := pd.int64;
              pd.values := [pd.VInt 1; pd.VInt 2] |}
           eq_refl eq_refl eq_refl).
Defined.


(** ** Counting duplicates *)

Lemma least_true (f : nat -> bool) n :
  (exists i, i < n /\ f i = true) ->
  exists i, i < n /\ f i = true /\ forall j, j < i -> f j = false.
Proof.
  induction n as [|n IH]; intros [i [Hi Hf]]; [lia|].
  destruct (existsb f (seq 0 n)) eqn:E.
  - apply existsb_exists in E as [k [Hk Hfk]]. apply in_seq in Hk.
    destruct IH as [m [Hm [Hfm Hleast]]]; [exists k; split; [lia | exact Hfk]|].
    exists m. split; [lia|]. split; assumption.
  - exists n. split; [lia|].
    assert (Hnone : forall j, j < n -> f j = false).
    { intros j Hj. destruct (f j) eqn:Ej; [|reflexivity].
      assert (existsb f (seq 0 n) = true).
      { apply existsb_exists. exists j. split; [apply in_seq; lia | exact Ej]. }
      congruence. }
    split; [|exact Hnone].
    destruct (Nat.eq_dec i n) as [-> | Hne]; [exact Hf|].
    rewrite Hnone in Hf by lia. discriminate.
Qed.

Lemma filter_length_lt {A : Type} (p q : A -> bool) (l : list A) (x : A) :
  (forall y, In y l -> p y = true -> q y = true) ->
  In x l -> q x = true -> p x = false ->
  length (filter p l) < length (filter q l).
Proof.
  intros Hpq. induction l as [|a l IH]; simpl; [contradiction|].
  assert (Hle : length (filter p l) <= length (filter q l)).
  { clear IH. induction l as [|b l IH]; simpl; [lia|].
    assert (Hb := Hpq b (or_intror (or_introl eq_refl))).
    destruct (p b) eqn:Ep; simpl.
    - rewrite Hb by reflexivity. simpl.
      apply le_n_S, IH. intros y [Hy | Hy]; apply Hpq; simpl; auto.
    - destruct (q b); simpl; [apply Nat.le_le_succ_r|];
        apply IH; intros y [Hy | Hy]; apply Hpq; simpl; auto. }
  intros [-> | Hx] Hq Hp.
  - rewrite Hp, Hq. simpl. lia.
  - assert (Ha := Hpq a (or_introl eq_refl)).
    specialize (IH (fun y Hy => Hpq y (or_intror Hy)) Hx Hq Hp).
    destruct (p a) eqn:Ep; simpl.
    + rewrite Ha by reflexivity. simpl. lia.
    + destruct (q a); simpl; lia.
Qed.

Lemma two_in_filter (p : nat -> bool) n i j :
  i < n -> j < n -> i <> j -> p i = true -> p j = true ->
  2 <= length (filter p (seq 0 n)).
Proof.
  intros Hi Hj Hne Hpi Hpj.
  assert (Hgen : forall a b m, a < b -> b < m -> p a = true -> p b = true ->
                   2 <= length (filter p (seq 0 m))).
  { intros a b m Hab Hbm Ha Hb.
    replace m with (S b + (m - S b)) by lia.
    rewrite seq_app, filter_app, length_app.
    replace (S b) with (b + 1) by lia.
    rewrite seq_app, filter_app, length_app. simpl. rewrite Hb. simpl.
    assert (1 <= length (filter p (seq 0 b))).
    { assert (Hin : In a (filter p (seq 0 b)))
        by (apply filter_In; split; [apply in_seq; lia | exact Ha]).
      destruct (filter p (seq 0 b)); [contradiction | simpl; lia]. }
    lia. }
  destruct (Nat.lt_ge_cases i j) as [H | H].
  - apply (Hgen i j n); assumption.
  - apply (Hgen j i n); [lia | assumption..].
Qed.

Lemma earlier_is_another (rs : list pd.Row) i :
  i < length rs -> equals_earlier rs i = true -> equals_another rs i = true.
Proof.
  intros Hi H. unfold equals_earlier in H. unfold equals_another.
  apply existsb_exists in H as [j [Hj Hr]]. apply in_seq in Hj.
  apply existsb_exists. exists j. split; [apply in_seq; lia|].
  rewrite Hr, andb_true_r. apply negb_true_iff, Nat.eqb_neq. lia.
Qed.

Lemma another_partner (rs : list pd.Row) i :
  equals_another rs i = true ->
  exists j, j < length rs /\ j <> i
            /\ pd.row_eqb (nth i rs []) (nth j rs []) = true.
Proof.
  unfold equals_another. intros H.
  apply existsb_exists in H as [j [Hj Hr]]. apply in_seq in Hj.
  apply andb_true_iff in Hr as [Hne Hr].
  apply negb_true_iff, Nat.eqb_neq in Hne.
  exists j. repeat split; [lia | exact Hne | exact Hr].
Qed.

Lemma partner_is_another (rs : list pd.Row) i j :
  i < length rs -> j <> i ->
  pd.row_eqb (nth i rs []) (nth j rs []) = true ->
  equals_another rs j = true.
Proof.
  intros Hi Hne Hr. unfold equals_another. apply existsb_exists.
  exists i. split; [apply in_seq; lia|].
  rewrite row_eqb_sym, Hr, andb_true_r.
  apply negb_true_iff, Nat.eqb_neq. congruence.
Qed.

(** The rows that equal another row against the rows that equal an earlier
    one. *)
Lemma another_against_earlier (rs : list pd.Row) :
  let all := length (filter (equals_another rs) (seq 0 (length rs))) in
  let later := length (filter (equals_earlier rs) (seq 0 (length rs))) in
  (all = 0 <-> later = 0) /\ all <> 1 /\ (later = 0 \/ later < all).
Proof.
  cbv zeta.
  remember (filter (equals_another rs) (seq 0 (length rs))) as A eqn:EA.
  remember (filter (equals_earlier rs) (seq 0 (length rs))) as F eqn:EF.
  assert (Hsub : forall i, In i (seq 0 (length rs)) ->
                   equals_earlier rs i = true -> equals_another rs i = true).
  { intros i Hi. apply in_seq in Hi. apply earlier_is_another. lia. }
  assert (HA : forall k, In k A -> k < length rs /\ equals_another rs k = true).
  { intros k Hk. rewrite EA in Hk. apply filter_In in Hk as [Hk1 Hk2].
    apply in_seq in Hk1. split; [lia | exact Hk2]. }
  assert (Hstrict : A <> [] -> length F < length A).
  { intros Hall. destruct A as [|k ks]; [congruence|].
    destruct (HA k (or_introl eq_refl)) as [Hk1 Hk2].
    destruct (least_true (equals_another rs) (length rs))
      as [i [Hi [Hfi Hleast]]]; [exists k; split; [lia | exact Hk2]|].
    rewrite EA, EF.
    apply (filter_length_lt _ _ _ i Hsub);
      [apply in_seq; lia | exact Hfi |].
    destruct (equals_earlier rs i) eqn:Ee; [|reflexivity].
    unfold equals_earlier in Ee.
    apply existsb_exists in Ee as [j [Hj Hr]]. apply in_seq in Hj.
    assert (Hja : equals_another rs j = true)
      by (apply (partner_is_another rs i j); [lia | lia | exact Hr]).
    rewrite Hleast in Hja by lia. discriminate. }
  assert (Hnil : A = [] -> F = []).
  { intros HA0. destruct F as [|k ks]; [reflexivity|]. exfalso.
    assert (Hk : In k (filter (equals_earlier rs) (seq 0 (length rs))))
      by (rewrite <- EF; left; reflexivity).
    apply filter_In in Hk as [Hk1 Hk2].
    assert (Hin : In k A)
      by (rewrite EA; apply filter_In; split;
          [exact Hk1 | apply Hsub; assumption]).
    rewrite HA0 in Hin. contradiction. }
  assert (Hcases : (A = [] /\ F = []) \/ length F < length A).
  { destruct A as [|k ks] eqn:E; [left; auto | right].
    apply Hstrict. discriminate. }
  split; [|split].
  - destruct Hcases as [[-> ->] | H]; [split; reflexivity|].
    split; intros H0; [lia|].
    destruct A as [|k ks]; [reflexivity|]. exfalso.
    destruct (HA k (or_introl eq_refl)) as [Hk1 Hk2].
    destruct (another_partner rs k Hk2) as [j [Hj [Hne Hr]]].
    assert (Hex : exists i, In i F).
    { rewrite EF. destruct (Nat.lt_ge_cases j k) as [Hlt | Hge].
      - exists k. apply filter_In. split; [apply in_seq; lia|].
        unfold equals_earlier. apply existsb_exists.
        exists j. split; [apply in_seq; lia | exact Hr].
      - exists j. apply filter_In. split; [apply in_seq; lia|].
        unfold equals_earlier. apply existsb_exists.
        exists k. split; [apply in_seq; lia|].
        now rewrite row_eqb_sym. }
    destruct Hex as [i Hi]. destruct F; [contradiction | discriminate].
  - intros H1.
    destruct A as [|k ks] eqn:E; [discriminate|].
    destruct (HA k (or_introl eq_refl)) as [Hk1 Hk2].
    destruct (another_partner rs k Hk2) as [j [Hj [Hne Hr]]].
    pose proof (partner_is_another rs k j Hk1 Hne Hr) as Hja.
    assert (Hkj : k <> j) by congruence.
    pose proof (two_in_filter (equals_another rs) (length rs) k j
                  Hk1 Hj Hkj Hk2 Hja) as H2.
    rewrite <- EA in H2. simpl in *. lia.
  - destruct Hcases as [[_ ->] | H]; [left; reflexivity | right; exact H].
Qed.

Lemma check_duplicates_count df :
  pd.empty df = false ->
  DataValidator.duplicate_count (DataValidator.check_duplicates df)
  = length (filter (equals_another (pd.rows df)) (seq 0 (pd.len df)))
  /\ length (DataValidator.duplicate_indices (DataValidator.check_duplicates df))
     = DataValidator.duplicate_count (DataValidator.check_duplicates df).
Proof.
  intros Hne.
  unfold DataValidator.check_duplicates, pd.duplicated_keep_false.
  rewrite Hne. cbn [DataValidator.duplicate_count DataValidator.duplicate_indices].
  split; [|reflexivity].
  unfold pd.len at 1. cbn [pd.select_rows pd.index].
  rewrite length_select
    by (unfold pd.duplicated_all; rewrite length_map; apply len_rows).
  rewrite duplicated_all_another, len_rows. apply mask_sum_map.
Qed.

Lemma duplicated_count df :
  pd.empty df = false ->
  pd.mask_sum (pd.duplicated df)
  = length (filter (equals_earlier (pd.rows df)) (seq 0 (pd.len df))).
Proof.
  intros Hne. unfold pd.duplicated. rewrite Hne, duplicated_first_earlier.
  rewrite len_rows. apply mask_sum_map.
Qed.

(** X7: on a table with a row and a column, what [check_duplicates]
    reports, the rows equal to another row, against what
    [remove_duplicates] removes, the rows equal to an earlier one: one count
    is zero exactly when the other is, the reported count is never 1 and,
    unless both are zero, it is strictly the larger one; the reported
    indices are as many as the reported count, and both counts are those of
    the specification's two notions of a duplicate. *)
Theorem duplicate_report_against_removal (df : pd.DataFrame) :
  pd.empty df = false ->
  let reported :=
    DataValidator.duplicate_count (DataValidator.check_duplicates df) in
  let removable := pd.mask_sum (pd.duplicated df) in
  (reported = 0 <-> removable = 0)
  /\ reported <> 1
  /\ (removable = 0 \/ removable < reported)
  /\ length (DataValidator.duplicate_indices (DataValidator.check_duplicates df))
     = reported
  /\ reported
     = length (filter (equals_another (pd.rows df)) (seq 0 (pd.len df)))
  /\ removable
     = length (filter (equals_earlier (pd.rows df)) (seq 0 (pd.len df))).
Proof.
  intros He reported removable.
  destruct (check_duplicates_count df He) as [Hc Hi].
  pose proof (duplicated_count df He) as Hd.
  subst reported removable. rewrite Hi, Hc, Hd, <- len_rows.
  destruct (another_against_earlier (pd.rows df)) as [H1 [H2 H3]].
  repeat split; try apply H1; auto.
Qed.

Lemma duplicate_report_against_removal_witness :
  pd.empty people_table = false
  /\ DataValidator.duplicate_count (DataValidator.check_duplicates people_table)
     <> 1.
Proof.
  split; [reflexivity|].
  exact (proj1 (proj2 (duplicate_report_against_removal people_table
                         eq_refl))).
Defined.


(** ** Removing duplicates twice *)

Lemma drop_duplicates_columns df :
  pd.columns (pd.drop_duplicates df) = pd.columns df.
Proof.
  unfold pd.drop_duplicates. destruct (pd.empty df); [reflexivity|].
  unfold pd.columns, pd.select_rows. simpl. rewrite map_map. reflexivity.
Qed.

Lemma drop_duplicates_not_empty df :
  pd.empty df = false -> pd.empty (pd.drop_duplicates df) = false.
Proof.
  intros He. pose proof (drop_duplicates_len df (empty_len df He)) as Hl.
  assert (Hcols : length (pd.cols (pd.drop_duplicates df))
                  = length (pd.cols df)).
  { unfold pd.drop_duplicates. destruct (pd.empty df); [reflexivity|].
    unfold pd.select_rows. simpl. apply length_map. }
  unfold pd.empty in *. apply orb_false_iff in He as [_ Hc].
  apply orb_false_iff. split; [apply Nat.eqb_neq; lia|].
  now rewrite Hcols.
Qed.

Lemma no_duplicate_report df :
  pd.empty df = false -> pd.mask_sum (pd.duplicated df) = 0 ->
  DataValidator.check_duplicates df
  = {| DataValidator.duplicate_count := 0;
       DataValidator.duplicate_indices := [] |}.
Proof.
  intros He Hd.
  destruct (check_duplicates_count df He) as [Hc Hi].
  rewrite (duplicated_count df He), <- len_rows in Hd.
  rewrite <- len_rows in Hc.
  destruct (another_against_earlier (pd.rows df)) as [[_ H0] _].
  rewrite (H0 Hd) in Hc. rewrite Hc in Hi.
  destruct (DataValidator.check_duplicates df) as [n idx]. simpl in *.
  subst n. destruct idx; [reflexivity | discriminate].
Qed.

(** X8: after [remove_duplicates] on a table that is not empty the stored
    table has the same columns, at least one row and no row twice:
    [check_duplicates] reports nothing on it, and a second
    [remove_duplicates] removes 0 rows and leaves the manager as it is. *)
Theorem remove_duplicates_leaves_none
  (dm : DatasetManager.t) (T : pd.DataFrame) :
  DatasetManager.get_dataframe dm = Some T ->
  pd.empty T = false ->
  square T = true ->
  let dm1 := fst (remove_duplicates dm) in
  exists E,
    DatasetManager.get_dataframe dm1 = Some E
    /\ pd.empty E = false
    /\ pd.columns E = pd.columns T
    /\ pd.mask_sum (pd.duplicated E) = 0
    /\ DataValidator.check_duplicates E
       = {| DataValidator.duplicate_count := 0;
            DataValidator.duplicate_indices := [] |}
    /\ remove_duplicates dm1
       = (dm1, py.Returned
                 (py.Success "Removed 0 duplicate rows"
                    [("duplicates_removed", py.PNat 0)])).
Proof.
  intros Ht He Hsq dm1.
  destruct (loaded_dataset dm T Ht He) as [ds [Hds Hdata]].
  assert (Hdm1 : dm1 = {| DatasetManager.current_dataset :=
                            Some {| models.data := Some (pd.drop_duplicates T);
                                    models.file_path := models.file_path ds |};
                          DatasetManager.dataset_history :=
                            DatasetManager.dataset_history dm |}).
  { subst dm1. unfold remove_duplicates. rewrite Ht, He. cbn [fst].
    unfold DatasetManager.update_dataframe. now rewrite Hds. }
  destruct (drop_duplicates_none T Hsq) as [Hnone Hidem].
  pose proof (drop_duplicates_not_empty T He) as He'.
  exists (pd.drop_duplicates T).
  split; [rewrite Hdm1; reflexivity|]. split; [exact He'|].
  split; [apply drop_duplicates_columns|]. split; [exact Hnone|].
  split; [apply no_duplicate_report; assumption|].
  rewrite Hdm1. unfold remove_duplicates.
  cbn [DatasetManager.get_dataframe DatasetManager.current_dataset models.data].
  rewrite He', Hnone, Hidem. reflexivity.
Qed.

Lemma remove_duplicates_leaves_none_witness :
  DatasetManager.get_dataframe (manager_with people_table) = Some people_table
  /\ pd.empty people_table = false
  /\ square people_table = true
  /\ exists E,
       DatasetManager.get_dataframe
         (fst (remove_duplicates (manager_with people_table))) = Some E
       /\ pd.mask_sum (pd.duplicated E) = 0.
Proof.
  do 3 (split; [reflexivity|]).
  destruct (remove_duplicates_leaves_none (manager_with people_table)
              people_table eq_refl eq_refl eq_refl)
    as [E [H1 [_ [_ [H2 _]]]]].
  exists E. split; assumption.
Defined.


(** ** [auto_clean] only removes *)

Lemma filter_as_select {A : Type} (p : A -> bool) (l : list A) :
  filter p l = pd.select (map p l) l.
Proof.
  induction l as [|x l IH]; simpl; [reflexivity|].
  destruct (p x); now rewrite IH.
Qed.

Lemma select_map {A B : Type} (f : A -> B) (m : list bool) (l : list A) :
  map f (pd.select m l) = pd.select m (map f l).
Proof.
  revert l. induction m as [|b m IH]; intros [|x l]; simpl; try reflexivity.
  destruct b; simpl; now rewrite IH.
Qed.

Lemma filter_map_comm {A B : Type} (f : A -> B) (p : B -> bool) (l : list A) :
  filter p (map f l) = map f (filter (fun x => p (f x)) l).
Proof.
  induction l as [|x l IH]; simpl; [reflexivity|].
  destruct (p (f x)); simpl; now rewrite IH.
Qed.

Lemma filter_twice {A : Type} (p q : A -> bool) (l : list A) :
  filter q (filter p l) = filter (fun x => p x && q x) l.
Proof.
  induction l as [|x l IH]; simpl; [reflexivity|].
  destruct (p x); simpl; [destruct (q x); simpl|]; now rewrite IH.
Qed.

Lemma name_fill_missing s : pd.name (fill_missing s) = pd.name s.
Proof.
  unfold fill_missing. destruct (pd.isnull_any s); [|reflexivity].
  destruct (numeric_kind (pd.dt s)).
  - destruct (negb (pd.isna_all s)); reflexivity.
  - destruct (pd.mode s); reflexivity.
Qed.

Lemma select_length_le {A : Type} (m : list bool) (l : list A) :
  length (pd.select m l) <= length l.
Proof.
  revert l. induction m as [|b m IH]; intros [|x l]; simpl; try lia.
  destruct b; simpl; specialize (IH l); lia.
Qed.

Lemma select_repeat_true {A : Type} (l : list A) :
  pd.select (repeat true (length l)) l = l.
Proof. induction l as [|x l IH]; simpl; [reflexivity | now rewrite IH]. Qed.

(** The columns steps 1 to 4 keep, as a mask over the columns of the frame. *)
Lemma filled_columns df :
  exists kept,
    length kept = length (pd.cols df)
    /\ pd.columns (filled df) = pd.select kept (pd.columns df)
    /\ pd.index (filled df) = pd.index df.
Proof.
  unfold filled, step4, step3, step2, step1, pd.dropna_thresh, pd.dropna_all,
    pd.replace, pd.columns, pd.len.
  cbn [pd.cols pd.index].
  rewrite filter_twice, filter_map_comm, !map_map.
  rewrite (map_ext (fun x => pd.name (fill_missing (pd.replace_series
                                                      missing_indicators x)))
             pd.name)
    by (intros s; now rewrite name_fill_missing).
  rewrite filter_as_select, select_map.
  eexists. split; [|split; reflexivity]. apply length_map.
Qed.

Lemma drop_duplicates_rows df :
  exists kept,
    length kept = pd.len df
    /\ pd.index (pd.drop_duplicates df) = pd.select kept (pd.index df).
Proof.
  unfold pd.drop_duplicates. destruct (pd.empty df).
  - exists (repeat true (pd.len df)). split; [apply repeat_length|].
    unfold pd.len. now rewrite select_repeat_true.
  - eexists. split; [|reflexivity].
    rewrite length_map, length_duplicated_first. apply len_rows.
Qed.

(** X9: [auto_clean] on a table with unique labels that is not empty only
    removes rows and columns: the labels and the index of the stored table
    are selections of the old ones, in their order, and at least one row is
    left.  The response gives the two shapes, the number of columns removed
    and the number of duplicate rows removed, which is the number of rows
    lost. *)
Theorem auto_clean_only_removes (dm : DatasetManager.t) (T : pd.DataFrame) :
  NoDup (pd.columns T) ->
  DatasetManager.get_dataframe dm = Some T ->
  pd.empty T = false ->
  exists E kept_columns kept_rows removed,
    DatasetManager.get_dataframe (fst (auto_clean dm)) = Some E
    /\ length kept_columns = length (pd.cols T)
    /\ pd.columns E = pd.select kept_columns (pd.columns T)
    /\ length kept_rows = pd.len T
    /\ pd.index E = pd.select kept_rows (pd.index T)
    /\ 1 <= pd.len E <= pd.len T
    /\ length (pd.cols E) <= length (pd.cols T)
    /\ snd (auto_clean dm)
       = py.Returned
           (py.Success "Dataset cleaned successfully"
              [("original_shape", py.PShape (pd.shape T));
               ("new_shape", py.PShape (pd.shape E));
               ("duplicates_removed", py.PNat removed);
               ("columns_removed",
                py.PInt (Z.of_nat (length (pd.cols T) - length (pd.cols E))))])
    /\ removed + pd.len E = pd.len T.
Proof.
  intros _.
  intros Ht He.
  destruct (auto_clean_loaded dm T Ht He) as [ds [Hds Hrun]].
  destruct (filled_columns T) as [kc [Hkc [Hcols Hidx]]].
  destruct (drop_duplicates_rows (filled T)) as [kr [Hkr Hrows]].
  assert (Hlen : pd.len (filled T) = pd.len T)
    by (unfold pd.len; now rewrite Hidx).
  assert (Hcl : length (pd.cols (cleaned T)) <= length (pd.cols T)).
  { assert (H : length (pd.columns (cleaned T)) <= length (pd.columns T)).
    { unfold cleaned. rewrite drop_duplicates_columns, Hcols.
      apply select_length_le. }
    unfold pd.columns in H. now rewrite !length_map in H. }
  assert (Hrem : pd.mask_sum (pd.duplicated (filled T)) + pd.len (cleaned T)
                 = pd.len T).
  { unfold cleaned, pd.drop_duplicates, pd.duplicated.
    destruct (pd.empty (filled T)) eqn:Hef.
    - simpl. unfold pd.mask_sum. simpl. exact Hlen.
    - unfold pd.len at 1. cbn [pd.select_rows pd.index].
      rewrite length_select
        by (rewrite length_map, length_duplicated_first; apply len_rows).
      rewrite mask_sum_negb, length_duplicated_first, len_rows, Hlen.
      assert (pd.mask_sum (pd.duplicated_first [] (pd.rows (filled T)))
              <= pd.len T).
      { unfold pd.mask_sum.
        eapply Nat.le_trans; [apply filter_length_le|].
        rewrite length_duplicated_first, len_rows, Hlen. apply Nat.le_refl. }
      lia. }
  exists (cleaned T), kc, kr, (pd.mask_sum (pd.duplicated (filled T))).
  rewrite Hrun. cbn [fst snd].
  split; [reflexivity|]. split; [exact Hkc|].
  split; [unfold cleaned; rewrite drop_duplicates_columns; exact Hcols|].
  split; [rewrite <- Hlen; exact Hkr|].
  split; [unfold cleaned; rewrite Hrows, Hidx; reflexivity|].
  split.
  { split; [|lia]. unfold cleaned. apply drop_duplicates_len.
    rewrite Hlen. apply empty_len. exact He. }
  split; [exact Hcl|]. split; [|exact Hrem].
  unfold pd.shape. cbn [snd]. repeat f_equal. lia.
Qed.

Lemma auto_clean_only_removes_witness :
  DatasetManager.get_dataframe (manager_with sparse_table) = Some sparse_table
  /\ pd.empty sparse_table = false
  /\ exists E,
       DatasetManager.get_dataframe (fst (auto_clean (manager_with sparse_table)))
       = Some E
       /\ length (pd.cols E) <= 2.
Proof.
  do 2 (split; [reflexivity|]).
  destruct (auto_clean_only_removes (manager_with sparse_table) sparse_table
              sparse_labels eq_refl eq_refl)
    as [E [kc [kr [n [H1 [_ [_ [_ [_ [_ [H2 _]]]]]]]]]]].
  exists E. split; [exact H1 | exact H2].
Defined.


(** ** Cells that are settled *)

Lemma isnull_sum_settled s :
  forallb settled (pd.values s) = true -> pd.isnull_sum s = 0.
Proof.
  intros H. unfold pd.isnull_sum.
  induction (pd.values s) as [|c vs IH]; simpl; [reflexivity|].
  simpl in H. apply andb_true_iff in H as [H1 H2].
  apply settled_notna in H1. unfold pd.notna in H1.
  destruct (pd.isna c); [discriminate | auto].
Qed.

Lemma isnull_sum_sum_settled df :
  all_cells settled df = true -> pd.isnull_sum_sum df = 0.
Proof.
  unfold all_cells, pd.isnull_sum_sum.
  induction (pd.cols df) as [|s l IH]; simpl; [reflexivity|].
  intros H. apply andb_true_iff in H as [H1 H2].
  now rewrite (isnull_sum_settled s H1), (IH H2).
Qed.

Lemma getitem_in df c s : pd.getitem df c = Some s -> In s (pd.cols df).
Proof. unfold pd.getitem. intros H. now apply find_some in H. Qed.

Lemma settled_no_token c : settled c = true -> negb (token c) = true.
Proof. unfold settled. intros H. apply andb_true_iff in H. tauto. Qed.

(** ** Unique labels *)

Lemma select_in {A : Type} (m : list bool) (l : list A) x :
  In x (pd.select m l) -> In x l.
Proof.
  revert l. induction m as [|b m IH]; intros [|y l]; simpl; try contradiction.
  destruct b; simpl; intros H.
  - destruct H as [H|H]; [now left | right; now apply IH].
  - right. now apply IH.
Qed.

Lemma NoDup_select {A : Type} (m : list bool) (l : list A) :
  NoDup l -> NoDup (pd.select m l).
Proof.
  revert l. induction m as [|b m IH]; intros [|y l] H; simpl;
    try constructor.
  inversion H as [|? ? Hni Hnd]; subst.
  destruct b; [|now apply IH].
  constructor; [|now apply IH].
  intros Hin. apply Hni. now apply (select_in m).
Qed.

(** [auto_clean] keeps the labels unique. *)
Lemma cleaned_labels_unique df :
  NoDup (pd.columns df) -> NoDup (pd.columns (cleaned df)).
Proof.
  intros H. unfold cleaned. rewrite drop_duplicates_columns.
  destruct (filled_columns df) as [kept [_ [Hc _]]]. rewrite Hc.
  now apply NoDup_select.
Qed.


(** ** Bounds of the quality summary *)

(** A share of [n] in [m] in percent lies between 0 and 100. *)
Lemma percent_bounds (n m : nat) :
  n <= m -> 0 < m ->
  (0 <= inject_Z (Z.of_nat n) / inject_Z (Z.of_nat m) * 100 <= 100)%Q
  /\ (0 < n -> (0 < inject_Z (Z.of_nat n) / inject_Z (Z.of_nat m) * 100)%Q).
Proof.
  intros Hnm Hm.
  assert (Hmq : (0 < inject_Z (Z.of_nat m))%Q).
  { change 0%Q with (inject_Z 0). rewrite <- Zlt_Qlt. lia. }
  assert (Hnq : (0 <= inject_Z (Z.of_nat n))%Q).
  { change 0%Q with (inject_Z 0). rewrite <- Zle_Qle. lia. }
  assert (Hle : (inject_Z (Z.of_nat n) <= inject_Z (Z.of_nat m))%Q).
  { rewrite <- Zle_Qle. lia. }
  assert (Hdiv0 : (0 <= inject_Z (Z.of_nat n) / inject_Z (Z.of_nat m))%Q).
  { apply Qle_shift_div_l; [exact Hmq|]. now rewrite Qmult_0_l. }
  assert (Hdiv1 : (inject_Z (Z.of_nat n) / inject_Z (Z.of_nat m) <= 1)%Q).
  { apply Qle_shift_div_r; [exact Hmq|]. now rewrite Qmult_1_l. }
  split; [split|].
  - apply Qmult_le_0_compat; [exact Hdiv0 | discriminate].
  - setoid_replace 100%Q with (1 * 100)%Q at 2 by reflexivity.
    apply Qmult_le_compat_r; [exact Hdiv1 | discriminate].
  - intros Hn.
    assert (Hnq' : (0 < inject_Z (Z.of_nat n))%Q).
    { change 0%Q with (inject_Z 0). rewrite <- Zlt_Qlt. lia. }
    apply Qmult_lt_0_compat; [|reflexivity].
    apply Qlt_shift_div_l; [exact Hmq|]. now rewrite Qmult_0_l.
Qed.

Lemma isnull_sum_le s : pd.isnull_sum s <= length (pd.values s).
Proof. unfold pd.isnull_sum. apply filter_length_le. Qed.

Lemma isnull_sum_sum_le df :
  square df = true ->
  pd.isnull_sum_sum df <= pd.len df * length (pd.cols df).
Proof.
  unfold square, pd.isnull_sum_sum.
  induction (pd.cols df) as [|s l IH]; simpl; [lia|].
  intros H. apply andb_true_iff in H as [H1 H2]. apply Nat.eqb_eq in H1.
  specialize (IH H2). pose proof (isnull_sum_le s). lia.
Qed.

Lemma first_row_is_no_duplicate (rs : list pd.Row) :
  rs <> [] -> pd.mask_sum (pd.duplicated_first [] rs) < length rs.
Proof.
  destruct rs as [|r rs]; [congruence|]. intros _. simpl.
  unfold pd.mask_sum. simpl.
  pose proof (filter_length_le (fun b : bool => b)
                (pd.duplicated_first [r] rs)) as H.
  rewrite length_duplicated_first in H. lia.
Qed.

(** X11: on a table with a row and a column, its columns all of the length
    of the index, [get_data_quality_summary] returns a summary with the
    shape of the table, at most rows times columns missing cells, a missing
    percentage between 0 and 100 that is 0 exactly when no cell is missing,
    and fewer duplicate rows than rows. *)
Theorem quality_summary_bounds
  (L : py.Lib) (dm : DatasetManager.t) (T : pd.DataFrame) :
  DatasetManager.get_dataframe dm = Some T ->
  pd.empty T = false ->
  square T = true ->
  exists q,
    get_data_quality_summary L dm = Some q
    /\ total_rows q = pd.len T
    /\ total_cols q = length (pd.cols T)
    /\ 1 <= total_rows q
    /\ 1 <= total_cols q
    /\ missing_total q <= total_rows q * total_cols q
    /\ (0 <= missing_pct q <= 100)%Q
    /\ (missing_total q = 0 <-> (missing_pct q == 0)%Q)
    /\ duplicate_count q < total_rows q.
Proof.
  intros Ht He Hsq. unfold get_data_quality_summary. rewrite Ht, He.
  eexists. split; [reflexivity|].
  cbn [total_rows total_cols missing_total missing_pct duplicate_count].
  pose proof (empty_len T He) as Hr.
  assert (Hc : 1 <= length (pd.cols T)).
  { unfold pd.empty in He. apply orb_false_iff in He as [_ He].
    apply Nat.eqb_neq in He. lia. }
  pose proof (isnull_sum_sum_le T Hsq) as Hm.
  unfold pd.columns. rewrite length_map. unfold pd.shape. cbn [fst snd].
  assert (Hpos : 0 < pd.len T * length (pd.cols T)) by nia.
  destruct (percent_bounds _ _ Hm Hpos) as [Hb Hp].
  apply Nat.ltb_lt in Hpos as Hpos'. rewrite Hpos'.
  repeat split; auto; try apply Hb.
  - intros H0. rewrite H0. unfold Qdiv. now rewrite !Qmult_0_l.
  - intros Hz.
    destruct (Nat.eq_dec (pd.isnull_sum_sum T) 0) as [H0 | H0]; [exact H0|].
    assert (Hlt := Hp ltac:(lia)). rewrite Hz in Hlt.
    exfalso. apply (Qlt_irrefl 0). exact Hlt.
  - unfold pd.duplicated. rewrite He. rewrite <- len_rows.
    apply first_row_is_no_duplicate.
    intros Hnil. pose proof (len_rows T) as Hl. rewrite Hnil in Hl.
    simpl in Hl. lia.
Qed.

Lemma quality_summary_bounds_witness :
  DatasetManager.get_dataframe (manager_with sparse_table) = Some sparse_table
  /\ pd.empty sparse_table = false
  /\ square sparse_table = true
  /\ exists q,
       get_data_quality_summary no_lib (manager_with sparse_table) = Some q
       /\ (0 <= missing_pct q <= 100)%Q.
Proof.
  do 3 (split; [reflexivity|]).
  destruct (quality_summary_bounds no_lib (manager_with sparse_table)
              sparse_table eq_refl eq_refl eq_refl)
    as [q [H1 [_ [_ [_ [_ [_ [H2 _]]]]]]]].
  exists q. split; assumption.
Defined.


(** ** Reports per column *)

Lemma dict_set_fresh {V : Type} (d : list (string * V)) k v :
  ~ In k (map fst d) -> dict_set d k v = (d ++ [(k, v)])%list.
Proof.
  induction d as [|[k' v'] d IH]; simpl; [reflexivity|].
  intros H. destruct (String.eqb k' k) eqn:E.
  - apply String.eqb_eq in E. exfalso. apply H. left. exact E.
  - rewrite IH; [reflexivity|]. intros Hin. apply H. right. exact Hin.
Qed.

Lemma dict_get_app_fresh {V : Type} (d d' : list (string * V)) k :
  ~ In k (map fst d) -> dict_get (d ++ d')%list k = dict_get d' k.
Proof.
  induction d as [|[k' v'] d IH]; simpl; [reflexivity|].
  intros H. destruct (String.eqb k' k) eqn:E.
  - apply String.eqb_eq in E. exfalso. apply H. left. exact E.
  - apply IH. intros Hin. apply H. right. exact Hin.
Qed.

(** With unique labels, [df[c]] is the one column labelled [c]. *)
Lemma find_unique (l : list pd.Series) s :
  NoDup (map pd.name l) -> In s l ->
  find (fun x => String.eqb (pd.name x) (pd.name s)) l = Some s.
Proof.
  induction l as [|x l IH]; simpl; [contradiction|].
  intros Hnd Hin. inversion Hnd as [|? ? Hni Hnd']; subst.
  destruct Hin as [-> | Hin]; [now rewrite String.eqb_refl|].
  destruct (String.eqb (pd.name x) (pd.name s)) eqn:E; [|apply IH; assumption].
  apply String.eqb_eq in E. exfalso. apply Hni. rewrite E.
  apply in_map. exact Hin.
Qed.

Lemma getitem_unique df s :
  NoDup (pd.columns df) -> In s (pd.cols df) ->
  pd.getitem df (pd.name s) = Some s.
Proof. intros. apply find_unique; assumption. Qed.

(** A report that visits the columns one by one and files an entry for
    some of them lists these columns in the order of the frame. *)
Lemma report_by_column {V : Type} (df : pd.DataFrame)
  (entry : pd.Series -> option V) :
  NoDup (pd.columns df) ->
  fold_left
    (fun report col =>
       match pd.getitem df col with
       | Some s =>
           match entry s with
           | Some v => dict_set report col v
           | None => report
           end
       | None => report
       end)
    (pd.columns df) []
  = flat_map (fun s => match entry s with
                       | Some v => [(pd.name s, v)]
                       | None => []
                       end) (pd.cols df).
Proof.
  intros Hnd.
  set (step := fun report col =>
                 match pd.getitem df col with
                 | Some s => match entry s with
                             | Some v => dict_set report col v
                             | None => report
                             end
                 | None => report
                 end).
  set (file := fun s => match entry s with
                        | Some v => [(pd.name s, v)]
                        | None => []
                        end).
  assert (Hgen : forall done todo acc,
            pd.cols df = (done ++ todo)%list ->
            (forall k, In k (map fst acc) -> In k (map pd.name done)) ->
            fold_left step (map pd.name todo) acc
            = (acc ++ flat_map file todo)%list).
  { intros done todo. revert done.
    induction todo as [|s todo IH]; intros done acc Hsplit Hkeys; simpl;
      [now rewrite List.app_nil_r|].
    assert (Hin : In s (pd.cols df))
      by (rewrite Hsplit; apply in_or_app; right; left; reflexivity).
    assert (Hfresh : ~ In (pd.name s) (map pd.name done)).
    { unfold pd.columns in Hnd. rewrite Hsplit, map_app in Hnd.
      simpl in Hnd. apply NoDup_remove_2 in Hnd.
      intros H. apply Hnd. apply in_or_app. left. exact H. }
    unfold step at 2. rewrite (getitem_unique df s Hnd Hin).
    unfold file at 1.
    destruct (entry s) as [v|].
    - rewrite dict_set_fresh by (intros H; apply Hfresh, Hkeys, H).
      rewrite (IH (done ++ [s])%list).
      + now rewrite <- List.app_assoc.
      + now rewrite <- List.app_assoc.
      + intros k Hk. rewrite map_app in Hk |- *. apply in_app_or in Hk.
        apply in_or_app. destruct Hk as [Hk | Hk].
        * left. apply Hkeys. exact Hk.
        * right. exact Hk.
    - rewrite (IH (done ++ [s])%list).
      + reflexivity.
      + now rewrite <- List.app_assoc.
      + intros k Hk. rewrite map_app. apply in_or_app. left.
        apply Hkeys. exact Hk. }
  unfold pd.columns. rewrite (Hgen [] (pd.cols df) []); auto.
Qed.

Lemma flat_map_filter {A B : Type} (p : A -> bool) (f : A -> B) l :
  flat_map (fun x => if p x then [f x] else []) l = map f (filter p l).
Proof.
  induction l as [|x l IH]; simpl; [reflexivity|].
  destruct (p x); simpl; now rewrite IH.
Qed.

Lemma fold_left_pointwise {A B : Type} (f g : A -> B -> A) (l : list B) a :
  (forall acc x, f acc x = g acc x) -> fold_left f l a = fold_left g l a.
Proof.
  intros H. revert a. induction l as [|x l IH]; intros a; simpl;
    [reflexivity|]. now rewrite H, IH.
Qed.

Lemma flat_map_pointwise {A B : Type} (f g : A -> list B) (l : list A) :
  (forall x, f x = g x) -> flat_map f l = flat_map g l.
Proof.
  intros H. induction l as [|x l IH]; simpl; [reflexivity|].
  now rewrite H, IH.
Qed.

(** ** Labels on one column and on several *)

Lemma labelled_once_unique df col :
  NoDup (pd.columns df) -> In col (pd.columns df) ->
  DataValidator.labelled_once df col = true.
Proof.
  unfold DataValidator.labelled_once. intros Hnd Hin. apply Nat.eqb_eq.
  induction (pd.columns df) as [|c l IH]; [contradiction|].
  inversion Hnd as [|? ? Hni Hnd']; subst. cbn [filter].
  destruct (String.eqb col c) eqn:E.
  - apply String.eqb_eq in E. subst c. cbn [List.length]. f_equal.
    clear IH Hin Hnd Hnd'. induction l as [|d l IHl]; [reflexivity|].
    cbn [filter]. destruct (String.eqb col d) eqn:Ed.
    + apply String.eqb_eq in Ed. subst d. exfalso. apply Hni. now left.
    + apply IHl. intros H. apply Hni. now right.
  - destruct Hin as [->|Hin]; [now rewrite String.eqb_refl in E|].
    now apply IH.
Qed.

Lemma filter_eqb_in (l : list string) col :
  In col l -> 1 <= length (filter (String.eqb col) l).
Proof.
  intros Hin. assert (H : In col (filter (String.eqb col) l))
    by (apply filter_In; split; [exact Hin|apply String.eqb_refl]).
  destruct (filter (String.eqb col) l); [contradiction|simpl; lia].
Qed.

Lemma labelled_all_once (l : list string) :
  forallb (fun col => length (filter (String.eqb col) l) =? 1) l = true ->
  NoDup l.
Proof.
  induction l as [|c l IH]; [constructor|].
  cbn [forallb filter]. rewrite String.eqb_refl. cbn [List.length].
  intros H. apply andb_true_iff in H. destruct H as (Hc & Hall).
  apply Nat.eqb_eq in Hc.
  assert (Hni : ~ In c l).
  { intros Hin. pose proof (filter_eqb_in l c Hin). lia. }
  constructor; [exact Hni|].
  apply IH. rewrite forallb_forall in Hall |- *. intros x Hx.
  specialize (Hall x Hx). apply Nat.eqb_eq in Hall. apply Nat.eqb_eq.
  destruct (String.eqb x c) eqn:E; [|exact Hall].
  apply String.eqb_eq in E. subst x. contradiction.
Qed.

(** A loop over the labels that returns at each of them returns. *)
Lemma report_returns {V : Type}
  (step : py.Outcome (list (string * V)) -> string
          -> py.Outcome (list (string * V)))
  (pure : list (string * V) -> string -> list (string * V))
  (labels : list string) (report : list (string * V)) :
  (forall r col, In col labels ->
     step (py.Returned r) col = py.Returned (pure r col)) ->
  fold_left step labels (py.Returned report)
  = py.Returned (fold_left pure labels report).
Proof.
  revert report. induction labels as [|c labels IH]; intros report H;
    [reflexivity|].
  cbn [fold_left]. rewrite (H report c) by now left.
  apply IH. intros r col Hin. apply H. now right.
Qed.

(** A loop over the labels that raises at one of them raises. *)
Lemma report_raises {V : Type}
  (step : py.Outcome (list (string * V)) -> string
          -> py.Outcome (list (string * V)))
  (labels : list string) (state : py.Outcome (list (string * V))) :
  (forall e col, step (py.Raised e) col = py.Raised e) ->
  (exists col, In col labels
               /\ forall r, exists e, step (py.Returned r) col = py.Raised e) ->
  exists e, fold_left step labels state = py.Raised e.
Proof.
  intros Hkeep. revert state.
  assert (Hraised : forall labels e,
            fold_left step labels (py.Raised e) = py.Raised e).
  { intros l. induction l as [|c l IHl]; intros e; [reflexivity|].
    cbn [fold_left]. now rewrite Hkeep. }
  induction labels as [|c labels IH]; intros state (col & Hin & Hcol);
    [contradiction|].
  cbn [fold_left].
  destruct state as [r|e]; [|rewrite Hkeep, Hraised; now exists e].
  destruct Hin as [->|Hin].
  - destruct (Hcol r) as (e & He). rewrite He, Hraised. now exists e.
  - apply IH. now exists col.
Qed.

Lemma check_missing_values_unique df :
  NoDup (pd.columns df) ->
  DataValidator.check_missing_values df
  = py.Returned
      (map (fun s => (pd.name s, missing_entry df s))
         (filter (fun s => 0 <? pd.isnull_sum s) (pd.cols df))).
Proof.
  intros Hnd. rewrite <- flat_map_filter.
  pose proof (report_by_column df
                (fun s => if 0 <? pd.isnull_sum s
                          then Some (missing_entry df s) else None) Hnd) as H.
  unfold DataValidator.check_missing_values.
  rewrite (report_returns _
             (fun report col =>
                match pd.getitem df col with
                | Some s =>
                    match (if 0 <? pd.isnull_sum s
                           then Some (missing_entry df s) else None) with
                    | Some v => dict_set report col v
                    | None => report
                    end
                | None => report
                end)).
  - f_equal. rewrite H. apply flat_map_pointwise. intros s.
    destruct (0 <? pd.isnull_sum s); reflexivity.
  - intros r col Hin. rewrite (labelled_once_unique df col Hnd Hin).
    cbn [negb]. destruct (pd.getitem df col) as [s|]; [|reflexivity].
    cbv zeta. destruct (0 <? pd.isnull_sum s); reflexivity.
Qed.

(** Without unique labels, one of them is on several columns. *)
Lemma repeated_label df :
  ~ NoDup (pd.columns df) ->
  exists col, In col (pd.columns df)
              /\ negb (DataValidator.labelled_once df col) = true.
Proof.
  intros H.
  destruct (forallb (DataValidator.labelled_once df) (pd.columns df)) eqn:E.
  { exfalso. apply H. now apply labelled_all_once. }
  assert (Hex : existsb (fun c => negb (DataValidator.labelled_once df c))
                  (pd.columns df) = true).
  { clear H. induction (pd.columns df) as [|c l IH]; [discriminate|].
    cbn [forallb existsb] in *. apply andb_false_iff in E.
    apply orb_true_iff. destruct E as [E|E]; [left; now rewrite E|right; auto]. }
  apply existsb_exists in Hex. destruct Hex as (col & Hin & Hcol).
  now exists col.
Qed.

Lemma check_missing_values_repeated df :
  ~ NoDup (pd.columns df) ->
  exists e, DataValidator.check_missing_values df = py.Raised e.
Proof.
  intros H. unfold DataValidator.check_missing_values.
  apply report_raises; [reflexivity|].
  destruct (repeated_label df H) as (col & Hin & Hcol).
  exists col. split; [exact Hin|]. intros r. rewrite Hcol. eauto.
Qed.

Lemma check_data_types_repeated df :
  ~ NoDup (pd.columns df) ->
  exists e, DataValidator.check_data_types df = py.Raised e.
Proof.
  intros H. unfold DataValidator.check_data_types.
  apply report_raises; [reflexivity|].
  destruct (repeated_label df H) as (col & Hin & Hcol).
  exists col. split; [exact Hin|]. intros r. rewrite Hcol. eauto.
Qed.

Lemma dict_get_report {V : Type} (p : pd.Series -> bool)
  (f : pd.Series -> V) (l : list pd.Series) s :
  NoDup (map pd.name l) -> In s l ->
  dict_get (map (fun s => (pd.name s, f s)) (filter p l)) (pd.name s)
  = if p s then Some (f s) else None.
Proof.
  induction l as [|x l IH]; simpl; [contradiction|].
  intros Hnd Hin. inversion Hnd as [|? ? Hni Hnd']; subst.
  destruct Hin as [-> | Hin].
  - destruct (p s) eqn:E; simpl; [now rewrite String.eqb_refl|].
    clear IH. induction l as [|y l IHl]; simpl; [reflexivity|].
    inversion Hnd' as [|? ? Hny Hnd'']; subst.
    assert (Hne : String.eqb (pd.name y) (pd.name s) = false).
    { apply String.eqb_neq. intros Ey. apply Hni. left. exact Ey. }
    assert (Hni' : ~ In (pd.name s) (map pd.name l))
      by (intros H; apply Hni; right; exact H).
    assert (Hnd2 : NoDup (map pd.name (s :: l)))
      by (simpl; constructor; assumption).
    destruct (p y); simpl; rewrite ?Hne; apply IHl; assumption.
  - assert (Hne : String.eqb (pd.name x) (pd.name s) = false).
    { apply String.eqb_neq. intros E. apply Hni. rewrite E.
      apply in_map. exact Hin. }
    destruct (p x); simpl; rewrite ?Hne; apply IH; assumption.
Qed.

(** X12: [check_missing_values] on a frame with unique labels returns a
    report that lists the columns that miss a cell, in the order of the
    frame, each with the number of its missing cells; a share lies above 0
    and at most at 100; the report is empty exactly when the frame misses
    no cell.  On a frame with a label on several columns the call
    raises. *)
Theorem check_missing_values_lists_the_gaps (df : pd.DataFrame) :
  square df = true ->
  (NoDup (pd.columns df) ->
   exists report,
     DataValidator.check_missing_values df = py.Returned report
     /\ report
        = map (fun s => (pd.name s, missing_entry df s))
            (filter (fun s => 0 <? pd.isnull_sum s) (pd.cols df))
     /\ (forall c e,
           In (c, e) report ->
           exists s, pd.getitem df c = Some s
                     /\ DataValidator.count e = pd.isnull_sum s
                     /\ 0 < DataValidator.count e <= pd.len df
                     /\ (0 < DataValidator.percentage e <= 100)%Q)
     /\ (forall c s, pd.getitem df c = Some s ->
           dict_get report c
           = if 0 <? pd.isnull_sum s then Some (missing_entry df s) else None)
     /\ (report = [] <-> pd.isnull_sum_sum df = 0))
  /\ (~ NoDup (pd.columns df) ->
      exists e, DataValidator.check_missing_values df = py.Raised e).
Proof.
  intros Hsq. split; [|apply check_missing_values_repeated].
  intros Hnd. eexists.
  split; [apply (check_missing_values_unique df Hnd)|].
  split; [reflexivity|]. split; [|split].
  - intros c e Hin.
    apply in_map_iff in Hin as [s [Hs Hf]]. inversion Hs; subst c e.
    apply filter_In in Hf as [Hin Hpos]. apply Nat.ltb_lt in Hpos.
    exists s. split; [apply getitem_unique; assumption|].
    split; [reflexivity|]. cbn [DataValidator.count DataValidator.percentage
                                 missing_entry].
    pose proof (isnull_sum_le s) as Hle.
    rewrite (square_in df s Hsq Hin) in Hle.
    split; [lia|].
    destruct (percent_bounds (pd.isnull_sum s) (pd.len df) Hle ltac:(lia))
      as [[_ Hb] Hp].
    split; [apply Hp; exact Hpos | exact Hb].
  - intros c s Hg.
    pose proof (getitem_in df c s Hg) as Hin.
    pose proof (getitem_name df c s Hg) as Hn. subst c.
    apply (dict_get_report (fun s => 0 <? pd.isnull_sum s) (missing_entry df));
      assumption.
  - unfold pd.isnull_sum_sum. clear Hnd Hsq.
    induction (pd.cols df) as [|x l IH]; simpl; [tauto|].
    destruct (0 <? pd.isnull_sum x) eqn:E; simpl.
    + apply Nat.ltb_lt in E. split; [discriminate | lia].
    + apply Nat.ltb_ge in E. rewrite IH. lia.
Qed.


Lemma check_data_types_unique df :
  NoDup (pd.columns df) ->
  DataValidator.check_data_types df
  = py.Returned (map (fun s => (pd.name s, type_info s)) (pd.cols df)).
Proof.
  intros Hnd.
  pose proof (report_by_column df (fun s => Some (type_info s)) Hnd) as H.
  unfold DataValidator.check_data_types.
  rewrite (report_returns _
             (fun report col =>
                match pd.getitem df col with
                | Some s =>
                    match Some (type_info s) with
                    | Some v => dict_set report col v
                    | None => report
                    end
                | None => report
                end)).
  - f_equal. rewrite H. clear H.
    induction (pd.cols df) as [|x l IH]; simpl; [reflexivity|].
    now rewrite IH.
  - intros r col Hin. rewrite (labelled_once_unique df col Hnd Hin).
    cbn [negb]. destruct (pd.getitem df col); reflexivity.
Qed.

Lemma is_numeric_dtype_kind d : pd.is_numeric_dtype d = numeric_kind d.
Proof. destruct d; reflexivity. Qed.

(** X13: [check_data_types] against the guard of [fill_missing_with_mean]:
    on a table with unique labels every column has an entry, in the order
    of the table, and the columns the report calls numeric are the ones the
    mean can be filled into.  On a table with a label on several columns
    the call raises. *)
Theorem numeric_report_matches_mean_guard
  (dm : DatasetManager.t) (T : pd.DataFrame) (col : string) (s : pd.Series) :
  DatasetManager.get_dataframe dm = Some T ->
  pd.empty T = false ->
  pd.getitem T col = Some s ->
  (NoDup (pd.columns T) ->
   exists report,
     DataValidator.check_data_types T = py.Returned report
     /\ map fst report = pd.columns T
     /\ exists info,
          dict_get report col = Some info
          /\ DataValidator.dtype info = pd.dtype_str (pd.dt s)
          /\ (DataValidator.is_numeric info = true ->
              DataValidator.is_datetime info = false)
          /\ (if DataValidator.is_numeric info
              then exists v,
                     snd (fill_missing_with_mean dm col)
                     = py.Returned
                         (py.Success "Filled missing values with mean"
                            [("mean_value", py.PCell v)])
              else snd (fill_missing_with_mean dm col)
                   = py.Returned
                       (py.Failure
                          "Mean can only be applied to numeric columns")))
  /\ (~ NoDup (pd.columns T) ->
      exists e, DataValidator.check_data_types T = py.Raised e).
Proof.
  intros Ht He Hg. split; [|apply check_data_types_repeated].
  intros Hnd. eexists. split; [apply (check_data_types_unique T Hnd)|].
  split; [rewrite map_map; reflexivity|].
  exists (type_info s).
  pose proof (getitem_in T col s Hg) as Hin.
  pose proof (getitem_name T col s Hg) as Hn.
  split.
  { subst col.
    pose proof (dict_get_report (fun _ => true) type_info (pd.cols T) s
                  Hnd Hin) as H.
    rewrite filter_all in H by reflexivity. exact H. }
  split; [reflexivity|]. split.
  { cbn [DataValidator.is_numeric DataValidator.is_datetime type_info].
    destruct (pd.dt s); simpl; congruence. }
  cbn [DataValidator.is_numeric type_info]. rewrite is_numeric_dtype_kind.
  unfold fill_missing_with_mean. rewrite Ht, He, Hg.
  destruct (numeric_kind (pd.dt s)); [eexists|]; reflexivity.
Qed.

Lemma numeric_report_matches_witness :
  exists report,
    DataValidator.check_data_types people_table = py.Returned report
    /\ map fst report = ["Name"; "Age"].
Proof.
  destruct (proj1 (numeric_report_matches_mean_guard
                     (manager_with people_table) people_table "Age"
                     {| pd.name := "Age"; pd.dt := pd.int64;
                        pd.values := [pd.VInt 25; pd.VInt 30; pd.VInt 25] |}
                     eq_refl eq_refl eq_refl) people_labels)
    as (report & Hr & Hk & _).
  exists report. split; [exact Hr|exact Hk].
Defined.

Lemma check_missing_values_witness :
  exists report,
    DataValidator.check_missing_values sparse_table = py.Returned report
    /\ report
       = map (fun s => (pd.name s, missing_entry sparse_table s))
           (filter (fun s => 0 <? pd.isnull_sum s) (pd.cols sparse_table)).
Proof.
  destruct (proj1 (check_missing_values_lists_the_gaps sparse_table eq_refl)
              sparse_labels) as (report & Hr & Hm & _).
  exists report. split; [exact Hr|exact Hm].
Defined.


(** ** After [auto_clean] there is nothing left to report *)

(** X10: after [auto_clean] on a well-typed table with unique labels
    whose columns have at most [10^6] cells with every float at most
    [10^300] in magnitude, so that no sum of a column overflows, the stored
    table has unique labels, no missing cell, no placeholder token and no
    row twice: [check_missing_values] reports nothing, the validator has no
    warning, and the quality summary, which is [None] only if every column
    was dropped, shows no missing cell and no duplicate; where a column is
    left, [check_duplicates] reports nothing either. *)
Theorem auto_clean_leaves_nothing_to_report
  (L : py.Lib) (dm : DatasetManager.t) (T : pd.DataFrame) :
  DatasetManager.get_dataframe dm = Some T ->
  pd.empty T = false ->
  NoDup (pd.columns T) ->
  wf.frame_ok T = true ->
  wf.frame_bounded T = true ->
  exists E,
    DatasetManager.get_dataframe (fst (auto_clean dm)) = Some E
    /\ all_cells (fun c => pd.notna c && negb (token c)) E = true
    /\ pd.isnull_sum_sum E = 0
    /\ pd.mask_sum (pd.duplicated E) = 0
    /\ NoDup (pd.columns E)
    /\ DataValidator.check_missing_values E = py.Returned []
    /\ (pd.empty E = false ->
        DataValidator.check_duplicates E
        = {| DataValidator.duplicate_count := 0;
             DataValidator.duplicate_indices := [] |})
    /\ DataValidator.warnings (DataValidator.validate_dataframe L E) = []
    /\ match get_data_quality_summary L (fst (auto_clean dm)) with
       | Some q => missing_total q = 0 /\ duplicate_count q = 0
                   /\ (missing_pct q == 0)%Q
       | None => pd.cols E = []
       end.
Proof.
  intros Ht He Hnd Hok Hb.
  pose proof (frame_bounded_finite T Hb) as Hfin.
  destruct (auto_clean_loaded dm T Ht He) as [ds [Hds Hrun]].
  destruct (cleaned_invariants T Hok Hfin (empty_len T He))
    as [Hsq [Hset Hlen]].
  destruct (cleaned_idempotent T Hok Hfin (empty_len T He))
    as [_ [Hdup _]].
  pose proof (isnull_sum_sum_settled _ Hset) as Hmiss.
  exists (cleaned T). rewrite Hrun. cbn [fst].
  assert (Hget : DatasetManager.get_dataframe
                   {| DatasetManager.current_dataset :=
                        Some {| models.data := Some (cleaned T);
                                models.file_path := models.file_path ds |};
                      DatasetManager.dataset_history :=
                        DatasetManager.dataset_history dm |}
                 = Some (cleaned T)) by reflexivity.
  split; [exact Hget|]. split; [exact Hset|]. split; [exact Hmiss|].
  split; [exact Hdup|].
  split; [now apply cleaned_labels_unique|].
  split.
  { rewrite (check_missing_values_unique _ (cleaned_labels_unique T Hnd)).
    f_equal. clear - Hset. unfold all_cells in Hset.
    induction (pd.cols (cleaned T)) as [|s l IH]; [reflexivity|].
    cbn [forallb] in Hset. apply andb_true_iff in Hset.
    destruct Hset as (Hs & Hl). cbn [filter].
    rewrite (isnull_sum_settled s Hs). cbn. now apply IH. }
  assert (Hcases : pd.empty (cleaned T) = true -> pd.cols (cleaned T) = []).
  { intros Hemp. unfold pd.empty in Hemp. apply orb_true_iff in Hemp as [H | H];
      apply Nat.eqb_eq in H; [lia|].
    destruct (pd.cols (cleaned T)); [reflexivity | discriminate]. }
  split; [|split].
  - intros Hemp. apply no_duplicate_report; assumption.
  - unfold DataValidator.validate_dataframe.
    destruct (pd.empty (cleaned T)); [reflexivity|].
    rewrite Hmiss, Hdup. reflexivity.
  - unfold get_data_quality_summary. rewrite Hget.
    destruct (pd.empty (cleaned T)) eqn:Hemp; [apply Hcases; reflexivity|].
    cbn [missing_total duplicate_count missing_pct]. rewrite Hmiss, Hdup.
    split; [reflexivity|]. split; [reflexivity|].
    destruct (0 <? fst (pd.shape (cleaned T)) * snd (pd.shape (cleaned T)));
      [|reflexivity].
    unfold Qdiv. rewrite !Qmult_0_l. reflexivity.
Qed.

Lemma auto_clean_leaves_nothing_witness :
  DatasetManager.get_dataframe (manager_with small_table) = Some small_table
  /\ pd.empty small_table = false
  /\ wf.frame_ok small_table = true
  /\ wf.frame_bounded small_table = true
  /\ exists E,
       DatasetManager.get_dataframe (fst (auto_clean (manager_with small_table)))
       = Some E
       /\ DataValidator.warnings (DataValidator.validate_dataframe no_lib E)
          = [].
Proof.
  do 4 (split; [vm_compute; reflexivity|]).
  destruct (auto_clean_leaves_nothing_to_report no_lib
              (manager_with small_table) small_table
              eq_refl eq_refl small_labels eq_refl eq_refl)
    as [E [H1 [_ [_ [_ [_ [_ [_ [H2 _]]]]]]]]].
  exists E. split; assumption.
Defined.


(** ** The dataset manager *)

Lemma update_all_none self frames :
  DatasetManager.current_dataset self = None -> update_all self frames = self.
Proof.
  intros H. unfold update_all. induction frames as [|d l IH]; simpl;
    [reflexivity|].
  unfold DatasetManager.update_dataframe at 2. rewrite H. exact IH.
Qed.

Lemma update_all_last self ds frames df :
  DatasetManager.current_dataset self = Some ds ->
  update_all self (frames ++ [df])
  = {| DatasetManager.current_dataset :=
         Some {| models.data := Some df;
                 models.file_path := models.file_path ds |};
       DatasetManager.dataset_history := DatasetManager.dataset_history self |}.
Proof.
  unfold update_all. revert self ds.
  induction frames as [|d l IH]; intros self ds H; simpl.
  - unfold DatasetManager.update_dataframe. now rewrite H.
  - rewrite (IH _ {| models.data := Some d;
                     models.file_path := models.file_path ds |}).
    + unfold DatasetManager.update_dataframe. now rewrite H.
    + unfold DatasetManager.update_dataframe. now rewrite H.
Qed.

(** X14: [update_dataframe] and [get_dataframe]: with a dataset, the frame
    read back is the last one written, whatever was written before, and
    neither the path of the dataset nor the history changes; without a
    dataset every write is refused and the frame read is still the empty
    one. *)
Theorem last_update_is_read_back
  (self : DatasetManager.t) (frames : list pd.DataFrame) (df : pd.DataFrame) :
  match DatasetManager.current_dataset self with
  | Some ds =>
      DatasetManager.get_dataframe (update_all self (frames ++ [df])) = Some df
      /\ option_map models.file_path
           (DatasetManager.current_dataset (update_all self (frames ++ [df])))
         = Some (models.file_path ds)
      /\ snd (DatasetManager.update_dataframe (update_all self frames) df)
         = py.Success "" []
  | None =>
      update_all self (frames ++ [df]) = self
      /\ DatasetManager.get_dataframe (update_all self (frames ++ [df]))
         = Some pd.DataFrame_new
      /\ snd (DatasetManager.update_dataframe (update_all self frames) df)
         = py.Failure "No dataset loaded"
  end
  /\ DatasetManager.dataset_history (update_all self (frames ++ [df]))
     = DatasetManager.dataset_history self.
Proof.
  destruct (DatasetManager.current_dataset self) as [ds|] eqn:Hd.
  - rewrite (update_all_last self ds frames df Hd). simpl.
    repeat split.
    destruct frames as [|d l] using rev_ind.
    + unfold update_all. simpl. unfold DatasetManager.update_dataframe.
      now rewrite Hd.
    + rewrite (update_all_last self ds l d Hd).
      reflexivity.
  - rewrite !(update_all_none self _ Hd).
    unfold DatasetManager.get_dataframe, DatasetManager.update_dataframe.
    rewrite Hd. repeat split.
Qed.

(** ** Loading a file *)

(** X15: [load_dataset] raises nothing and keeps the history.  When the
    reader returns a frame the manager holds a new dataset with that frame
    and the path; otherwise the manager is as it was and the message starts
    with ["Error loading file: "].  A path that ends in none of [.csv],
    [.xlsx] and [.xls] is refused as an unsupported format. *)
Theorem load_dataset_never_raises
  (F : io.Files) (self : DatasetManager.t) (file_path : string) :
  DatasetManager.dataset_history
    (fst (DatasetManager.load_dataset F self file_path))
  = DatasetManager.dataset_history self
  /\ match snd (DatasetManager.load_dataset F self file_path) with
     | DatasetManager.Loaded ds =>
         exists df,
           (if endswith file_path ".csv" then io.read_csv F file_path
            else io.read_excel F file_path) = py.Returned df
           /\ ds = {| models.data := Some df;
                      models.file_path := Some file_path |}
           /\ DatasetManager.get_dataset
                (fst (DatasetManager.load_dataset F self file_path))
              = Some ds
           /\ DatasetManager.get_dataframe
                (fst (DatasetManager.load_dataset F self file_path))
              = Some df
     | DatasetManager.LoadFailed message =>
         fst (DatasetManager.load_dataset F self file_path) = self
         /\ exists e, message = "Error loading file: " ++ e
     end
  /\ (endswith file_path ".csv" || endswith file_path ".xlsx"
      || endswith file_path ".xls" = false ->
      DatasetManager.load_dataset F self file_path
      = (self,
         DatasetManager.LoadFailed
           "Error loading file: Unsupported file format. Use .csv, .xlsx, or .xls")).
Proof.
  unfold DatasetManager.load_dataset, models.load.
  destruct (endswith file_path ".csv") eqn:E1.
  - destruct (io.read_csv F file_path) as [df|e]; simpl.
    + split; [reflexivity|]. split; [|intros H; discriminate H].
      exists df. auto.
    + split; [reflexivity|]. split; [|intros H; discriminate H]. eauto.
  - destruct (endswith file_path ".xlsx" || endswith file_path ".xls") eqn:E2.
    + destruct (io.read_excel F file_path) as [df|e]; simpl.
      * split; [reflexivity|]. split; [|rewrite E2; intros H; discriminate H].
        exists df. auto.
      * split; [reflexivity|]. split; [|rewrite E2; intros H; discriminate H].
        eauto.
    + simpl. split; [reflexivity|]. split; [eauto|]. reflexivity.
Qed.


(** ** The preview *)

Lemma find_map_values (f : list pd.Cell -> list pd.Cell) c l :
  find (fun s => String.eqb (pd.name s) c)
    (map (fun s => {| pd.name := pd.name s; pd.dt := pd.dt s;
                      pd.values := f (pd.values s) |}) l)
  = option_map (fun s => {| pd.name := pd.name s; pd.dt := pd.dt s;
                            pd.values := f (pd.values s) |})
      (find (fun s => String.eqb (pd.name s) c) l).
Proof.
  induction l as [|x l IH]; simpl; [reflexivity|].
  destruct (String.eqb (pd.name x) c); [reflexivity | exact IH].
Qed.

Lemma head_all df n :
  square df = true -> (Z.of_nat (pd.len df) <= n)%Z -> pd.head df n = df.
Proof.
  intros Hsq Hn. unfold pd.head, py_slice_to.
  assert (H0 : (0 <=? n)%Z = true) by (apply Z.leb_le; lia).
  rewrite H0. rewrite firstn_all2 by (unfold pd.len in Hn; lia).
  rewrite (map_id_in _ (pd.cols df)); [apply frame_eta|].
  intros s Hs. rewrite firstn_all2; [apply series_eta|].
  rewrite (square_in df s Hsq Hs). lia.
Qed.

(** X16: [get_preview] returns [None] without a dataset and otherwise the
    first [n_rows] rows of the table with all its columns and their dtypes:
    the whole table when [n_rows] reaches its length and, for a negative
    [n_rows], the index and the cells of every column without their last
    [-n_rows] entries.  On a dataset without a frame it raises. *)
Theorem preview_is_a_prefix (self : DatasetManager.t) (n_rows : Z) :
  match DatasetManager.current_dataset self with
  | None => DatasetManager.get_preview self n_rows = py.Returned None
  | Some ds =>
      match models.data ds with
      | None =>
          exists e, DatasetManager.get_preview self n_rows = py.Raised e
      | Some T =>
          exists P,
            DatasetManager.get_preview self n_rows = py.Returned (Some P)
            /\ pd.columns P = pd.columns T
            /\ map pd.dt (pd.cols P) = map pd.dt (pd.cols T)
            /\ ((0 <= n_rows)%Z ->
                pd.len P = Nat.min (Z.to_nat n_rows) (pd.len T)
                /\ pd.index P = firstn (Z.to_nat n_rows) (pd.index T)
                /\ forall c s,
                     pd.getitem T c = Some s ->
                     exists s', pd.getitem P c = Some s'
                                /\ pd.dt s' = pd.dt s
                                /\ pd.values s'
                                   = firstn (Z.to_nat n_rows) (pd.values s))
            /\ ((n_rows < 0)%Z ->
                pd.len P = pd.len T - Z.to_nat (- n_rows)
                /\ pd.index P
                   = firstn (length (pd.index T) - Z.to_nat (- n_rows))
                       (pd.index T)
                /\ forall c s,
                     pd.getitem T c = Some s ->
                     exists s', pd.getitem P c = Some s'
                                /\ pd.dt s' = pd.dt s
                                /\ pd.values s'
                                   = firstn (length (pd.values s)
                                             - Z.to_nat (- n_rows))
                                       (pd.values s))
            /\ (square T = true -> (Z.of_nat (pd.len T) <= n_rows)%Z ->
                P = T)
      end
  end.
Proof.
  unfold DatasetManager.get_preview, models.getPreview.
  destruct (DatasetManager.current_dataset self) as [ds|]; [|reflexivity].
  destruct (models.data ds) as [T|]; [|eauto].
  exists (pd.head T n_rows). split; [reflexivity|].
  split; [unfold pd.columns, pd.head; simpl; now rewrite map_map|].
  split; [unfold pd.head; simpl; now rewrite map_map|].
  split; [|split].
  - intros Hn. unfold pd.head, py_slice_to, pd.len.
    apply Z.leb_le in Hn. rewrite Hn. cbn [pd.index pd.cols].
    split; [apply length_firstn|]. split; [reflexivity|].
    intros c s Hg. unfold pd.getitem in *. cbn [pd.cols].
    rewrite find_map_values, Hg. simpl. eexists. repeat split.
  - intros Hn. unfold pd.head, py_slice_to, pd.len.
    assert (H0 : (0 <=? n_rows)%Z = false) by (apply Z.leb_gt; lia).
    rewrite H0. cbn [pd.index pd.cols].
    split; [rewrite length_firstn; lia|]. split; [reflexivity|].
    intros c s Hg. unfold pd.getitem in *. cbn [pd.cols].
    rewrite (find_map_values
               (fun vs => firstn (length vs - Z.to_nat (- n_rows)) vs)), Hg.
    simpl. eexists. repeat split.
  - intros Hsq Hn. apply head_all; assumption.
Qed.


Import Stacks.

(** ** Undo and redo as inverses *)

Lemma py_pop_inv {A : Type} (l : list A) x rest :
  py_pop l = Some (x, rest) -> l = py_append rest x.
Proof.
  unfold py_append. revert x rest.
  induction l as [|y l IH]; intros x rest; simpl; [discriminate|].
  destruct l as [|z l].
  - intros H. inversion H; subst. reflexivity.
  - destruct (py_pop (z :: l)) as [[x' rest']|] eqn:E; [|discriminate].
    intros H. inversion H; subst. simpl. f_equal. apply IH. reflexivity.
Qed.

Lemma state_eta (s : State) :
  {| dataset_manager := dataset_manager s; undo_stack := undo_stack s;
     redo_stack := redo_stack s |} = s.
Proof. destruct s; reflexivity. Qed.

Lemma dataset_eta (ds : models.Dataset) :
  {| models.data := models.data ds; models.file_path := models.file_path ds |}
  = ds.
Proof. destruct ds; reflexivity. Qed.

(** Writing back the frame the dataset holds changes nothing. *)
Lemma update_same dm ds df :
  DatasetManager.current_dataset dm = Some ds -> models.data ds = Some df ->
  fst (DatasetManager.update_dataframe dm df) = dm.
Proof.
  intros Hd Hdata. unfold DatasetManager.update_dataframe. rewrite Hd. simpl.
  rewrite <- Hdata, dataset_eta, <- Hd. apply manager_eta.
Qed.

Lemma update_twice dm ds df df' :
  DatasetManager.current_dataset dm = Some ds ->
  fst (DatasetManager.update_dataframe
         (fst (DatasetManager.update_dataframe dm df)) df')
  = fst (DatasetManager.update_dataframe dm df').
Proof.
  intros Hd. unfold DatasetManager.update_dataframe. rewrite Hd. reflexivity.
Qed.

(** X17: with a current table and a snapshot that are not empty, [undo]
    installs the top of the undo stack, pops it and pushes the current
    table on the redo stack, and a [redo] right after it gives back the
    state as it was before the [undo]; the same holds for [redo] followed
    by [undo]. *)
Theorem undo_and_redo_are_inverse
  (s : State) (cur other : pd.DataFrame) (rest : list pd.DataFrame) :
  Engine.table s = Some cur ->
  pd.empty cur = false ->
  pd.empty other = false ->
  (py_pop (undo_stack s) = Some (other, rest) ->
   snd (undo s) = py.Returned (py.Success "Undo applied successfully" [])
   /\ Engine.table (fst (undo s)) = Some other
   /\ undo_stack (fst (undo s)) = rest
   /\ redo_stack (fst (undo s)) = py_append (redo_stack s) cur
   /\ redo (fst (undo s))
      = (s, py.Returned (py.Success "Redo applied successfully" [])))
  /\ (py_pop (redo_stack s) = Some (other, rest) ->
      snd (redo s) = py.Returned (py.Success "Redo applied successfully" [])
      /\ Engine.table (fst (redo s)) = Some other
      /\ redo_stack (fst (redo s)) = rest
      /\ undo_stack (fst (redo s)) = py_append (undo_stack s) cur
      /\ undo (fst (redo s))
         = (s, py.Returned (py.Success "Undo applied successfully" []))).
Proof.
  intros Ht He Ho.
  destruct (has_table_dataset s cur Ht He) as [ds [Hds Hdata]].
  unfold Engine.table in Ht.
  split; intros Hpop.
  - unfold undo at 1 2 3 4. rewrite Hpop, Ht, He. cbn [negb fst snd].
    split; [reflexivity|].
    split; [unfold Engine.table; cbn [dataset_manager];
            apply (get_after_update _ _ ds Hds)|].
    split; [reflexivity|]. split; [reflexivity|].
    unfold undo, redo. rewrite Hpop, Ht, He.
    cbn [negb fst snd redo_stack undo_stack dataset_manager].
    rewrite py_pop_append, (get_after_update _ _ ds Hds), Ho.
    cbn [negb]. rewrite (update_twice _ ds _ _ Hds).
    rewrite (update_same _ ds cur Hds Hdata).
    rewrite <- (py_pop_inv _ _ _ Hpop). now rewrite state_eta.
  - unfold redo at 1 2 3 4. rewrite Hpop, Ht, He. cbn [negb fst snd].
    split; [reflexivity|].
    split; [unfold Engine.table; cbn [dataset_manager];
            apply (get_after_update _ _ ds Hds)|].
    split; [reflexivity|]. split; [reflexivity|].
    unfold undo, redo. rewrite Hpop, Ht, He.
    cbn [negb fst snd redo_stack undo_stack dataset_manager].
    rewrite py_pop_append, (get_after_update _ _ ds Hds), Ho.
    cbn [negb]. rewrite (update_twice _ ds _ _ Hds).
    rewrite (update_same _ ds cur Hds Hdata).
    rewrite <- (py_pop_inv _ _ _ Hpop). now rewrite state_eta.
Qed.


(** ** The stacks over a session *)

Lemma keeps_bind {A B : Type} (m : M A) (k : A -> M B) :
  keeps m -> (forall a, keeps (k a)) -> keeps (bind m k).
Proof.
  intros Hm Hk b. eapply triple_bind; [apply Hm|]. intros a. apply Hk.
Qed.

Lemma keeps_ret {A : Type} (a : A) : keeps (ret a).
Proof. intros b s H. exact H. Qed.

Lemma keeps_raise {A : Type} e : keeps (@raise A e).
Proof. intros b s H. exact H. Qed.

Lemma keeps_lift {A : Type} (o : py.Outcome A) : keeps (lift o).
Proof. intros b s H. unfold lift. destruct o; exact H. Qed.

Lemma keeps_get : keeps get_dataframe.
Proof. intros b s H. exact H. Qed.

Lemma keeps_frame : keeps frame.
Proof.
  intros b s H. unfold frame.
  destruct (DatasetManager.get_dataframe (dataset_manager s)); exact H.
Qed.

Lemma keeps_setitem c d vs : keeps (setitem c d vs).
Proof.
  intros b s H. unfold setitem, pres, Session.loaded in *. simpl.
  unfold DatasetManager.assign_in_place.
  destruct (DatasetManager.current_dataset (dataset_manager s)) as [ds|] eqn:E;
    [|now rewrite E].
  destruct (models.data ds); simpl; [exact H | now rewrite E].
Qed.

Lemma keeps_update df : keeps (update_dataframe df).
Proof.
  intros b s H. unfold update_dataframe, pres, Session.loaded in *. simpl.
  unfold DatasetManager.update_dataframe.
  destruct (DatasetManager.current_dataset (dataset_manager s)) eqn:E; simpl;
    [exact H | now rewrite E].
Qed.

Lemma keeps_eval (L : py.Lib) expression : keeps (eval L expression).
Proof.
  intros b s H. unfold eval.
  destruct (DatasetManager.get_dataframe (dataset_manager s)) as [df|];
    [|destruct (py.py_eval L expression pd.DataFrame_new); exact H].
  assert (Hl : pres b
                 {| dataset_manager :=
                      DatasetManager.assign_in_place (dataset_manager s)
                        (py.py_eval_frame L expression);
                    undo_stack := undo_stack s;
                    redo_stack := redo_stack s |}).
  { unfold pres, Session.loaded in *. simpl.
    unfold DatasetManager.assign_in_place.
    destruct (DatasetManager.current_dataset (dataset_manager s)) as [ds|]
      eqn:E; [|now rewrite E].
    destruct (models.data ds); simpl; [exact H | now rewrite E]. }
  destruct (py.py_eval L expression df); exact Hl.
Qed.

Lemma keeps_save : keeps _save_undo_state.
Proof.
  intros b s H. unfold _save_undo_state.
  destruct (DatasetManager.get_dataframe (dataset_manager s)) as [df|];
    [|exact H].
  destruct (negb (pd.empty df)); exact H.
Qed.

Lemma keeps_attempt what (body : M py.Response) :
  keeps body -> keeps (attempt what body).
Proof.
  intros Hb b s H. unfold attempt, try_except. specialize (Hb b s H).
  destruct (body s) as [s' [a|e]]; exact Hb.
Qed.

Lemma keeps_guard nn column (body : pd.Series -> M py.Response) :
  (forall ser, keeps (body ser)) -> keeps (guard_column nn column body).
Proof.
  intros Hb. unfold guard_column. apply keeps_bind; [apply keeps_get|].
  intros [d|]; [|apply keeps_ret].
  destruct (pd.empty d); [apply keeps_ret|].
  destruct (pd.getitem d column) as [ser|]; [|apply keeps_ret].
  destruct (nn && negb (numeric_kind (pd.dt ser))); [apply keeps_ret | apply Hb].
Qed.

Lemma keeps_poly_loop L column ds acc : keeps (poly_loop L column ds acc).
Proof.
  revert acc. induction ds as [|d ds IH]; intros acc; simpl;
    [apply keeps_ret|].
  apply keeps_bind; [apply keeps_frame|]. intros df.
  destruct (pd.getitem df column); [|apply keeps_raise].
  apply keeps_bind; [apply keeps_lift|]. intros p.
  apply keeps_bind; [apply keeps_setitem|]. intros _. apply IH.
Qed.

Lemma keeps_pca_loop result todo : keeps (pca_loop result todo).
Proof.
  induction todo as [|i todo IH]; simpl; [apply keeps_ret|].
  destruct (nth_error result i); [|apply keeps_raise].
  apply keeps_bind; [apply keeps_setitem|]. intros _. apply IH.
Qed.

Ltac keeps_step :=
  first
    [ apply keeps_ret | apply keeps_raise | apply keeps_lift
    | apply keeps_get | apply keeps_frame | apply keeps_setitem
    | apply keeps_update | apply keeps_save | apply keeps_eval
    | apply keeps_poly_loop
    | apply keeps_pca_loop
    | apply keeps_attempt
    | apply keeps_guard; intros ?
    | apply keeps_bind; [|intros ?] ].

Ltac keeps_all := cbv zeta; repeat keeps_step.

Lemma keeps_mutation (L : py.Lib) (m : Engine.Mutation) :
  keeps (Engine.run_mutation L m).
Proof.
  destruct m; simpl.
  - unfold standardize_column. keeps_all.
  - unfold minmax_scale_column. keeps_all.
  - unfold robust_scale_column. keeps_all.
  - unfold log_transform_column. keeps_all.
  - unfold sqrt_transform_column. keeps_all.
  - unfold bin_column. keeps_all.
  - unfold create_polynomial_features. keeps_all.
  - unfold one_hot_encode_column. keeps_all.
  - unfold label_encode_column. keeps_all.
  - unfold apply_pca. apply keeps_bind; [apply keeps_get|].
    intros [d|]; [|apply keeps_ret].
    destruct (pd.empty d); [apply keeps_ret|].
    destruct (length (pd.select_number d) <? 2); [apply keeps_ret|].
    destruct (Z.of_nat (length (pd.select_number d)) <? n_components)%Z;
      [apply keeps_ret|].
    keeps_all.
  - unfold create_custom_feature. apply keeps_bind; [apply keeps_get|].
    intros [d|]; [|apply keeps_ret].
    destruct (pd.empty d); [apply keeps_ret|].
    destruct (String.eqb feature_name "" || String.eqb expression "");
      [apply keeps_ret|].
    keeps_all.
Qed.

Lemma mutation_keeps_dataset (L : py.Lib) (m : Engine.Mutation) (s : State) :
  Session.loaded (fst (Engine.run_mutation L m s)) = Session.loaded s.
Proof.
  pose proof (keeps_mutation L m (Session.loaded s) s eq_refl) as H.
  destruct (Engine.run_mutation L m s) as [s' [a|e]]; exact H.
Qed.


Lemma py_pop_rest_ok {A : Type} (p : A -> bool) (l : list A) x rest :
  py_pop l = Some (x, rest) -> forallb p l = true ->
  p x = true /\ forallb p rest = true.
Proof.
  intros Hpop H. apply py_pop_inv in Hpop. subst l. unfold py_append in H.
  rewrite forallb_app in H. apply andb_true_iff in H as [H1 H2].
  simpl in H2. rewrite andb_true_r in H2. auto.
Qed.

Lemma forallb_append {A : Type} (p : A -> bool) (l : list A) x :
  forallb p l = true -> p x = true -> forallb p (py_append l x) = true.
Proof.
  intros H Hx. unfold py_append. rewrite forallb_app, H. simpl. now rewrite Hx.
Qed.

Lemma loaded_after_update s df u r :
  Session.loaded {| dataset_manager :=
                      fst (DatasetManager.update_dataframe (dataset_manager s) df);
                    undo_stack := u; redo_stack := r |}
  = Session.loaded s.
Proof.
  unfold Session.loaded, DatasetManager.update_dataframe. simpl.
  destruct (DatasetManager.current_dataset (dataset_manager s)) eqn:E; simpl;
    [reflexivity | now rewrite E].
Qed.

Lemma undo_keeps_inv s : session_inv s -> session_inv (fst (undo s)).
Proof.
  intros [Hok Hnone]. unfold undo.
  destruct (py_pop (undo_stack s)) as [[prev rest]|] eqn:Hpop;
    [|split; assumption].
  cbn [fst]. unfold Session.snapshots_ok in *.
  apply andb_true_iff in Hok as [Hu Hr].
  destruct (py_pop_rest_ok _ _ _ _ Hpop Hu) as [Hprev Hrest].
  split.
  - unfold Session.snapshots_ok. cbn [undo_stack redo_stack].
    rewrite Hrest. simpl.
    destruct (DatasetManager.get_dataframe (dataset_manager s)) as [cur|];
      [|exact Hr].
    destruct (negb (pd.empty cur)) eqn:E; [|exact Hr].
    apply forallb_append; assumption.
  - rewrite loaded_after_update. intros Hl.
    destruct (Hnone Hl) as [H1 _]. rewrite H1 in Hpop. discriminate.
Qed.

Lemma redo_keeps_inv s : session_inv s -> session_inv (fst (redo s)).
Proof.
  intros [Hok Hnone]. unfold redo.
  destruct (py_pop (redo_stack s)) as [[next rest]|] eqn:Hpop;
    [|split; assumption].
  cbn [fst]. unfold Session.snapshots_ok in *.
  apply andb_true_iff in Hok as [Hu Hr].
  destruct (py_pop_rest_ok _ _ _ _ Hpop Hr) as [Hnext Hrest].
  split.
  - unfold Session.snapshots_ok. cbn [undo_stack redo_stack].
    rewrite Hrest, andb_true_r.
    destruct (DatasetManager.get_dataframe (dataset_manager s)) as [cur|];
      [|exact Hu].
    destruct (negb (pd.empty cur)) eqn:E; [|exact Hu].
    apply forallb_append; assumption.
  - rewrite loaded_after_update. intros Hl.
    destruct (Hnone Hl) as [_ H1]. rewrite H1 in Hpop. discriminate.
Qed.

Lemma mutation_keeps_inv L m s :
  session_inv s -> session_inv (fst (Engine.run_mutation L m s)).
Proof.
  intros [Hok Hnone].
  pose proof (mutation_keeps_dataset L m s) as Hl.
  destruct (mutation_stacks L m s) as [resp [_ H]].
  destruct (Engine.passes_guards m (Engine.table s)).
  - destruct H as [df0 [Ht [Hne [Hu Hr]]]].
    destruct (has_table_dataset s df0 Ht Hne) as [ds [Hds _]].
    split.
    + unfold Session.snapshots_ok in *. rewrite Hu, Hr. simpl.
      rewrite andb_true_r. apply andb_true_iff in Hok as [Hok _].
      apply forallb_append; [exact Hok | now rewrite Hne].
    + rewrite Hl. unfold Session.loaded. rewrite Hds. discriminate.
  - destruct H as [_ ->]. split; assumption.
Qed.

Lemma cleaning_keeps_inv L c s :
  session_inv s ->
  session_inv (fst (Engine.on_manager (Engine.run_cleaning L c) s)).
Proof.
  intros [Hok Hnone]. unfold Engine.on_manager.
  destruct (cleaning_same_origin L c (dataset_manager s)) as [_ Hp].
  destruct (Engine.run_cleaning L c (dataset_manager s)) as [dm o].
  cbn [fst] in *. split; [exact Hok|].
  unfold Session.loaded. cbn [dataset_manager undo_stack redo_stack].
  intros Hl. apply Hnone. unfold Session.loaded.
  destruct (DatasetManager.current_dataset dm);
    destruct (DatasetManager.current_dataset (dataset_manager s));
    simpl in Hp; congruence.
Qed.

Lemma bind_fst {A B : Type} (m : M A) (f : A -> B) s :
  fst ((r <- m ;; ret (f r)) s) = fst (m s).
Proof. unfold bind, ret. destruct (m s) as [s' [a|e]]; reflexivity. Qed.

Lemma step_keeps_inv L st s :
  session_inv s -> session_inv (Session.step L s st).
Proof.
  intros H. destruct st as [op | ds]; simpl.
  - destruct op as [c| |m| |]; simpl.
    + rewrite bind_fst. apply cleaning_keeps_inv. exact H.
    + exact H.
    + rewrite bind_fst. apply mutation_keeps_inv. exact H.
    + rewrite bind_fst. apply undo_keeps_inv. exact H.
    + rewrite bind_fst. apply redo_keeps_inv. exact H.
  - destruct H as [Hok _]. split; [exact Hok|].
    unfold Session.loaded, Session.set_dataset. simpl. discriminate.
Qed.

Lemma run_keeps_inv L steps s :
  session_inv s -> session_inv (Session.run L steps s).
Proof.
  unfold Session.run. revert s.
  induction steps as [|st steps IH]; intros s H; simpl; [exact H|].
  apply IH. apply step_keeps_inv. exact H.
Qed.

(** X18: over any sequence of operations of the two engines and uploads,
    from a new feature engine over any manager, every snapshot on the undo
    and the redo stack has a row and a column; so an [undo] or [redo] that
    succeeds installs a table that is not empty. *)
Theorem snapshots_are_never_empty
  (L : py.Lib) (steps : list Session.Step) (dm : DatasetManager.t) :
  let s := Session.run L steps (init dm) in
  Session.snapshots_ok s = true
  /\ (forall resp,
        snd (undo s) = py.Returned resp -> py.success resp = true ->
        exists df, Engine.table (fst (undo s)) = Some df
                   /\ pd.empty df = false)
  /\ (forall resp,
        snd (redo s) = py.Returned resp -> py.success resp = true ->
        exists df, Engine.table (fst (redo s)) = Some df
                   /\ pd.empty df = false).
Proof.
  intros s.
  assert (Hinv : session_inv s).
  { apply run_keeps_inv. split; [reflexivity | auto]. }
  destruct Hinv as [Hok Hnone]. split; [exact Hok|].
  unfold Session.snapshots_ok in Hok. apply andb_true_iff in Hok as [Hu Hr].
  assert (Hload : forall st, st <> [] ->
            (undo_stack s = st \/ redo_stack s = st) ->
            exists ds, DatasetManager.current_dataset (dataset_manager s)
                       = Some ds).
  { intros st Hst Hcase. unfold Session.loaded in Hnone.
    destruct (DatasetManager.current_dataset (dataset_manager s)) as [ds|];
      [eauto|].
    destruct (Hnone eq_refl) as [H1 H2].
    destruct Hcase as [<- | <-]; congruence. }
  split; intros resp Hresp Hsucc.
  - unfold undo in *.
    destruct (py_pop (undo_stack s)) as [[prev rest]|] eqn:Hpop;
      [|simpl in Hresp; inversion Hresp; subst; discriminate].
    destruct (py_pop_rest_ok _ _ _ _ Hpop Hu) as [Hprev _].
    destruct (Hload (undo_stack s)) as [ds Hds]; [|left; reflexivity|].
    { intros Hnil. rewrite Hnil in Hpop. discriminate. }
    exists prev. cbn [fst]. unfold Engine.table. cbn [dataset_manager].
    split; [apply (get_after_update _ _ ds Hds)|].
    now apply negb_true_iff in Hprev.
  - unfold redo in *.
    destruct (py_pop (redo_stack s)) as [[next rest]|] eqn:Hpop;
      [|simpl in Hresp; inversion Hresp; subst; discriminate].
    destruct (py_pop_rest_ok _ _ _ _ Hpop Hr) as [Hnext _].
    destruct (Hload (redo_stack s)) as [ds Hds]; [|right; reflexivity|].
    { intros Hnil. rewrite Hnil in Hpop. discriminate. }
    exists next. cbn [fst]. unfold Engine.table. cbn [dataset_manager].
    split; [apply (get_after_update _ _ ds Hds)|].
    now apply negb_true_iff in Hnext.
Qed.

(** ** An upload keeps the history *)

(** X19: an upload replaces the dataset and leaves both stacks as they
    are: an [undo] after it succeeds and installs the snapshot taken of the
    previous dataset as the table of the new one, under the new path. *)
Theorem undo_crosses_an_upload
  (s : State) (dataset : models.Dataset) (prev : pd.DataFrame)
  (rest : list pd.DataFrame) :
  py_pop (undo_stack s) = Some (prev, rest) ->
  let s' := Session.set_dataset dataset s in
  undo_stack s' = undo_stack s
  /\ redo_stack s' = redo_stack s
  /\ Engine.table s' = models.data dataset
  /\ snd (undo s') = py.Returned (py.Success "Undo applied successfully" [])
  /\ DatasetManager.current_dataset (dataset_manager (fst (undo s')))
     = Some {| models.data := Some prev;
               models.file_path := models.file_path dataset |}.
Proof.
  intros Hpop s'. subst s'. unfold undo, Session.set_dataset.
  cbn [undo_stack redo_stack dataset_manager]. rewrite Hpop.
  repeat split.
Qed.


(** ** Running a guarded operation *)

Lemma guarded_run nn column what (body : pd.Series -> M py.Response) s df ser :
  Engine.table s = Some df -> pd.empty df = false ->
  pd.getitem df column = Some ser ->
  nn && negb (numeric_kind (pd.dt ser)) = false ->
  guard_column nn column (fun s0 => attempt what (_save_undo_state ;;; body s0)) s
  = match body ser (saved s df) with
    | (s', py.Returned a) => (s', py.Returned a)
    | (s', py.Raised e) =>
        (s', py.Returned (py.Failure (what ++ " failed: " ++ e)))
    end.
Proof.
  intros Ht He Hg Hk. unfold guard_column. rewrite bind_get_dataframe.
  unfold Engine.table in Ht. rewrite Ht, He, Hg, Hk.
  rewrite attempt_run, (save_run s df Ht He). reflexivity.
Qed.

Lemma at_saved s d :
  Engine.table s = Some d -> pd.empty d = false ->
  at_table (py_append (undo_stack s) d) [] d (saved s d).
Proof. apply at_table_saved. Qed.

(** [df[c] = values], the write-back and the answer. *)
Lemma assign_store_run u r d c dt vs (resp : py.Response) s1 :
  at_table u r d s1 ->
  exists s2,
    (setitem c dt vs ;;;
     (df0 <- frame ;; update_dataframe df0 ;;; ret resp)) s1
    = (s2, py.Returned resp)
    /\ at_table u r (pd.setitem d c dt vs) s2.
Proof.
  intros H1.
  assert (Hb : triple (at_table u r d)
                 (setitem c dt vs ;;;
                  (df0 <- frame ;; update_dataframe df0 ;;; ret resp))
                 (fun a s' => at_table u r (pd.setitem d c dt vs) s'
                              /\ a = resp)
                 (fun _ => False)).
  { eapply triple_bind; [apply exact_setitem|]. intros u0.
    apply exact_write_back. apply exact_ret. }
  specialize (Hb s1 H1).
  destruct ((setitem c dt vs ;;;
             (df0 <- frame ;; update_dataframe df0 ;;; ret resp)) s1)
    as [s2 [a|e]]; [|contradiction].
  destruct Hb as [Hb ->]. exists s2. split; [reflexivity | exact Hb].
Qed.

(** What a failed library call leaves: the snapshot and the table. *)
Lemma saved_table s d :
  Engine.table s = Some d -> Engine.table (saved s d) = Some d.
Proof. intros H. exact H. Qed.

(** ** [standardize_column] writes in place *)

(** X20: [standardize_column] on a numeric column of a table with unique
    labels that is not empty pushes the snapshot and empties the redo
    stack.  When the scaler returns, the column itself is overwritten with
    the scaled values as float64, the labels and the other columns as they
    were; when it raises, the answer is the failure
    ["Standardization failed: ..."] and the table is not changed. *)
Theorem standardize_overwrites_in_place
  (L : py.Lib) (col : string) (s : State) (df : pd.DataFrame)
  (ser : pd.Series) :
  NoDup (pd.columns df) ->
  Engine.table s = Some df ->
  pd.empty df = false ->
  pd.getitem df col = Some ser ->
  numeric_kind (pd.dt ser) = true ->
  let run := standardize_column L col s in
  undo_stack (fst run) = py_append (undo_stack s) df
  /\ redo_stack (fst run) = []
  /\ match py.StandardScaler_fit_transform L ser with
     | py.Returned vs =>
         snd run
         = py.Returned
             (py.Success ("Successfully standardized column '" ++ col ++ "'")
                [])
         /\ Engine.table (fst run) = Some (pd.setitem df col pd.float64 vs)
         /\ pd.columns (pd.setitem df col pd.float64 vs) = pd.columns df
         /\ pd.getitem (pd.setitem df col pd.float64 vs) col
            = Some {| pd.name := col; pd.dt := pd.float64; pd.values := vs |}
         /\ (forall c', c' <> col ->
               pd.getitem (pd.setitem df col pd.float64 vs) c'
               = pd.getitem df c')
     | py.Raised e =>
         snd run
         = py.Returned (py.Failure ("Standardization failed: " ++ e))
         /\ Engine.table (fst run) = Some df
     end.
Proof.
  intros _.
  intros Ht He Hg Hk run. subst run. unfold standardize_column.
  rewrite (guarded_run true col _ _ s df ser Ht He Hg)
    by (rewrite Hk; reflexivity).
  rewrite bind_lift.
  destruct (py.StandardScaler_fit_transform L ser) as [vs|e].
  - destruct (assign_store_run _ _ df col pd.float64 vs
                (py.Success ("Successfully standardized column '" ++ col ++ "'")
                   [])
                (saved s df) (at_saved s df Ht He))
      as [s2 [Hrun [[Hu Hr] [Ht2 _]]]].
    rewrite Hrun. cbn [fst snd].
    pose proof (getitem_present df col ser Hg) as Hp.
    repeat split; auto.
    + now apply columns_setitem_present.
    + now apply getitem_setitem_same.
    + intros c' Hc. now apply getitem_setitem_other.
  - cbn [fst snd]. repeat split. exact Ht.
Qed.


(** ** One label per operation *)

Lemma guarded_success nn column what (body : pd.Series -> M py.Response)
  s df resp :
  Engine.table s = Some df ->
  snd (guard_column nn column
         (fun s0 => attempt what (_save_undo_state ;;; body s0)) s)
  = py.Returned resp ->
  py.success resp = true ->
  exists ser,
    pd.empty df = false
    /\ pd.getitem df column = Some ser
    /\ nn && negb (numeric_kind (pd.dt ser)) = false
    /\ body ser (saved s df)
       = (fst (guard_column nn column
                 (fun s0 => attempt what (_save_undo_state ;;; body s0)) s),
          py.Returned resp).
Proof.
  intros Ht Hr Hok.
  destruct (pd.empty df) eqn:He.
  { unfold guard_column in Hr. rewrite bind_get_dataframe in Hr.
    unfold Engine.table in Ht. rewrite Ht, He in Hr.
    inversion Hr; subst. discriminate. }
  destruct (pd.getitem df column) as [ser|] eqn:Hg.
  2:{ unfold guard_column in Hr. rewrite bind_get_dataframe in Hr.
      unfold Engine.table in Ht. rewrite Ht, He, Hg in Hr.
      inversion Hr; subst. discriminate. }
  destruct (nn && negb (numeric_kind (pd.dt ser))) eqn:Hk.
  { unfold guard_column in Hr. rewrite bind_get_dataframe in Hr.
    unfold Engine.table in Ht. rewrite Ht, He, Hg, Hk in Hr.
    inversion Hr; subst. discriminate. }
  exists ser. repeat split; auto.
  rewrite (guarded_run nn column what body s df ser Ht He Hg Hk) in Hr |- *.
  destruct (body ser (saved s df)) as [s' [a|e]]; cbn [fst snd] in *.
  - now inversion Hr.
  - inversion Hr; subst. discriminate.
Qed.

Lemma setitem_effect df lbl dt vs :
  pd.index (pd.setitem df lbl dt vs) = pd.index df
  /\ (forall c', c' <> lbl ->
        pd.getitem (pd.setitem df lbl dt vs) c' = pd.getitem df c')
  /\ (if str_in lbl (pd.columns df)
      then pd.columns (pd.setitem df lbl dt vs) = pd.columns df
      else pd.cols (pd.setitem df lbl dt vs)
           = (pd.cols df
              ++ [{| pd.name := lbl; pd.dt := dt; pd.values := vs |}])%list).
Proof.
  split; [apply index_setitem|].
  split; [intros c' Hc; now apply getitem_setitem_other|].
  destruct (str_in lbl (pd.columns df)) eqn:E.
  - now apply columns_setitem_present.
  - unfold pd.setitem. now rewrite E.
Qed.

Lemma bind_frame {A : Type} (k : pd.DataFrame -> M A) s d :
  Engine.table s = Some d -> (df <- frame ;; k df) s = k d s.
Proof.
  intros Ht. unfold bind, frame. unfold Engine.table in Ht. now rewrite Ht.
Qed.

Ltac assigned Ht He :=
  match goal with
  | Hb : (setitem ?c ?dt ?vs ;;;
          (df0 <- frame ;; update_dataframe df0 ;;; ret ?R)) (saved ?s ?df)
         = (_, py.Returned _) |- _ =>
      let s2 := fresh "s2" in
      let Hrun := fresh "Hrun" in
      let Ht2 := fresh "Ht2" in
      destruct (assign_store_run _ _ df c dt vs R (saved s df)
                  (at_saved s df Ht He)) as [s2 [Hrun [_ [Ht2 _]]]];
      rewrite Hrun in Hb; inversion Hb; subst;
      exists dt, vs; split; [exact Ht2 | apply setitem_effect]
  end.

Ltac lifted Hb :=
  rewrite bind_lift in Hb;
  match type of Hb with
  | match ?o with py.Returned _ => _ | py.Raised _ => _ end = _ =>
      destruct o; [|discriminate Hb]
  end.

Lemma bind_eval {A : Type} (L : py.Lib) expression
  (k : py.PyObject L -> M A) s d :
  Engine.table s = Some d -> pd.empty d = false ->
  py.py_eval_frame L expression d = d ->
  (x <- eval L expression ;; k x) s
  = match py.py_eval L expression d with
    | py.Returned a => k a s
    | py.Raised e => (s, py.Raised e)
    end.
Proof.
  intros Ht He Hd. unfold bind.
  rewrite (eval_leaves_run L expression s d Ht He Hd).
  destruct (py.py_eval L expression d); reflexivity.
Qed.

(** X21: on a table with unique labels, a scaling, transform, binning or
    label-encoding operation that succeeds, and a custom-feature operation
    that succeeds with an expression that leaves the table it is handed as
    it finds it, assigns one label: the stored table is the old one with
    that label set, the index and every other column as they were; the
    column is overwritten where it stands when the table has the label and
    is appended as the last column otherwise. *)
Theorem one_operation_assigns_one_label
  (L : py.Lib) (m : Engine.Mutation) (lbl : string) (s : State)
  (df : pd.DataFrame) (resp : py.Response) :
  NoDup (pd.columns df) ->
  Engine.leaves_table L m (Some df) ->
  assigned_label m = Some lbl ->
  Engine.table s = Some df ->
  snd (Engine.run_mutation L m s) = py.Returned resp ->
  py.success resp = true ->
  exists dt vs,
    Engine.table (fst (Engine.run_mutation L m s))
    = Some (pd.setitem df lbl dt vs)
    /\ pd.index (pd.setitem df lbl dt vs) = pd.index df
    /\ (forall c', c' <> lbl ->
          pd.getitem (pd.setitem df lbl dt vs) c' = pd.getitem df c')
    /\ (if str_in lbl (pd.columns df)
        then pd.columns (pd.setitem df lbl dt vs) = pd.columns df
        else pd.cols (pd.setitem df lbl dt vs)
             = (pd.cols df
                ++ [{| pd.name := lbl; pd.dt := dt; pd.values := vs |}])%list).
Proof.
  intros _ Hleaves.
  intros Hl Ht Hr Hok.
  destruct m; simpl in Hl; inversion Hl; subst lbl; clear Hl;
    simpl in Hr |- *.
  - unfold standardize_column in *.
    destruct (guarded_success _ _ _ _ s df resp Ht Hr Hok)
      as [ser [He [Hg [Hk Hb]]]].
    lifted Hb. assigned Ht He.
  - unfold minmax_scale_column in *.
    destruct (guarded_success _ _ _ _ s df resp Ht Hr Hok)
      as [ser [He [Hg [Hk Hb]]]].
    cbv zeta in Hb. lifted Hb. assigned Ht He.
  - unfold robust_scale_column in *.
    destruct (guarded_success _ _ _ _ s df resp Ht Hr Hok)
      as [ser [He [Hg [Hk Hb]]]].
    cbv zeta in Hb. lifted Hb. assigned Ht He.
  - unfold log_transform_column in *.
    destruct (guarded_success _ _ _ _ s df resp Ht Hr Hok)
      as [ser [He [Hg [Hk Hb]]]].
    cbv zeta in Hb. assigned Ht He.
  - unfold sqrt_transform_column in *.
    destruct (guarded_success _ _ _ _ s df resp Ht Hr Hok)
      as [ser [He [Hg [Hk Hb]]]].
    cbv zeta in Hb. assigned Ht He.
  - unfold bin_column in *.
    destruct (guarded_success _ _ _ _ s df resp Ht Hr Hok)
      as [ser [He [Hg [Hk Hb]]]].
    cbv zeta in Hb. lifted Hb. assigned Ht He.
  - unfold label_encode_column in *.
    destruct (guarded_success _ _ _ _ s df resp Ht Hr Hok)
      as [ser [He [Hg [Hk Hb]]]].
    cbv zeta in Hb. lifted Hb. assigned Ht He.
  - unfold create_custom_feature in *. rewrite bind_get_dataframe in *.
    pose proof Ht as Ht0. unfold Engine.table in Ht0. rewrite Ht0 in *.
    destruct (pd.empty df) eqn:He;
      [simpl in Hr; inversion Hr; subst; discriminate|].
    destruct (String.eqb feature_name "" || String.eqb expression "");
      [simpl in Hr; inversion Hr; subst; discriminate|].
    rewrite attempt_run, (save_run s df Ht He) in *.
    fold (saved s df) in *. cbn [Engine.leaves_table] in Hleaves.
    rewrite (bind_eval L expression _ (saved s df) df (saved_table s df Ht)
               He Hleaves) in *.
    destruct (py.py_eval L expression df) as [obj|e];
      [|simpl in Hr; inversion Hr; subst; discriminate].
    rewrite (bind_frame _ (saved s df) df (saved_table s df Ht)) in *.
    rewrite bind_lift in *.
    destruct (py.as_column L df obj) as [column|e];
      [|simpl in Hr; inversion Hr; subst; discriminate].
    destruct (assign_store_run _ _ df feature_name (fst column) (snd column)
                (py.Success ("Successfully created custom feature '"
                             ++ feature_name ++ "'") [])
                (saved s df) (at_saved s df Ht He))
      as [s2 [Hrun [_ [Ht2 _]]]].
    rewrite Hrun. cbn [fst].
    exists (fst column), (snd column).
    split; [exact Ht2 | apply setitem_effect].
Qed.

Lemma one_operation_assigns_witness :
  assigned_label (Engine.logTransform "x") = Some "x_log"
  /\ Engine.table (Engine.loaded log_table) = Some log_table
  /\ exists dt vs,
       Engine.table
         (fst (Engine.run_mutation no_lib (Engine.logTransform "x")
                 (Engine.loaded log_table)))
       = Some (pd.setitem log_table "x_log" dt vs).
Proof.
  split; [reflexivity|]. split; [reflexivity|].
  destruct (one_operation_assigns_one_label no_lib (Engine.logTransform "x")
              "x_log" (Engine.loaded log_table) log_table _
              log_labels I eq_refl eq_refl eq_refl eq_refl)
    as [dt [vs [H _]]].
  exists dt, vs. exact H.
Defined.


(** ** One-hot encoding *)

Lemma store_run u r d d' (resp : py.Response) s1 :
  at_table u r d s1 -> pd.empty d' = false ->
  exists s2,
    (update_dataframe d' ;;; ret resp) s1 = (s2, py.Returned resp)
    /\ at_table u r d' s2.
Proof.
  intros [[Hu Hr] [Ht He]] He'.
  destruct (has_table_dataset s1 d Ht He) as [ds [Hds _]].
  eexists. split; [reflexivity|].
  split; [split; assumption|]. split; [|exact He'].
  unfold Engine.table. cbn [dataset_manager].
  apply (get_after_update _ _ ds Hds).
Qed.

Lemma find_app_first (p : pd.Series -> bool) l l' x :
  find p l = Some x -> find p (l ++ l')%list = Some x.
Proof.
  induction l as [|y l IH]; simpl; [discriminate|].
  destruct (p y); [auto | exact IH].
Qed.

(** X22: [one_hot_encode_column] on a column of a table with unique labels
    that is not empty pushes the snapshot and empties the redo stack.  When
    the encoder returns, its columns are appended after the columns of the
    table, which all stay, the encoded one included, and the message gives
    their number; when it raises, the answer is a failure and the table is
    not changed. *)
Theorem one_hot_keeps_the_column
  (L : py.Lib) (col : string) (s : State) (df : pd.DataFrame)
  (ser : pd.Series) :
  NoDup (pd.columns df) ->
  Engine.table s = Some df ->
  pd.empty df = false ->
  pd.getitem df col = Some ser ->
  let run := one_hot_encode_column L col s in
  undo_stack (fst run) = py_append (undo_stack s) df
  /\ redo_stack (fst run) = []
  /\ match py.get_dummies L ser col with
     | py.Returned dummies =>
         snd run
         = py.Returned
             (py.Success
                ("Successfully one-hot encoded column '" ++ col ++ "' into "
                 ++ string_of_nat (length dummies) ++ " columns") [])
         /\ Engine.table (fst run) = Some (pd.concat_columns df dummies)
         /\ pd.index (pd.concat_columns df dummies) = pd.index df
         /\ pd.cols (pd.concat_columns df dummies)
            = (pd.cols df ++ dummies)%list
         /\ (forall c s0, pd.getitem df c = Some s0 ->
               pd.getitem (pd.concat_columns df dummies) c = Some s0)
     | py.Raised e =>
         snd run
         = py.Returned (py.Failure ("One-hot encoding failed: " ++ e))
         /\ Engine.table (fst run) = Some df
     end.
Proof.
  intros _.
  intros Ht He Hg run. subst run. unfold one_hot_encode_column.
  rewrite (guarded_run false col _ _ s df ser Ht He Hg) by reflexivity.
  rewrite bind_lift.
  destruct (py.get_dummies L ser col) as [dummies|e].
  - rewrite (bind_frame _ (saved s df) df (saved_table s df Ht)). cbv zeta.
    destruct (store_run _ _ df (pd.concat_columns df dummies)
                (py.Success
                   ("Successfully one-hot encoded column '" ++ col ++ "' into "
                    ++ string_of_nat (length dummies) ++ " columns") [])
                (saved s df) (at_saved s df Ht He)
                (concat_not_empty df dummies He))
      as [s2 [Hrun [[Hu Hr] [Ht2 _]]]].
    rewrite Hrun. cbn [fst snd]. repeat split; auto.
    intros c s0 H0. unfold pd.getitem, pd.concat_columns in *. simpl.
    now apply find_app_first.
  - cbn [fst snd]. repeat split. exact Ht.
Qed.

Lemma one_hot_keeps_the_column_witness :
  Engine.table (Engine.loaded people_table) = Some people_table
  /\ pd.empty people_table = false
  /\ undo_stack (fst (one_hot_encode_column no_lib "Name"
                        (Engine.loaded people_table)))
     = [people_table].
Proof.
  split; [reflexivity|]. split; [reflexivity|].
  apply (one_hot_keeps_the_column no_lib "Name" (Engine.loaded people_table)
           people_table
           {| pd.name := "Name"; pd.dt := pd.object_;
              pd.values := [pd.VStr "Raju"; pd.VStr "Ajay"; pd.VStr "Raju"] |}
           people_labels eq_refl eq_refl eq_refl).
Defined.

(** ** Polynomial features *)

Lemma append_not_self (a b : string) : b <> "" -> (a ++ b)%string <> a.
Proof.
  intros Hb. induction a as [|c a IH]; simpl; [exact Hb|].
  intros H. inversion H. auto.
Qed.

Lemma poly_label_other column d : poly_label column d <> column.
Proof. unfold poly_label. apply append_not_self. discriminate. Qed.

Lemma py_range_small a b : (b <= a)%Z -> py_range a b = [].
Proof.
  intros H. unfold py_range.
  replace (Z.to_nat (b - a)) with 0 by lia. reflexivity.
Qed.

Lemma poly_loop_cons (L : py.Lib) column k ds acc :
  poly_loop L column (k :: ds) acc
  = (df <- frame ;;
     match pd.getitem df column with
     | None => raise ("'" ++ column ++ "'")
     | Some s =>
         p <- lift (py.series_pow L s k) ;;
         setitem (poly_label column k) (fst p) (snd p) ;;;
         poly_loop L column ds (py_append acc (poly_label column k))
     end).
Proof. reflexivity. Qed.

Lemma poly_loop_run (L : py.Lib) column ser u r :
  forall ds acc d s1,
    at_table u r d s1 -> pd.getitem d column = Some ser ->
    match poly_loop L column ds acc s1 with
    | (s2, py.Returned names) =>
        exists powers,
          map fst powers = ds
          /\ Forall (fun dp => py.series_pow L ser (fst dp)
                               = py.Returned (snd dp)) powers
          /\ names = (acc ++ map (poly_label column) ds)%list
          /\ at_table u r (assign_powers column powers d) s2
    | (s2, py.Raised e) => stacks u r s2
    end.
Proof.
  induction ds as [|k ds IH]; intros acc d s1 Hat Hg.
  - exists []. split; [reflexivity|]. split; [constructor|].
    split; [simpl; now rewrite List.app_nil_r | exact Hat].
  - rewrite poly_loop_cons.
    rewrite (bind_frame _ s1 d (proj1 (proj2 Hat))). rewrite Hg, bind_lift.
    destruct (py.series_pow L ser k) as [p|e] eqn:Hp;
      [|apply Hat].
    pose proof (exact_setitem u r d (poly_label column k)
                  (fst p) (snd p) (fun _ => False) s1 Hat) as Hset.
    unfold bind at 1.
    destruct (setitem (poly_label column k) (fst p) (snd p) s1)
      as [s1' [[]|e]]; [|contradiction].
    assert (Hg' : pd.getitem
                    (pd.setitem d (poly_label column k) (fst p) (snd p))
                    column = Some ser).
    { rewrite getitem_setitem_other; [exact Hg|].
      intros H. symmetry in H. apply (poly_label_other column k H). }
    specialize (IH (py_append acc (poly_label column k)) _ s1' Hset Hg').
    destruct (poly_loop L column ds (py_append acc (poly_label column k)) s1')
      as [s2 [names|e]]; [|exact IH].
    destruct IH as [powers [Hds [Hall [Hn Hat2]]]].
    exists ((k, p) :: powers). split; [simpl; now rewrite Hds|].
    split; [constructor; [exact Hp | exact Hall]|].
    split; [|exact Hat2].
    rewrite Hn. unfold py_append. rewrite <- List.app_assoc. reflexivity.
Qed.

Lemma bind_run {A B : Type} (m : M A) (k : A -> M B) s :
  (x <- m ;; k x) s
  = match m s with
    | (s', py.Returned a) => k a s'
    | (s', py.Raised e) => (s', py.Raised e)
    end.
Proof. reflexivity. Qed.

(** X23: [create_polynomial_features] on a numeric column of a table with
    unique labels that is not empty pushes the snapshot and empties the
    redo stack.  A success has assigned the powers 2 to [degree], one
    column [<column>_poly<d>] each, in this order, and names them in its
    message.  With a degree below 2 it succeeds as well: no column is
    added, the message names none, and the snapshot is pushed all the
    same. *)
Theorem polynomial_features_effect
  (L : py.Lib) (col : string) (degree : Z) (s : State) (df : pd.DataFrame)
  (ser : pd.Series) :
  NoDup (pd.columns df) ->
  Engine.table s = Some df ->
  pd.empty df = false ->
  pd.getitem df col = Some ser ->
  numeric_kind (pd.dt ser) = true ->
  let run := create_polynomial_features L col degree s in
  undo_stack (fst run) = py_append (undo_stack s) df
  /\ redo_stack (fst run) = []
  /\ (forall resp,
        snd run = py.Returned resp -> py.success resp = true ->
        exists powers,
          map fst powers = py_range 2 (degree + 1)
          /\ Forall (fun dp => py.series_pow L ser (fst dp)
                               = py.Returned (snd dp)) powers
          /\ Engine.table (fst run) = Some (assign_powers col powers df)
          /\ py.message resp
             = "Successfully created polynomial features: "
               ++ join ", " (map (poly_label col) (py_range 2 (degree + 1))))
  /\ ((degree < 2)%Z ->
      run = (saved s df,
             py.Returned
               (py.Success "Successfully created polynomial features: " []))
      /\ Engine.table (saved s df) = Some df).
Proof.
  intros _.
  intros Ht He Hg Hk run. subst run. unfold create_polynomial_features.
  rewrite (guarded_run true col _ _ s df ser Ht He Hg)
    by (rewrite Hk; reflexivity).
  pose proof (poly_loop_run L col ser _ _ (py_range 2 (degree + 1)) []
                df (saved s df) (at_saved s df Ht He) Hg) as Hloop.
  assert (Hsmall : (degree < 2)%Z -> py_range 2 (degree + 1) = [])
    by (intros Hd; apply py_range_small; lia).
  rewrite bind_run.
  destruct (poly_loop L col (py_range 2 (degree + 1)) [] (saved s df))
    as [s2 [names|e]] eqn:Hpl.
  - destruct Hloop as [powers [Hds [Hall [Hn Hat]]]].
    pose proof Hat as [_ [Ht2 He2]].
    rewrite (bind_frame _ s2 _ Ht2).
    destruct (store_run _ _ _ (assign_powers col powers df)
                (py.Success ("Successfully created polynomial features: "
                             ++ join ", " names) []) s2 Hat He2)
      as [s3 [Hrun [[Hu3 Hr3] [Ht3 _]]]].
    rewrite Hrun. cbn [fst snd].
    split; [exact Hu3|]. split; [exact Hr3|]. split.
    + intros resp Hr _. inversion Hr; subst resp.
      exists powers. repeat split; auto. simpl. now rewrite Hn.
    + intros Hd. rewrite (Hsmall Hd) in *. simpl in Hpl.
      unfold ret in Hpl. inversion Hpl; subst s2 names.
      split; [|exact Ht].
      destruct powers; [|discriminate]. simpl in *.
      unfold bind, ret, update_dataframe in Hrun. inversion Hrun.
      f_equal. unfold saved. cbn [dataset_manager undo_stack redo_stack].
      destruct (has_table_dataset s df Ht He) as [ds [Hds' Hdata]].
      now rewrite (update_same _ ds df Hds' Hdata).
  - cbn [fst snd]. destruct Hloop as [Hu Hr].
    split; [exact Hu|]. split; [exact Hr|]. split.
    + intros resp H Hok. inversion H; subst. discriminate.
    + intros Hd. rewrite (Hsmall Hd) in Hpl. simpl in Hpl. discriminate.
Qed.

Lemma polynomial_features_witness :
  Engine.table (Engine.loaded log_table) = Some log_table
  /\ pd.empty log_table = false
  /\ create_polynomial_features no_lib "x" 1 (Engine.loaded log_table)
     = (saved (Engine.loaded log_table) log_table,
        py.Returned
          (py.Success "Successfully created polynomial features: " [])).
Proof.
  split; [reflexivity|]. split; [reflexivity|].
  apply (polynomial_features_effect no_lib "x" 1 (Engine.loaded log_table)
           log_table
           {| pd.name := "x"; pd.dt := pd.int64;
              pd.values := [pd.VInt (-5); pd.VInt 0; pd.VInt 10] |}
           log_labels eq_refl eq_refl eq_refl eq_refl).
  reflexivity.
Defined.


(** ** The square root transform *)

(** The minimum of a column of finite floats is one of them and lies
    below the others. *)
Lemma min_of_floats vs :
  forallb (wf.conforms pd.float64) vs = true ->
  forallb wf.finite vs = true ->
  forall acc,
    (acc = pd.NA \/ exists a, acc = pd.VFloat (pd.Fin a)) ->
    let r := fold_left (fun acc c =>
                          if pd.isna c then acc
                          else if pd.isna acc then c
                          else if pd.cell_leb acc c then acc else c) vs acc in
    r = pd.NA
    \/ exists m, r = pd.VFloat (pd.Fin m)
                 /\ (forall a, acc = pd.VFloat (pd.Fin a) -> (m <= a)%Q)
                 /\ (forall q, In (pd.VFloat (pd.Fin q)) vs -> (m <= q)%Q).
Proof.
  induction vs as [|c vs IH]; intros Hc Hf acc Hacc; simpl.
  - destruct Hacc as [-> | [a ->]]; [left; reflexivity | right].
    exists a. split; [reflexivity|]. split.
    + intros a' H. inversion H. apply Qle_refl.
    + intros q [].
  - simpl in Hc, Hf. apply andb_true_iff in Hc as [Hc1 Hc2].
    apply andb_true_iff in Hf as [Hf1 Hf2].
    destruct c as [| b | z | [q| |] | t | t]; try discriminate; simpl.
    + (* NA *)
      destruct (IH Hc2 Hf2 acc Hacc) as [H | [m [Hr [Ha Hq]]]];
        [left; exact H | right].
      exists m. split; [exact Hr|]. split; [exact Ha|].
      intros q [H | H]; [discriminate | auto].
    + (* a finite float *)
      destruct Hacc as [-> | [a ->]]; simpl.
      * destruct (IH Hc2 Hf2 (pd.VFloat (pd.Fin q)) (or_intror (ex_intro _ q eq_refl)))
          as [H | [m [Hr [Ha Hq]]]]; [left; exact H | right].
        exists m. split; [exact Hr|]. split; [intros a H; discriminate|].
        intros q' [H | H]; [inversion H; subst; apply Ha; reflexivity | auto].
      * destruct (Qle_bool a q) eqn:E.
        -- destruct (IH Hc2 Hf2 (pd.VFloat (pd.Fin a))
                       (or_intror (ex_intro _ a eq_refl)))
             as [H | [m [Hr [Ha Hq]]]]; [left; exact H | right].
           exists m. split; [exact Hr|]. split; [exact Ha|].
           intros q' [H | H]; [|auto]. inversion H; subst.
           apply Qle_bool_iff in E. eapply Qle_trans; [apply Ha; reflexivity|].
           exact E.
        -- destruct (IH Hc2 Hf2 (pd.VFloat (pd.Fin q))
                       (or_intror (ex_intro _ q eq_refl)))
             as [H | [m [Hr [Ha Hq]]]]; [left; exact H | right].
           exists m. split; [exact Hr|]. split.
           ++ intros a' H. inversion H; subst.
              assert (Hlt : (q < a')%Q).
              { apply Qnot_le_lt. intros Hle. apply Qle_bool_iff in Hle.
                congruence. }
              eapply Qle_trans; [apply Ha; reflexivity|].
              apply Qlt_le_weak. exact Hlt.
           ++ intros q' [H | H]; [|auto]. inversion H; subst.
              apply Ha. reflexivity.
Qed.

Lemma sqrt_transform_run (L : py.Lib) column s df ser :
  Engine.table s = Some df -> pd.empty df = false ->
  pd.getitem df column = Some ser -> numeric_kind (pd.dt ser) = true ->
  snd (sqrt_transform_column L column s)
  = py.Returned (py.Success (sqrt_message L column ser) [])
  /\ Engine.table (fst (sqrt_transform_column L column s))
     = Some (pd.setitem df (column ++ "_sqrt") pd.float64 (sqrt_values L ser)).
Proof.
  intros Ht He Hg Hk. unfold sqrt_transform_column.
  rewrite (guarded_run true column _ _ s df ser Ht He Hg)
    by (rewrite Hk; reflexivity).
  cbv zeta.
  destruct (assign_store_run _ _ df (column ++ "_sqrt") pd.float64
              (sqrt_values L ser) (py.Success (sqrt_message L column ser) [])
              (saved s df) (at_saved s df Ht He))
    as [s2 [Hrun [_ [Ht2 _]]]].
  rewrite Hrun. split; [reflexivity | exact Ht2].
Qed.

(** X24: [sqrt_transform_column] on a column of integers or of floats of a
    table with unique labels that is not empty succeeds and assigns
    [<column>_sqrt] as float64: the square roots of the values, shifted
    first by the absolute value of the minimum when the minimum is below
    zero, which the message then says.  For an integer minimum [z] below
    zero the shift is [-z] and the minimum is sent to 0; in a column of
    finite floats the minimum [m] is below every value, and a shifted value
    is the double nearest to [q + |m|], a number that is 0 or above. *)
Theorem sqrt_transform_shift
  (L : py.Lib) (column : string) (s : State) (df : pd.DataFrame)
  (ser : pd.Series) :
  NoDup (pd.columns df) ->
  Engine.table s = Some df ->
  pd.empty df = false ->
  pd.getitem df column = Some ser ->
  pd.is_np_number (pd.dt ser) = true ->
  snd (sqrt_transform_column L column s)
  = py.Returned (py.Success (sqrt_message L column ser) [])
  /\ Engine.table (fst (sqrt_transform_column L column s))
     = Some (pd.setitem df (column ++ "_sqrt") pd.float64 (sqrt_values L ser))
  /\ (if np.lt_zero (pd.min ser)
      then sqrt_values L ser
           = map (fun c => np.sqrt L (np.add L c (np.abs (pd.min ser))))
               (pd.values ser)
           /\ sqrt_message L column ser
              = "Square root transformed '" ++ column ++ "' to '"
                ++ (column ++ "_sqrt") ++ "' (shifted by "
                ++ scalar_str L (np.abs (pd.min ser)) ++ ")"
      else sqrt_values L ser = map (np.sqrt L) (pd.values ser)
           /\ sqrt_message L column ser
              = "Square root transformed '" ++ column ++ "' to '"
                ++ (column ++ "_sqrt") ++ "'")
  /\ (forall z, pd.min ser = pd.VInt z ->
        (if (z <? 0)%Z then np.lt_zero (pd.min ser) = true
         else np.lt_zero (pd.min ser) = false)
        /\ ((- 2 ^ 63 < z < 0)%Z ->
            np.abs (pd.min ser) = pd.VInt (- z)
            /\ np.sqrt L (np.add L (pd.VInt z) (np.abs (pd.min ser)))
               = pd.VFloat (pd.Fin 0)
            /\ forall c, (z <= c)%Z -> (c - z < 2 ^ 63)%Z ->
                 np.add L (pd.VInt c) (np.abs (pd.min ser))
                 = pd.VInt (c - z)))
  /\ (pd.dt ser = pd.float64 ->
      forallb (wf.conforms pd.float64) (pd.values ser) = true ->
      forallb wf.finite (pd.values ser) = true ->
      np.lt_zero (pd.min ser) = true ->
      exists m,
        pd.min ser = pd.VFloat (pd.Fin m)
        /\ (m < 0)%Q
        /\ np.abs (pd.min ser) = pd.VFloat (pd.Fin (Qabs m))
        /\ forall q, In (pd.VFloat (pd.Fin q)) (pd.values ser) ->
             (m <= q)%Q
             /\ (0 <= q + Qabs m)%Q
             /\ np.add L (pd.VFloat (pd.Fin q)) (np.abs (pd.min ser))
                = pd.VFloat (py.round_double L (q + Qabs m))).
Proof.
  intros _.
  intros Ht He Hg Hn. pose proof (np_number_kind _ Hn) as Hk.
  destruct (sqrt_transform_run L column s df ser Ht He Hg Hk) as [H1 H2].
  split; [exact H1|]. split; [exact H2|]. split; [|split].
  - unfold sqrt_values, sqrt_message.
    destruct (np.lt_zero (pd.min ser)); split; reflexivity.
  - intros z Hz. rewrite Hz. cbn [np.lt_zero]. split.
    + destruct (z <? 0)%Z; reflexivity.
    + intros Hr. cbn [np.abs np.add].
      rewrite (wrap64_small (Z.abs z)) by lia.
      replace (Z.abs z) with (- z)%Z by lia.
      split; [reflexivity|]. split.
      * rewrite wrap64_small by lia.
        replace (z + - z)%Z with 0%Z by lia. reflexivity.
      * intros c Hc Hc'. now rewrite wrap64_small by lia.
  - intros Hd Hc Hf Hlt.
    pose proof (min_of_floats (pd.values ser) Hc Hf pd.NA (or_introl eq_refl))
      as Hmin.
    cbv zeta in Hmin. fold (pd.min_values (pd.values ser)) in Hmin.
    fold (pd.min ser) in Hmin.
    destruct Hmin as [Hna | [m [Hm [_ Hle]]]];
      [rewrite Hna in Hlt; discriminate|].
    rewrite Hm in *. cbn [np.lt_zero] in Hlt.
    assert (Hneg : (m < 0)%Q).
    { apply Qnot_le_lt. intros H0. apply Qle_bool_iff in H0.
      rewrite H0 in Hlt. discriminate. }
    exists m. split; [reflexivity|]. split; [exact Hneg|].
    split; [reflexivity|].
    intros q Hq. specialize (Hle q Hq). split; [exact Hle|].
    split; [|reflexivity].
    rewrite Qabs_neg by (apply Qlt_le_weak; exact Hneg).
    setoid_replace 0%Q with (m + - m)%Q by (symmetry; apply Qplus_opp_r).
    apply Qplus_le_compat; [exact Hle | apply Qle_refl].
Qed.

Lemma sqrt_transform_shift_witness :
  Engine.table (Engine.loaded log_table) = Some log_table
  /\ pd.empty log_table = false
  /\ snd (sqrt_transform_column no_lib "x" (Engine.loaded log_table))
     = py.Returned
         (py.Success
            "Square root transformed 'x' to 'x_sqrt' (shifted by 5)" []).
Proof.
  split; [reflexivity|]. split; [reflexivity|].
  apply (sqrt_transform_shift no_lib "x" (Engine.loaded log_table) log_table
           {| pd.name := "x"; pd.dt := pd.int64;
              pd.values := [pd.VInt (-5); pd.VInt 0; pd.VInt 10] |}
           log_labels eq_refl eq_refl eq_refl eq_refl).
Defined.


Lemma undo_and_redo_witness :
  Engine.table (fst (undo one_snapshot)) = Some pca_table
  /\ redo_stack (fst (undo one_snapshot)) = [log_table]
  /\ redo (fst (undo one_snapshot))
     = (one_snapshot,
        py.Returned (py.Success "Redo applied successfully" [])).
Proof.
  pose proof (undo_and_redo_are_inverse one_snapshot log_table pca_table []
                eq_refl eq_refl eq_refl) as [H _].
  destruct (H eq_refl) as (_ & Ht & _ & Hr & Hredo).
  split; [exact Ht|]. split; [exact Hr|exact Hredo].
Defined.

Lemma undo_crosses_an_upload_witness :
  Engine.table (Session.set_dataset uploaded_people one_snapshot)
  = Some people_table
  /\ DatasetManager.current_dataset
       (dataset_manager
          (fst (undo (Session.set_dataset uploaded_people one_snapshot))))
     = Some {| models.data := Some pca_table;
               models.file_path := Some "people.csv" |}.
Proof.
  destruct (undo_crosses_an_upload one_snapshot uploaded_people pca_table []
              eq_refl) as (_ & _ & Ht & _ & Hd).
  split; [exact Ht|exact Hd].
Defined.

Lemma standardize_overwrites_witness :
  undo_stack (fst (standardize_column no_lib "x" (Engine.loaded log_table)))
  = [log_table]
  /\ redo_stack (fst (standardize_column no_lib "x" (Engine.loaded log_table)))
     = []
  /\ Engine.table (fst (standardize_column no_lib "x"
                          (Engine.loaded log_table)))
     = Some log_table.
Proof.
  pose proof (standardize_overwrites_in_place no_lib "x"
                (Engine.loaded log_table) log_table
                {| pd.name := "x"; pd.dt := pd.int64;
                   pd.values := [pd.VInt (-5); pd.VInt 0; pd.VInt 10] |}
                log_labels eq_refl eq_refl eq_refl eq_refl)
    as (Hu & Hr & Hm).
  split; [exact Hu|]. split; [exact Hr|]. exact (proj2 Hm).
Defined.


(** ** The logging service *)

Section Logging.

Import LoggingService Logs.

Lemma insert_desc_perm (x : Log) (l : list Log) :
  Permutation (insert_desc x l) (x :: l).
Proof.
  induction l as [|y l IH]; simpl; [reflexivity|].
  destruct (log_time y <=? log_time x)%Z; [reflexivity|].
  rewrite IH. apply perm_swap.
Qed.

Lemma sort_desc_perm (l : list Log) : Permutation (sort_desc l) l.
Proof.
  induction l as [|x l IH]; simpl; [reflexivity|].
  rewrite insert_desc_perm. now constructor.
Qed.

Lemma insert_desc_sorted (x : Log) (l : list Log) :
  StronglySorted not_before l -> StronglySorted not_before (insert_desc x l).
Proof.
  induction l as [|y l IH]; intros Hs; simpl.
  - repeat constructor.
  - destruct (log_time y <=? log_time x)%Z eqn:E.
    + inversion Hs as [|? ? Hl Hy]; subst.
      constructor; [assumption|].
      constructor; [unfold not_before; lia|].
      rewrite Forall_forall in *. intros z Hz. specialize (Hy z Hz).
      unfold not_before in *. lia.
    + inversion Hs as [|? ? Hl Hy]; subst.
      constructor; [auto|].
      rewrite Forall_forall in *. intros z Hz.
      apply (Permutation_in _ (insert_desc_perm x l)) in Hz.
      destruct Hz as [<-|Hz]; [unfold not_before; lia|auto].
Qed.

Lemma sort_desc_sorted (l : list Log) : StronglySorted not_before (sort_desc l).
Proof.
  induction l as [|x l IH]; simpl; [constructor|].
  now apply insert_desc_sorted.
Qed.

Lemma insert_desc_stable (t : Z) (x : Log) (l : list Log) :
  StronglySorted not_before l ->
  filter (fun a => (log_time a =? t)%Z) (insert_desc x l)
  = filter (fun a => (log_time a =? t)%Z) (x :: l).
Proof.
  induction l as [|y l IH]; intros Hs; [reflexivity|].
  cbn [insert_desc].
  destruct (log_time y <=? log_time x)%Z eqn:E; [reflexivity|].
  inversion Hs as [|? ? Hl Hy]; subst.
  cbn [filter]. rewrite (IH Hl). cbn [filter].
  destruct (log_time y =? t)%Z eqn:Ey, (log_time x =? t)%Z eqn:Ex;
    try reflexivity.
  lia.
Qed.

Lemma sort_desc_stable (t : Z) (l : list Log) :
  filter (fun a => (log_time a =? t)%Z) (sort_desc l)
  = filter (fun a => (log_time a =? t)%Z) l.
Proof.
  induction l as [|x l IH]; [reflexivity|].
  cbn [sort_desc fold_right].
  rewrite insert_desc_stable by apply sort_desc_sorted.
  cbn [filter]. fold (sort_desc l). now rewrite IH.
Qed.

Lemma length_sort_desc (l : list Log) : length (sort_desc l) = length l.
Proof. apply Permutation_length, sort_desc_perm. Qed.

Lemma get_logs_gathered (db : option DatabaseManager.t) (self : t)
  (dataset_id : option Z) :
  logs (get_logs db self dataset_id) = sort_desc (gathered db self dataset_id)
  /\ count (get_logs db self dataset_id)
     = length (logs (get_logs db self dataset_id))
  /\ success (get_logs db self dataset_id) = true.
Proof.
  unfold get_logs, gathered.
  destruct db as [d|], dataset_id as [z|]; cbn [app];
    try (repeat split; reflexivity).
  destruct (truthy (Some z)); cbn [app]; try (repeat split; reflexivity).
  destruct (DatabaseManager.fetch_logs d z); cbn [logs count success app].
  - repeat split; reflexivity.
  - rewrite length_sort_desc, length_map. repeat split; reflexivity.
Qed.

Lemma id_eqb_refl (a : option Z) : id_eqb a a = true.
Proof. destruct a; simpl; auto using Z.eqb_refl. Qed.

Lemma id_eqb_eq (a b : option Z) : id_eqb a b = true <-> a = b.
Proof.
  destruct a, b; simpl; split; intros H; try congruence; try discriminate.
  apply Z.eqb_eq in H. congruence.
  injection H as ->. apply Z.eqb_refl.
Qed.

Lemma get_logs_sorted (db : option DatabaseManager.t) (self : t)
  (dataset_id : option Z) :
  StronglySorted not_before (logs (get_logs db self dataset_id)).
Proof.
  rewrite (proj1 (get_logs_gathered db self dataset_id)).
  apply sort_desc_sorted.
Qed.

Lemma get_logs_local_entries (db : option DatabaseManager.t) (self : t)
  (dataset_id : option Z) (e : Entry) :
  In (local e) (logs (get_logs db self dataset_id)) <->
  In e self /\ (truthy dataset_id = true ->
                LoggingService.dataset_id e = dataset_id).
Proof.
  rewrite (proj1 (get_logs_gathered db self dataset_id)).
  split.
  - intros Hin. apply (Permutation_in _ (sort_desc_perm _)) in Hin.
    unfold gathered in Hin. apply in_app_or in Hin.
    destruct Hin as [Hin|Hin].
    + exfalso. destruct db as [d|], dataset_id as [z|]; try contradiction.
      destruct (truthy (Some z)); try contradiction.
      destruct (DatabaseManager.fetch_logs d z); try contradiction.
      apply in_map_iff in Hin. destruct Hin as (r & Hr & _). discriminate.
    + apply in_map_iff in Hin. destruct Hin as (e' & He & Hin).
      injection He as ->. unfold local_filtered in Hin.
      destruct (truthy dataset_id).
      * apply filter_In in Hin. destruct Hin as (Hin & Hid).
        split; [assumption|]. intros _. now apply id_eqb_eq.
      * split; [assumption|discriminate].
  - intros (Hin & Hid).
    apply (Permutation_in _ (Permutation_sym (sort_desc_perm _))).
    unfold gathered. apply in_or_app. right. apply in_map.
    unfold local_filtered. destruct (truthy dataset_id); [|assumption].
    apply filter_In. split; [assumption|]. apply id_eqb_eq. now apply Hid.
Qed.

(** X25: [get_logs] always answers a success.  Its logs are the rows the
    database returned for a named dataset (none without a manager, when no
    dataset is named, the id being [None] or 0, or when the call raises)
    and the local entries, those of the dataset or all of them, latest
    first, logs of one time stamp in that order; [count] is their
    number. *)
Theorem get_logs_latest_first (db : option DatabaseManager.t) (self : t)
  (dataset_id : option Z) :
  let result := get_logs db self dataset_id in
  success result = true
  /\ count result = length (logs result)
  /\ Permutation (logs result) (gathered db self dataset_id)
  /\ StronglySorted not_before (logs result)
  /\ (forall t : Z,
        filter (fun a => (log_time a =? t)%Z) (logs result)
        = filter (fun a => (log_time a =? t)%Z) (gathered db self dataset_id))
  /\ (forall e : Entry,
        In (local e) (logs result) <->
        In e self /\ (truthy dataset_id = true ->
                      LoggingService.dataset_id e = dataset_id))
  /\ (truthy dataset_id = false -> count result = length self).
Proof.
  cbv zeta.
  split; [apply get_logs_gathered|]. split; [apply get_logs_gathered|].
  split; [rewrite (proj1 (get_logs_gathered db self dataset_id));
          apply sort_desc_perm|].
  split; [apply get_logs_sorted|].
  split; [intros t0; rewrite (proj1 (get_logs_gathered db self dataset_id));
          apply sort_desc_stable|].
  split; [intros e; apply get_logs_local_entries|].
  intros Hf.
  rewrite (proj1 (proj2 (get_logs_gathered db self dataset_id))).
  rewrite (proj1 (get_logs_gathered db self dataset_id)).
  rewrite length_sort_desc. unfold gathered, local_filtered.
  rewrite Hf. destruct db as [d|], dataset_id as [z|]; cbn [app];
    now rewrite length_map.
Qed.

Lemma prefix_refl (s : string) : String.prefix s s = true.
Proof.
  induction s as [|a s IH]; [reflexivity|].
  simpl. now destruct (ascii_dec a a).
Qed.

Lemma prefix_app (s t : string) : String.prefix s (s ++ t) = true.
Proof.
  induction s as [|a s IH]; [now destruct t|].
  simpl. now destruct (ascii_dec a a).
Qed.

Lemma log_operation_appends (db : option DatabaseManager.t) (self : t)
  (dataset_id : option Z) (operation_type description : string) (now : Z) :
  fst (log_operation db self dataset_id operation_type description now)
  = (self ++ [entry_of dataset_id operation_type description now])%list
  /\ py.success
       (snd (log_operation db self dataset_id operation_type description now))
     = true.
Proof.
  unfold log_operation, entry_of, py_append.
  destruct db as [d|].
  - destruct (DatabaseManager.insert_log d dataset_id operation_type
                description); split; reflexivity.
  - split; reflexivity.
Qed.

(** X26: [log_operation] answers a success and appends its entry to the
    local logs, whatever the database does; from then on [get_logs] returns
    the entry, asked for the entry's dataset or for none, and
    [get_logs_by_operation_type] returns it for its operation type.  An
    entry of [log_cleaning_operation] has the type prefixed with
    [cleaning_], and is found under the type [cleaning] as well. *)
Theorem logged_operation_is_reported (db db' : option DatabaseManager.t)
  (self : t) (dataset_id : option Z) (operation_type description : string)
  (now : Z) :
  let result := log_operation db self dataset_id operation_type description
                  now in
  let entry := entry_of dataset_id operation_type description now in
  py.success (snd result) = true
  /\ fst result = (self ++ [entry])%list
  /\ (db = None -> py.message (snd result) = "Operation logged successfully")
  /\ In (local entry) (logs (get_logs db' (fst result) dataset_id))
  /\ In (local entry) (logs (get_logs db' (fst result) None))
  /\ In (local entry)
       (logs (get_logs_by_operation_type db' (fst result) operation_type
                dataset_id))
  /\ (let cleaned :=
        log_cleaning_operation db self dataset_id operation_type description
          now in
      let entry :=
        entry_of dataset_id ("cleaning_" ++ operation_type) description now in
      fst cleaned = (self ++ [entry])%list
      /\ In (local entry)
           (logs (get_logs_by_operation_type db' (fst cleaned) "cleaning"
                    dataset_id))).
Proof.
  cbv zeta.
  assert (Hfound : forall ty e, e = entry_of dataset_id ty description now ->
            In (local e) (logs (get_logs db' (self ++ [e])%list dataset_id))
            /\ In (local e) (logs (get_logs db' (self ++ [e])%list None))).
  { intros ty e ->. split;
      apply get_logs_local_entries;
      (split; [apply in_or_app; right; now left|]).
    - intros _. reflexivity.
    - discriminate. }
  destruct (log_operation_appends db self dataset_id operation_type
              description now) as (Hfst & Hsnd).
  split; [exact Hsnd|]. split; [exact Hfst|].
  split; [intros ->; reflexivity|].
  rewrite Hfst.
  destruct (Hfound operation_type _ eq_refl) as (H1 & H2).
  split; [exact H1|]. split; [exact H2|].
  split.
  - unfold get_logs_by_operation_type. cbn [logs].
    apply filter_In. split; [exact H1|].
    cbn [log_type entry_of LoggingService.operation_type].
    now rewrite String.eqb_refl.
  - unfold log_cleaning_operation.
    destruct (log_operation_appends db self dataset_id
                ("cleaning_" ++ operation_type) description now)
      as (Hfst' & _).
    split; [exact Hfst'|]. rewrite Hfst'.
    destruct (Hfound ("cleaning_" ++ operation_type) _ eq_refl) as (H1' & _).
    unfold get_logs_by_operation_type. cbn [logs].
    apply filter_In. split; [exact H1'|].
    cbn [log_type entry_of LoggingService.operation_type].
    apply orb_true_iff. right.
    change ("cleaning_" ++ operation_type)
      with ("cleaning" ++ ("_" ++ operation_type)).
    apply prefix_app.
Qed.


Lemma sorted_app_inv (l1 l2 : list Log) :
  StronglySorted not_before (l1 ++ l2)%list ->
  forall a b, In a l1 -> In b l2 -> not_before a b.
Proof.
  induction l1 as [|x l1 IH]; intros Hs a b Ha Hb; [contradiction|].
  simpl in Hs. inversion Hs as [|? ? Hl Hx]; subst.
  destruct Ha as [<-|Ha].
  - rewrite Forall_forall in Hx. apply Hx, in_or_app. now right.
  - now apply IH.
Qed.

Lemma py_slice_to_firstn {A : Type} (n : Z) (l : list A) :
  exists k : nat,
    py_slice_to n l = firstn k l
    /\ ((0 <= n)%Z -> k = Z.to_nat n)
    /\ ((n < 0)%Z -> k = length l - Z.to_nat (- n)).
Proof.
  unfold py_slice_to. destruct (0 <=? n)%Z eqn:E.
  - exists (Z.to_nat n). repeat split; auto; lia.
  - exists (length l - Z.to_nat (- n)). repeat split; auto; lia.
Qed.

(** X27: [get_recent_logs] returns the first [limit] logs of [get_logs],
    which are the latest ones: no log left out is later than one returned.
    A negative [limit] leaves out the last [-limit] logs instead. *)
Theorem recent_logs_are_the_latest (db : option DatabaseManager.t) (self : t)
  (limit : Z) (dataset_id : option Z) :
  let all := logs (get_logs db self dataset_id) in
  let recent := get_recent_logs db self limit dataset_id in
  success recent = true
  /\ count recent = length (logs recent)
  /\ (exists rest : list Log,
        all = (logs recent ++ rest)%list
        /\ forall a b, In a (logs recent) -> In b rest -> not_before a b)
  /\ ((0 <= limit)%Z -> count recent = Nat.min (Z.to_nat limit) (length all))
  /\ ((limit < 0)%Z -> count recent = length all - Z.to_nat (- limit)).
Proof.
  cbv zeta. unfold get_recent_logs. cbn [success count logs].
  set (all := logs (get_logs db self dataset_id)).
  assert (Hs : StronglySorted not_before all)
    by apply get_logs_sorted.
  destruct (py_slice_to_firstn limit all) as (k & Hk & Hpos & Hneg).
  rewrite Hk. split; [reflexivity|]. split; [reflexivity|]. split.
  - exists (skipn k all). split; [now rewrite firstn_skipn|].
    apply sorted_app_inv. now rewrite firstn_skipn.
  - rewrite length_firstn. split; intros H.
    + now rewrite (Hpos H).
    + rewrite (Hneg H). lia.
Qed.


End Logging.

(** ** Export *)

Section Exports.

Import FileHandler ExportController.

Lemma endswith_refl (s : string) : endswith s s = true.
Proof. destruct s; cbn [endswith]; [reflexivity|]. now rewrite String.eqb_refl. Qed.

Lemma endswith_app (p s : string) : endswith (p ++ s) s = true.
Proof.
  induction p as [|a p IH]; [apply endswith_refl|].
  cbn [append endswith]. rewrite IH. apply orb_true_r.
Qed.

Lemma endswith_length (s suffix : string) :
  endswith s suffix = true -> String.length suffix <= String.length s.
Proof.
  induction s as [|a s IH]; cbn [endswith]; intros H.
  - rewrite orb_false_r in H. apply String.eqb_eq in H. now subst.
  - apply orb_true_iff in H. destruct H as [H|H].
    + apply String.eqb_eq in H. subst suffix. apply Nat.le_refl.
    + apply IH in H. cbn [String.length]. lia.
Qed.

Lemma endswith_same_length (s a b : string) :
  endswith s a = true -> endswith s b = true ->
  String.length a = String.length b -> a = b.
Proof.
  induction s as [|c s IH]; cbn [endswith]; intros Ha Hb Hlen.
  - rewrite orb_false_r in Ha, Hb.
    apply String.eqb_eq in Ha, Hb. congruence.
  - apply orb_true_iff in Ha, Hb.
    destruct Ha as [Ha|Ha], Hb as [Hb|Hb].
    + apply String.eqb_eq in Ha, Hb. congruence.
    + apply String.eqb_eq in Ha. apply endswith_length in Hb.
      subst a. cbn [String.length] in Hlen. lia.
    + apply String.eqb_eq in Hb. apply endswith_length in Ha.
      subst b. cbn [String.length] in Hlen. lia.
    + now apply IH.
Qed.

Lemma endswith_tail (s : string) (c : ascii) (t : string) :
  endswith s (String c t) = true -> endswith s t = true.
Proof.
  induction s as [|a s IH]; cbn [endswith]; intros H.
  - discriminate.
  - apply orb_true_iff in H. destruct H as [H|H].
    + apply String.eqb_eq in H. injection H as -> ->.
      rewrite endswith_refl. apply orb_true_r.
    + rewrite (IH H). apply orb_true_r.
Qed.

Lemma xls_is_no_other (path : string) :
  endswith path ".xls" = true ->
  endswith path ".csv" = false /\ endswith path ".xlsx" = false
  /\ String.eqb path "" = false.
Proof.
  intros H. repeat split.
  - destruct (endswith path ".csv") eqn:E; [|reflexivity].
    discriminate (endswith_same_length _ _ _ H E eq_refl).
  - destruct (endswith path ".xlsx") eqn:E; [|reflexivity].
    apply endswith_tail in E.
    discriminate (endswith_same_length _ _ _ H E eq_refl).
  - now destruct path.
Qed.

Lemma xlsx_is_no_csv (path : string) :
  endswith path ".xlsx" = true -> endswith path ".csv" = false.
Proof.
  intros H. destruct (endswith path ".csv") eqn:E; [|reflexivity].
  apply endswith_tail in H.
  discriminate (endswith_same_length _ _ _ H E eq_refl).
Qed.

(** X28: a path ending in [.xls] passes [validate_export_path] and is read
    by [load_file] as an Excel file, yet [save_file] and with it
    [export_dataset] refuse it as an unsupported format, without writing or
    logging anything. *)
Theorem xls_path_is_valid_but_not_saved (F : io.Files)
  (db service_db : option DatabaseManager.t) (logs : LoggingService.t)
  (df : pd.DataFrame) (path : string) (dataset_id : option Z) (now : Z) :
  endswith path ".xls" = true ->
  validate_export_path path
  = {| valid := true; message := "Valid export path" |}
  /\ save_file F df path = py.Failure "Unsupported file format"
  /\ (pd.empty df = false ->
      export_dataset F db service_db logs (Some df) path dataset_id now
      = (logs, py.Failure "Unsupported file format"))
  /\ load_file F path
     = match io.read_excel F path with
       | py.Returned table => loaded table path
       | py.Raised e => load_failed ("Error loading file: " ++ e)
       end.
Proof.
  intros H. destruct (xls_is_no_other path H) as (Hcsv & Hxlsx & Hne).
  assert (Hsave : save_file F df path = py.Failure "Unsupported file format").
  { unfold save_file. now rewrite Hcsv, Hxlsx. }
  split.
  - unfold validate_export_path, validate_file_path, supported_extensions.
    rewrite Hne. cbn [existsb]. now rewrite Hcsv, Hxlsx, H.
  - split; [exact Hsave|]. split.
    + intros He. unfold export_dataset. now rewrite He, Hsave.
    + unfold load_file. rewrite Hcsv, Hxlsx, H. reflexivity.
Qed.

Lemma xls_path_witness :
  endswith "out.xls" ".xls" = true
  /\ validate_export_path "out.xls"
     = {| valid := true; message := "Valid export path" |}
  /\ export_dataset no_files None None [] (Some people_table) "out.xls" None 0
     = ([], py.Failure "Unsupported file format").
Proof.
  split; [reflexivity|].
  pose proof (xls_path_is_valid_but_not_saved no_files None None []
                people_table "out.xls" None 0 eq_refl) as (Hv & _ & He & _).
  split; [exact Hv|]. apply He. reflexivity.
Defined.












(** X30: [quick_export_csv] writes to the path itself when it ends in
    [.csv] and to the path with [.csv] appended otherwise, always with the
    CSV writer: for a table that is not empty it fails only when that
    writer raises, never for an unsupported format.  [quick_export_excel]
    does the same with [.xlsx] and the Excel writer. *)
Theorem quick_export_fixes_the_extension (F : io.Files)
  (db service_db : option DatabaseManager.t) (logs : LoggingService.t)
  (df : pd.DataFrame) (path : string) (dataset_id : option Z) (now : Z) :
  let csv_path := if endswith path ".csv" then path else path ++ ".csv" in
  let xlsx_path := if endswith path ".xlsx" then path else path ++ ".xlsx" in
  let csv :=
    quick_export_csv F db service_db logs (Some df) path dataset_id now in
  let xlsx :=
    quick_export_excel F db service_db logs (Some df) path dataset_id now in
  endswith csv_path ".csv" = true
  /\ endswith xlsx_path ".xlsx" = true
  /\ csv = export_dataset F db service_db logs (Some df) csv_path dataset_id
             now
  /\ xlsx = export_dataset F db service_db logs (Some df) xlsx_path dataset_id
              now
  /\ (pd.empty df = false ->
      snd csv
      = match io.to_csv F df csv_path with
        | py.Returned _ => py.Success (exported_message df csv_path) []
        | py.Raised e => py.Failure ("Error saving file: " ++ e)
        end
      /\ snd xlsx
         = match io.to_excel F df xlsx_path with
           | py.Returned _ => py.Success (exported_message df xlsx_path) []
           | py.Raised e => py.Failure ("Error saving file: " ++ e)
           end).
Proof.
  cbv zeta.
  assert (Hc : endswith (if endswith path ".csv" then path
                         else path ++ ".csv") ".csv" = true).
  { destruct (endswith path ".csv") eqn:E; [exact E|apply endswith_app]. }
  assert (Hx : endswith (if endswith path ".xlsx" then path
                         else path ++ ".xlsx") ".xlsx" = true).
  { destruct (endswith path ".xlsx") eqn:E; [exact E|apply endswith_app]. }
  split; [exact Hc|]. split; [exact Hx|].
  split; [unfold quick_export_csv; now destruct (endswith path ".csv")|].
  split; [unfold quick_export_excel; now destruct (endswith path ".xlsx")|].
  intros He. split.
  - unfold quick_export_csv.
    replace (if negb (endswith path ".csv") then path ++ ".csv" else path)
      with (if endswith path ".csv" then path else path ++ ".csv")
      by now destruct (endswith path ".csv").
    set (p := if endswith path ".csv" then path else path ++ ".csv") in *.
    unfold export_dataset, save_file. rewrite He, Hc.
    now destruct (io.to_csv F df p).
  - unfold quick_export_excel.
    replace (if negb (endswith path ".xlsx") then path ++ ".xlsx" else path)
      with (if endswith path ".xlsx" then path else path ++ ".xlsx")
      by now destruct (endswith path ".xlsx").
    set (p := if endswith path ".xlsx" then path else path ++ ".xlsx") in *.
    unfold export_dataset, save_file.
    rewrite He, (xlsx_is_no_csv p Hx), Hx.
    now destruct (io.to_excel F df p).
Qed.


End Exports.
